(** * Student Management System: the record layer of [student.py]

    A shallow embedding of the class [StudentManagementSystem] and of
    [setup_database], together with the part of the MySQL server and of
    [mysql.connector] that the methods talk to, and the properties of the
    specification stated over it.

    Conventions of the model.
    - [marks] is a [DECIMAL(5,2)] column: a value of marks is the whole
      number of hundredths (88.50 is [8850]).
    - A [TIMESTAMP] is a calendar time to the second, as the column declares
      no fractional part.
    - The server runs in its default (strict) SQL mode: a value that does not
      fit its column is refused, it is not truncated.
    - Text is compared with a case-insensitive collation, the server's
      default for a [VARCHAR] column; the model covers the ASCII range.
    - The one statement the program builds from text the user typed, the
      creation of the database in the manual part of [setup_database],
      reaches the server as that text; what the server makes of it is a
      parameter, [Server], fixed only for the text that names [student_db].
    - [print] calls write to the terminal only and are left out. *)

From Stdlib Require Import ZArith List String Ascii Bool Lia.
From Stdlib Require Import Permutation Sorted.
Import ListNotations.

Local Open Scope Z_scope.

(* ================================================================== *)
(** ** Timestamps and [DATE_FORMAT] *)

Record Timestamp : Type := mkTimestamp {
  year : Z; month : Z; day : Z; hour : Z; minute : Z; second : Z
}.

(** The fields of a calendar time are in the ranges their printed width
    allows. *)
Definition ts_valid (t : Timestamp) : Prop :=
  0 <= year t < 10000 /\ 0 <= month t < 100 /\ 0 <= day t < 100 /\
  0 <= hour t < 100 /\ 0 <= minute t < 100 /\ 0 <= second t < 100.

Definition lex (c d : comparison) : comparison :=
  match c with Eq => d | _ => c end.

(** Chronological order: field by field, most significant first. *)
Definition ts_compare (a b : Timestamp) : comparison :=
  lex (year a ?= year b)
 (lex (month a ?= month b)
 (lex (day a ?= day b)
 (lex (hour a ?= hour b)
 (lex (minute a ?= minute b) (second a ?= second b))))).

Definition ts_lt (a b : Timestamp) : Prop := ts_compare a b = Lt.
Definition ts_le (a b : Timestamp) : Prop := ts_compare a b <> Gt.

Definition ts_eqb (a b : Timestamp) : bool :=
  (year a =? year b) && (month a =? month b) && (day a =? day b) &&
  (hour a =? hour b) && (minute a =? minute b) && (second a =? second b).

Definition digit (d : Z) : ascii := ascii_of_N (48 + Z.to_N d).

(** [digits k x]: the last [k] decimal digits of [x], zero padded. *)
Fixpoint digits (k : nat) (x : Z) : string :=
  match k with
  | O => EmptyString
  | S k' => (digits k' (x / 10) ++ String (digit (x mod 10)) EmptyString)%string
  end.

(** [DATE_FORMAT(t, '%Y-%m-%d %H:%i:%s')]. *)
Definition DATE_FORMAT (t : Timestamp) : string :=
  (digits 4 (year t) ++ "-" ++ digits 2 (month t) ++ "-" ++ digits 2 (day t)
   ++ " " ++ digits 2 (hour t) ++ ":" ++ digits 2 (minute t) ++ ":"
   ++ digits 2 (second t))%string.

(* ================================================================== *)
(** ** Values, rows and the [students] table *)

(** A Python value handed to [cursor.execute] as a parameter. *)
Inductive Value : Type :=
| NONE
| Str (s : string)
| Int (z : Z)
| Dec (hundredths : Z).

Definition py_str (o : option string) : Value :=
  match o with Some s => Str s | None => NONE end.
Definition py_int (o : option Z) : Value :=
  match o with Some z => Int z | None => NONE end.
Definition py_dec (o : option Z) : Value :=
  match o with Some z => Dec z | None => NONE end.

(** One row of [students]: the seven columns of the [CREATE TABLE]. *)
Record Row : Type := mkRow {
  row_id : Z;
  row_name : string;
  row_age : Z;
  row_class : string;
  row_marks : Z;
  row_created_at : Timestamp;
  row_updated_at : Timestamp
}.

(** A fetched row of a [dictionary=True] cursor: the timestamps come back
    rendered by [DATE_FORMAT]. *)
Record Student : Type := mkStudent {
  id : Z;
  name : string;
  age : Z;
  class : string;
  marks : Z;
  created_at : string;
  updated_at : string
}.

Definition fetch (r : Row) : Student :=
  {| id := row_id r; name := row_name r; age := row_age r;
     class := row_class r; marks := row_marks r;
     created_at := DATE_FORMAT (row_created_at r);
     updated_at := DATE_FORMAT (row_updated_at r) |}.

(** The table: its rows in storage order and the [AUTO_INCREMENT] counter. *)
Record Table : Type := mkTable {
  rows : list Row;
  auto_increment : Z
}.

Definition empty_table : Table := {| rows := []; auto_increment := 1 |}.

Inductive Column : Type := col_name | col_age | col_class | col_marks.

(** The statements the program sends; the parameters travel beside them. *)
Inductive Query : Type :=
| CREATE_TABLE_IF_NOT_EXISTS
| INSERT_INTO_students
| UPDATE_students_SET (update_fields : list Column)
| DELETE_FROM_students_WHERE_id
| SELECT_ORDER_BY_id
| SELECT_WHERE_id
| SELECT_WHERE_name_LIKE_ORDER_BY_name
| SELECT_COUNT.

(** The database a connection is attached to: the [students] table, if it has
    been created, and the statements the server has received so far. *)
Record Database : Type := mkDatabase {
  students : option Table;
  received : list (Query * list Value)
}.

(** What a cursor holds after [execute]. *)
Inductive Result : Type :=
| Done (lastrowid : Z) (rowcount : Z)
| Fetched (result_set : list Student)
| Total (total : Z).

Definition lastrowid (r : Result) : Z :=
  match r with Done i _ => i | _ => 0 end.
Definition rowcount (r : Result) : Z :=
  match r with
  | Done _ n => n
  | Fetched l => Z.of_nat (List.length l)
  | Total _ => 1
  end.
Definition fetchall (r : Result) : list Student :=
  match r with Fetched l => l | _ => [] end.
Definition fetchone_total (r : Result) : option Z :=
  match r with Total n => Some n | _ => None end.

(* ================================================================== *)
(** ** The server: column checks *)

(** [name VARCHAR(100) NOT NULL] *)
Definition fits_name (v : Value) : option string :=
  match v with
  | Str s => if (String.length s <=? 100)%nat then Some s else None
  | _ => None
  end.

(** [age INT NOT NULL] *)
Definition fits_age (v : Value) : option Z :=
  match v with
  | Int z => if (-2147483648 <=? z) && (z <=? 2147483647) then Some z else None
  | _ => None
  end.

(** [class VARCHAR(50) NOT NULL] *)
Definition fits_class (v : Value) : option string :=
  match v with
  | Str s => if (String.length s <=? 50)%nat then Some s else None
  | _ => None
  end.

(** [marks DECIMAL(5,2) NOT NULL]: at most 999.99 in absolute value; an
    integer is taken as that many units. *)
Definition fits_marks (v : Value) : option Z :=
  match v with
  | Dec h => if (-99999 <=? h) && (h <=? 99999) then Some h else None
  | Int z => if (-999 <=? z) && (z <=? 999) then Some (z * 100) else None
  | _ => None
  end.

(** [SET col = %s] on one row; [None] when the server refuses the value. *)
Definition set_column (r : Row) (c : Column) (v : Value) : option Row :=
  match c with
  | col_name =>
      match fits_name v with
      | Some s => Some (mkRow (row_id r) s (row_age r) (row_class r)
                          (row_marks r) (row_created_at r) (row_updated_at r))
      | None => None
      end
  | col_age =>
      match fits_age v with
      | Some z => Some (mkRow (row_id r) (row_name r) z (row_class r)
                          (row_marks r) (row_created_at r) (row_updated_at r))
      | None => None
      end
  | col_class =>
      match fits_class v with
      | Some s => Some (mkRow (row_id r) (row_name r) (row_age r) s
                          (row_marks r) (row_created_at r) (row_updated_at r))
      | None => None
      end
  | col_marks =>
      match fits_marks v with
      | Some h => Some (mkRow (row_id r) (row_name r) (row_age r) (row_class r)
                          h (row_created_at r) (row_updated_at r))
      | None => None
      end
  end.

(** The [SET] list applied left to right, one parameter per column. *)
Fixpoint assign (r : Row) (fields : list Column) (vals : list Value)
  : option Row :=
  match fields, vals with
  | [], [] => Some r
  | c :: fields', v :: vals' =>
      match set_column r c v with
      | Some r' => assign r' fields' vals'
      | None => None
      end
  | _, _ => None
  end.

(** Whether an [UPDATE] left the four data columns of a row as they were. *)
Definition same_data (r r' : Row) : bool :=
  String.eqb (row_name r) (row_name r') && (row_age r =? row_age r') &&
  String.eqb (row_class r) (row_class r') && (row_marks r =? row_marks r').

(** [updated_at TIMESTAMP ... ON UPDATE CURRENT_TIMESTAMP] *)
Definition touch (now : Timestamp) (r : Row) : Row :=
  mkRow (row_id r) (row_name r) (row_age r) (row_class r) (row_marks r)
        (row_created_at r) now.

(** [WHERE id = %s]: [NULL] is equal to nothing. *)
Definition where_id (v : Value) (r : Row) : bool :=
  match v with
  | Int i => row_id r =? i
  | _ => false
  end.

(* ================================================================== *)
(** ** The server: collation, [LIKE] and [ORDER BY] *)

Definition fold_case (c : ascii) : ascii :=
  let n := N_of_ascii c in
  if ((97 <=? n) && (n <=? 122))%N then ascii_of_N (n - 32) else c.

Definition collate (s : list ascii) : list ascii := map fold_case s.

Definition ci_eqb (c d : ascii) : bool := Ascii.eqb (fold_case c) (fold_case d).

(** The elements of a [LIKE] pattern. *)
Inductive Token : Type :=
| AnyRun            (* % *)
| AnyChar           (* _ *)
| Lit (c : ascii).

(** A pattern read left to right; the backslash takes the next character
    literally. *)
Fixpoint like_tokens (p : list ascii) : list Token :=
  match p with
  | [] => []
  | c :: rest =>
      if Ascii.eqb c "\" then
        match rest with
        | [] => [Lit c]
        | d :: rest' => Lit d :: like_tokens rest'
        end
      else if Ascii.eqb c "%" then AnyRun :: like_tokens rest
      else if Ascii.eqb c "_" then AnyChar :: like_tokens rest
      else Lit c :: like_tokens rest
  end.

Fixpoint like_match (ts : list Token) (s : list ascii) : bool :=
  match ts with
  | [] => match s with [] => true | _ => false end
  | AnyRun :: ts' =>
      (fix skip (s : list ascii) : bool :=
         like_match ts' s ||
         match s with [] => false | _ :: s' => skip s' end) s
  | AnyChar :: ts' =>
      match s with [] => false | _ :: s' => like_match ts' s' end
  | Lit c :: ts' =>
      match s with [] => false | d :: s' => ci_eqb c d && like_match ts' s' end
  end.

(** [name LIKE %s] *)
Definition where_name_like (v : Value) (r : Row) : bool :=
  match v with
  | Str p => like_match (like_tokens (list_ascii_of_string p))
                        (list_ascii_of_string (row_name r))
  | _ => false
  end.

(** The order of the collation on names. *)
Definition name_leb (a b : string) : bool :=
  String.leb (string_of_list_ascii (collate (list_ascii_of_string a)))
             (string_of_list_ascii (collate (list_ascii_of_string b))).

Section OrderBy.
Variable leb : Row -> Row -> bool.

Fixpoint insert_row (r : Row) (l : list Row) : list Row :=
  match l with
  | [] => [r]
  | x :: l' => if leb r x then r :: l else x :: insert_row r l'
  end.

Fixpoint order_by (l : list Row) : list Row :=
  match l with
  | [] => []
  | r :: l' => insert_row r (order_by l')
  end.
End OrderBy.

Definition by_id (a b : Row) : bool := row_id a <=? row_id b.
Definition by_name (a b : Row) : bool := name_leb (row_name a) (row_name b).

(* ================================================================== *)
(** ** The server: running one statement *)

(** [INSERT INTO students (name, age, class, marks) VALUES (%s, %s, %s, %s)]:
    the new row takes the next [AUTO_INCREMENT] value and the current time in
    both timestamp columns. *)
Definition run_insert (now : Timestamp) (params : list Value) (t : Table)
  : option (Result * Table) :=
  match params with
  | [n; a; c; m] =>
      match fits_name n, fits_age a, fits_class c, fits_marks m with
      | Some n', Some a', Some c', Some m' =>
          let i := auto_increment t in
          Some (Done i 1,
                {| rows := rows t ++ [mkRow i n' a' c' m' now now];
                   auto_increment := i + 1 |})
      | _, _, _, _ => None
      end
  | _ => None
  end.

(** [UPDATE students SET ... WHERE id = %s] over the rows. The count is of the
    rows changed, or of the rows matched when the client asked for
    [FOUND_ROWS]; [updated_at] moves only on a row that changed. *)
Fixpoint update_rows (found_rows : bool) (now : Timestamp)
    (fields : list Column) (vals : list Value) (idv : Value) (rs : list Row)
  : option (list Row * Z) :=
  match rs with
  | [] => Some ([], 0)
  | r :: rest =>
      match update_rows found_rows now fields vals idv rest with
      | None => None
      | Some (rest', n) =>
          if where_id idv r then
            match assign r fields vals with
            | None => None
            | Some r' =>
                if same_data r r'
                then Some (r :: rest', if found_rows then n + 1 else n)
                else Some (touch now r' :: rest', n + 1)
            end
          else Some (r :: rest', n)
      end
  end.

Definition run_update (found_rows : bool) (now : Timestamp)
    (fields : list Column) (params : list Value) (t : Table)
  : option (Result * Table) :=
  if (List.length params =? S (List.length fields))%nat then
    match update_rows found_rows now fields (removelast params)
                      (last params NONE) (rows t) with
    | Some (rs, n) =>
        Some (Done 0 n, {| rows := rs; auto_increment := auto_increment t |})
    | None => None
    end
  else None.

(** [DELETE FROM students WHERE id = %s] *)
Definition run_delete (params : list Value) (t : Table)
  : option (Result * Table) :=
  match params with
  | [idv] =>
      let kept := filter (fun r => negb (where_id idv r)) (rows t) in
      Some (Done 0 (Z.of_nat (List.length (rows t))
                    - Z.of_nat (List.length kept)),
            {| rows := kept; auto_increment := auto_increment t |})
  | _ => None
  end.

(** One statement on the table; [None] is a statement the server refuses. *)
Definition run (found_rows : bool) (now : Timestamp) (q : Query)
    (params : list Value) (t : Table) : option (Result * Table) :=
  match q with
  | CREATE_TABLE_IF_NOT_EXISTS => Some (Done 0 0, t)
  | INSERT_INTO_students => run_insert now params t
  | UPDATE_students_SET fields => run_update found_rows now fields params t
  | DELETE_FROM_students_WHERE_id => run_delete params t
  | SELECT_ORDER_BY_id =>
      match params with
      | [] => Some (Fetched (map fetch (order_by by_id (rows t))), t)
      | _ => None
      end
  | SELECT_WHERE_id =>
      match params with
      | [idv] => Some (Fetched (map fetch (filter (where_id idv) (rows t))), t)
      | _ => None
      end
  | SELECT_WHERE_name_LIKE_ORDER_BY_name =>
      match params with
      | [p] =>
          Some (Fetched (map fetch (order_by by_name
                           (filter (where_name_like p) (rows t)))), t)
      | _ => None
      end
  | SELECT_COUNT =>
      match params with
      | [] => Some (Total (Z.of_nat (List.length (rows t))), t)
      | _ => None
      end
  end.

(* ================================================================== *)
(** ** Outcomes of Python code over the database *)

Inductive exn : Type :=
| Error               (* mysql.connector.Error and its subclasses *)
| AttributeError
| UnboundLocalError.

Inductive outcome (A : Type) : Type :=
| Returned (a : A)
| Raised (e : exn).
Arguments Returned {A} a.
Arguments Raised {A} e.

Definition raised {A : Type} (o : outcome A) : bool :=
  match o with Raised _ => true | Returned _ => false end.

(** A method body: it runs against the database and ends by returning or by
    raising. *)
Definition M (A : Type) : Type := Database -> outcome A * Database.

Definition ret {A : Type} (a : A) : M A := fun db => (Returned a, db).
Definition raise {A : Type} (e : exn) : M A := fun db => (Raised e, db).
Definition bind {A B : Type} (m : M A) (k : A -> M B) : M B :=
  fun db =>
    match m db with
    | (Returned a, db') => k a db'
    | (Raised e, db') => (Raised e, db')
    end.

Notation "x <- m ;; k" := (bind m (fun x => k))
  (at level 100, m at next level, right associativity).

(** [try: body / except Error as e: handler]; nothing else is caught. *)
Definition try_except_Error {A : Type} (body handler : M A) : M A :=
  fun db =>
    match body db with
    | (Raised Error, db') => handler db'
    | r => r
    end.

(* ================================================================== *)
(** ** The connector *)

(** A connection object of [mysql.connector]: where it leads, whether
    [is_connected()] holds, and the [FOUND_ROWS] client flag. *)
Record Connection : Type := mkConnection {
  conn_host : string;
  conn_database : option string;
  is_connected : bool;
  found_rows : bool
}.

(** [self.connection.cursor()]: an attribute of [None] is an
    [AttributeError]; a connection that is not available raises [Error]. *)
Definition cursor (connection : option Connection) : M Connection :=
  match connection with
  | None => raise AttributeError
  | Some c => if is_connected c then ret c else raise Error
  end.

(** [cursor.execute(query, params)]: the server records the statement and
    runs it; a refused statement, or any statement but the table's creation
    while the table is missing, raises [Error] and changes nothing. *)
Definition execute (cur : Connection) (now : Timestamp) (q : Query)
    (params : list Value) : M Result :=
  fun db =>
    let log := received db ++ [(q, params)] in
    match students db, q with
    | None, CREATE_TABLE_IF_NOT_EXISTS =>
        (Returned (Done 0 0), {| students := Some empty_table; received := log |})
    | None, _ => (Raised Error, {| students := None; received := log |})
    | Some t, _ =>
        match run (found_rows cur) now q params t with
        | Some (res, t') =>
            (Returned res, {| students := Some t'; received := log |})
        | None => (Raised Error, {| students := Some t; received := log |})
        end
    end.

(** [self.connection.commit()]: each statement of the program is its own
    transaction, so the commit keeps what [execute] did. *)
Definition commit (cur : Connection) : M unit := ret tt.

(* ================================================================== *)
(** ** class [StudentManagementSystem] *)

Record StudentManagementSystem : Type := mkSMS {
  host : string;
  database : string;
  user : string;
  password : string;
  connection : option Connection
}.

(** [__init__]: the parameters are kept and no connection is made. *)
Definition init (host database user password : string)
  : StudentManagementSystem :=
  mkSMS host database user password None.

(** Truth value of an optional text ([if name:]): neither [None] nor empty. *)
Definition truthy_str (o : option string) : bool :=
  match o with
  | Some s => negb (String.eqb s "")
  | None => false
  end.

(** Truth value of an optional integer ([if student_id:]). *)
Definition truthy_int (o : option Z) : bool :=
  match o with
  | Some z => negb (z =? 0)
  | None => false
  end.

(** [x is not None] *)
Definition is_not_None {A : Type} (o : option A) : bool :=
  match o with Some _ => true | None => false end.

(** [create_table_if_not_exists]: [cursor] is first bound inside the [try],
    so when [self.connection.cursor()] raises, the [finally] clause reads an
    unbound local. *)
Definition create_table_if_not_exists (self : StudentManagementSystem)
    (now : Timestamp) : M unit :=
  fun db =>
    match cursor (connection self) db with
    | (Raised _, db') => (Raised UnboundLocalError, db')
    | (Returned cur, db') =>
        try_except_Error
          (_ <- execute cur now CREATE_TABLE_IF_NOT_EXISTS [] ;;
           _ <- commit cur ;;
           ret tt)
          (ret tt) db'
    end.

Definition add_student (self : StudentManagementSystem) (now : Timestamp)
    (name : option string) (age : option Z) (class_name : option string)
    (marks : option Z) : M (option Z) :=
  let student_data := [py_str name; py_int age; py_str class_name; py_dec marks] in
  try_except_Error
    (cur <- cursor (connection self) ;;
     res <- execute cur now INSERT_INTO_students student_data ;;
     _ <- commit cur ;;
     let student_id := lastrowid res in
     ret (Some student_id))
    (ret None).

Definition update_student (self : StudentManagementSystem) (now : Timestamp)
    (student_id : Z) (name : option string) (age : option Z)
    (class_name : option string) (marks : option Z) : M Z :=
  let update_fields := [] in
  let values := [] in
  let '(update_fields, values) :=
    if truthy_str name
    then (update_fields ++ [col_name], values ++ [py_str name])
    else (update_fields, values) in
  let '(update_fields, values) :=
    if is_not_None age
    then (update_fields ++ [col_age], values ++ [py_int age])
    else (update_fields, values) in
  let '(update_fields, values) :=
    if truthy_str class_name
    then (update_fields ++ [col_class], values ++ [py_str class_name])
    else (update_fields, values) in
  let '(update_fields, values) :=
    if is_not_None marks
    then (update_fields ++ [col_marks], values ++ [py_dec marks])
    else (update_fields, values) in
  match update_fields with
  | [] => ret 0
  | _ :: _ =>
      let values := values ++ [Int student_id] in
      try_except_Error
        (cur <- cursor (connection self) ;;
         res <- execute cur now (UPDATE_students_SET update_fields) values ;;
         _ <- commit cur ;;
         let rows_affected := rowcount res in
         ret rows_affected)
        (ret 0)
  end.

Definition delete_student (self : StudentManagementSystem) (now : Timestamp)
    (student_id : Z) : M Z :=
  try_except_Error
    (cur <- cursor (connection self) ;;
     res <- execute cur now DELETE_FROM_students_WHERE_id [Int student_id] ;;
     _ <- commit cur ;;
     let rows_affected := rowcount res in
     ret rows_affected)
    (ret 0).

Definition view_all_students (self : StudentManagementSystem)
    (now : Timestamp) : M (list Student) :=
  try_except_Error
    (cur <- cursor (connection self) ;;
     res <- execute cur now SELECT_ORDER_BY_id [] ;;
     let students := fetchall res in
     ret students)
    (ret []).

(** [f"%{search_term}%"] *)
Definition like_pattern (search_term : option string) : string :=
  ("%" ++ match search_term with Some s => s | None => "None" end ++ "%")%string.

Definition search_students (self : StudentManagementSystem) (now : Timestamp)
    (search_term : option string) (student_id : option Z)
  : M (list Student) :=
  try_except_Error
    (cur <- cursor (connection self) ;;
     if truthy_int student_id then
       res <- execute cur now SELECT_WHERE_id [py_int student_id] ;;
       let students := fetchall res in
       ret students
     else if truthy_str search_term then
       res <- execute cur now SELECT_WHERE_name_LIKE_ORDER_BY_name
                      [Str (like_pattern search_term)] ;;
       let students := fetchall res in
       ret students
     else ret [])
    (ret []).

Definition get_student_count (self : StudentManagementSystem)
    (now : Timestamp) : M Z :=
  try_except_Error
    (cur <- cursor (connection self) ;;
     res <- execute cur now SELECT_COUNT [] ;;
     let result := fetchone_total res in
     ret (match result with Some total => total | None => 0 end))
    (ret 0).

(** [close_connection] acts on the object alone: an open connection is
    closed, anything else is left as it is. *)
Definition close_connection (self : StudentManagementSystem)
  : outcome unit * StudentManagementSystem :=
  match connection self with
  | Some c =>
      if is_connected c
      then (Returned tt,
            mkSMS (host self) (database self) (user self) (password self)
                  (Some (mkConnection (conn_host c) (conn_database c) false
                                      (found_rows c))))
      else (Returned tt, self)
  | None => (Returned tt, self)
  end.

(* ================================================================== *)
(** ** The servers the bootstrap can reach *)

(** An account of a server: who may log in at which host, and whether the
    account may create databases. *)
Record Account : Type := mkAccount {
  acct_host : string;
  acct_user : string;
  acct_password : string;
  acct_create : bool
}.

(** The accounts, and the databases by host and name. *)
Record World : Type := mkWorld {
  accounts : list Account;
  schemas : list (string * string * Database)
}.

Definition login (w : World) (h u p : string) : option Account :=
  find (fun a => String.eqb (acct_host a) h && String.eqb (acct_user a) u
                 && String.eqb (acct_password a) p) (accounts w).

Fixpoint lookup_db (l : list (string * string * Database)) (h d : string)
  : option Database :=
  match l with
  | [] => None
  | (h', d', db) :: l' =>
      if String.eqb h' h && String.eqb d' d then Some db else lookup_db l' h d
  end.

Fixpoint store_db (l : list (string * string * Database)) (h d : string)
    (db : Database) : list (string * string * Database) :=
  match l with
  | [] => [(h, d, db)]
  | (h', d', db') :: l' =>
      if String.eqb h' h && String.eqb d' d then (h', d', db) :: l'
      else (h', d', db') :: store_db l' h d db
  end.

Definition empty_database : Database := {| students := None; received := [] |}.

(** [mysql.connector.connect(host=, database=, user=, password=)]: refused
    credentials and an unknown database raise [Error]. No client flag is
    passed, so [FOUND_ROWS] is off. *)
Definition mysql_connector_connect (w : World) (h : string)
    (d : option string) (u p : string) : outcome Connection :=
  match login w h u p with
  | None => Raised Error
  | Some _ =>
      match d with
      | None => Returned (mkConnection h None true false)
      | Some d' =>
          match lookup_db (schemas w) h d' with
          | Some _ => Returned (mkConnection h (Some d') true false)
          | None => Raised Error
          end
      end
  end.

(** The creation of the database named [d] by a logged-in account, which is
    what [CREATE DATABASE IF NOT EXISTS] does once the server has read the
    name [d] off the statement: it needs the privilege, and leaves an existing
    database alone. *)
Definition create_database (w : World) (a : Account) (h d : string)
  : outcome unit * World :=
  if acct_create a then
    match lookup_db (schemas w) h d with
    | Some _ => (Returned tt, w)
    | None =>
        (Returned tt,
         mkWorld (accounts w) (store_db (schemas w) h d empty_database))
    end
  else (Raised Error, w).

(** A method body run against the database its connection is attached to. *)
Definition on_database {A : Type} (w : World) (c : Connection) (m : M A)
  : outcome A * World :=
  match conn_database c with
  | None => (Raised Error, w)
  | Some d =>
      match lookup_db (schemas w) (conn_host c) d with
      | None => (Raised Error, w)
      | Some db =>
          let '(o, db') := m db in
          (o, mkWorld (accounts w) (store_db (schemas w) (conn_host c) d db'))
      end
  end.

(** [connect]: [True], [False], or nothing at all ([None]) when the new
    connection does not report itself connected. *)
Definition connect (self : StudentManagementSystem) (now : Timestamp)
    (w : World) : outcome (option bool) * StudentManagementSystem * World :=
  match mysql_connector_connect w (host self) (Some (database self))
                                (user self) (password self) with
  | Raised Error => (Returned (Some false), self, w)
  | Raised e => (Raised e, self, w)
  | Returned c =>
      let self' := mkSMS (host self) (database self) (user self)
                         (password self) (Some c) in
      if is_connected c then
        match on_database w c (create_table_if_not_exists self' now) with
        | (Returned _, w') => (Returned (Some true), self', w')
        | (Raised Error, w') => (Returned (Some false), self', w')
        | (Raised e, w') => (Raised e, self', w')
        end
      else (Returned None, self', w)
  end.

(** Truth value of what [connect] returned. *)
Definition truthy_bool (o : option bool) : bool :=
  match o with Some b => b | None => false end.

(* ================================================================== *)
(** ** [setup_database] *)

Record Config : Type := mkConfig {
  cfg_host : string;
  cfg_database : string;
  cfg_user : string;
  cfg_password : string
}.

Definition configs : list Config :=
  [ mkConfig "localhost" "student_db" "root" "";
    mkConfig "localhost" "student_db" "root" "root";
    mkConfig "127.0.0.1" "student_db" "root" "" ].

(** The object built from one configuration, its fields as keywords. *)
Definition of_config (c : Config) : StudentManagementSystem :=
  init (cfg_host c) (cfg_database c) (cfg_user c) (cfg_password c).

(** The temporary connection without a database, the creation of the
    database [d] on it, and its closing. *)
Definition create_on_server (w : World) (h u p d : string)
  : outcome unit * World :=
  match mysql_connector_connect w h None u p with
  | Raised e => (Raised e, w)
  | Returned _ =>
      match login w h u p with
      | Some a => create_database w a h d
      | None => (Raised Error, w)
      end
  end.

(** The [for config in configs] loop: [Some sms] is the [return sms] from
    inside the loop, [None] the end of the loop. The first [connect] stands
    outside the [try]; the bare [except: continue] covers the rest. *)
Fixpoint try_configs (now : Timestamp) (cfgs : list Config) (w : World)
  : outcome (option StudentManagementSystem) * World :=
  match cfgs with
  | [] => (Returned None, w)
  | config :: rest =>
      let sms := of_config config in
      match connect sms now w with
      | (Raised e, _, w1) => (Raised e, w1)
      | (Returned r, sms1, w1) =>
          if truthy_bool r then (Returned (Some sms1), w1)
          else
            match create_on_server w1 (cfg_host config) (cfg_user config)
                                   (cfg_password config) "student_db" with
            | (Raised _, w2) => try_configs now rest w2
            | (Returned _, w2) =>
                match connect sms1 now w2 with
                | (Raised _, _, w3) => try_configs now rest w3
                | (Returned r', sms2, w3) =>
                    if truthy_bool r' then (Returned (Some sms2), w3)
                    else try_configs now rest w3
                end
            end
      end
  end.

(** [str.strip()] on the ASCII range. *)
Definition is_space (c : ascii) : bool :=
  let n := N_of_ascii c in
  (((9 <=? n) && (n <=? 13)) || ((28 <=? n) && (n <=? 32)))%N.

Fixpoint lstrip (s : list ascii) : list ascii :=
  match s with
  | c :: s' => if is_space c then lstrip s' else s
  | [] => []
  end.

Definition strip (s : string) : string :=
  string_of_list_ascii
    (rev (lstrip (rev (lstrip (list_ascii_of_string s))))).

(** [s or default] *)
Definition or_default (s default : string) : string :=
  if String.eqb s "" then default else s.

(** What the user types at the four prompts. *)
Record Typed : Type := mkTyped {
  typed_host : string;
  typed_user : string;
  typed_password : string;
  typed_database : string
}.

Definition manual_config (t : Typed) : Config :=
  mkConfig (or_default (strip (typed_host t)) "localhost")
           (or_default (strip (typed_database t)) "student_db")
           (or_default (strip (typed_user t)) "root")
           (typed_password t).

(** A server reading a statement that reaches it as text, sent by a
    logged-in account at a host over a connection with no database selected:
    whether it carried the statement out, and the servers after it. How a
    server reads SQL is no part of this program; a statement that is not
    carried out makes the connector raise [Error]. *)
Definition Server : Type :=
  Account -> string -> string -> World -> bool * World.

(** The statement of the manual part: what was typed for the database goes
    into the text as it is, without quotes. *)
Definition create_database_statement (database : string) : string :=
  String.append "CREATE DATABASE IF NOT EXISTS " database.

(** [cursor.execute(text)] on the temporary connection. The text that names
    [student_db] is the statement of the loop above and creates that
    database; any other text is for the server to read. *)
Definition execute_text (sv : Server) (w : World) (a : Account)
    (h sql : string) : outcome unit * World :=
  if String.eqb sql "CREATE DATABASE IF NOT EXISTS student_db"
  then create_database w a h "student_db"
  else
    let '(carried_out, w') := sv a h sql w in
    if carried_out then (Returned tt, w') else (Raised Error, w').

(** The temporary connection without a database, a statement sent as text on
    it, and its closing. *)
Definition send_on_server (sv : Server) (w : World) (h u p sql : string)
  : outcome unit * World :=
  match mysql_connector_connect w h None u p with
  | Raised e => (Raised e, w)
  | Returned _ =>
      match login w h u p with
      | Some a => execute_text sv w a h sql
      | None => (Raised Error, w)
      end
  end.

(** The manual part: here only [Error] is caught. *)
Definition try_manual (sv : Server) (now : Timestamp) (config : Config)
    (w : World) : outcome (option StudentManagementSystem) * World :=
  let sms := of_config config in
  match connect sms now w with
  | (Raised e, _, w1) => (Raised e, w1)
  | (Returned r, sms1, w1) =>
      if truthy_bool r then (Returned (Some sms1), w1)
      else
        match send_on_server sv w1 (cfg_host config) (cfg_user config)
                (cfg_password config)
                (create_database_statement (cfg_database config)) with
        | (Raised Error, w2) => (Returned None, w2)
        | (Raised e, w2) => (Raised e, w2)
        | (Returned _, w2) =>
            match connect sms1 now w2 with
            | (Raised Error, _, w3) => (Returned None, w3)
            | (Raised e, _, w3) => (Raised e, w3)
            | (Returned r', sms2, w3) =>
                if truthy_bool r' then (Returned (Some sms2), w3)
                else (Returned None, w3)
            end
        end
  end.

Definition setup_database (sv : Server) (now : Timestamp) (typed : Typed)
    (w : World) : outcome (option StudentManagementSystem) * World :=
  match try_configs now configs w with
  | (Returned None, w1) => try_manual sv now (manual_config typed) w1
  | r => r
  end.

(* ================================================================== *)
(** ** The console: [input], [int], [float] *)

(** What arrives on the terminal when the program asks for a line: a line
    typed, or an interrupt from the keyboard. When nothing is left the input
    has ended. *)
Inductive Event : Type :=
| Line (s : string)
| Interrupt.

(** What a piece of the interactive code can raise: the end of the input,
    the keyboard interrupt, a text that is no number, and whatever a method
    of the record layer let through. All but [KeyboardInterrupt] are caught
    by [except Exception]. *)
Inductive signal : Type :=
| EOFError
| KeyboardInterrupt
| ValueError
| Escaped (e : exn).

Inductive result (A : Type) : Type :=
| Ok (a : A)
| Fail (s : signal).
Arguments Ok {A} a.
Arguments Fail {A} s.

(** Interactive code: it reads from the lines still to come and acts on the
    servers. *)
Definition Console (A : Type) : Type :=
  list Event -> World -> result A * list Event * World.

Definition done {A : Type} (a : A) : Console A :=
  fun inputs w => (Ok a, inputs, w).
Definition fail {A : Type} (s : signal) : Console A :=
  fun inputs w => (Fail s, inputs, w).
Definition and_then {A B : Type} (m : Console A) (k : A -> Console B)
  : Console B :=
  fun inputs w =>
    match m inputs w with
    | (Ok a, inputs', w') => k a inputs' w'
    | (Fail s, inputs', w') => (Fail s, inputs', w')
    end.

Notation "x <~ m ;; k" := (and_then m (fun x => k))
  (at level 100, m at next level, right associativity).

(** [input(prompt)] *)
Definition input : Console string :=
  fun inputs w =>
    match inputs with
    | [] => (Fail EOFError, [], w)
    | Line s :: rest => (Ok s, rest, w)
    | Interrupt :: rest => (Fail KeyboardInterrupt, rest, w)
    end.

(** [try: body / except ValueError: handler] *)
Definition try_except_ValueError {A : Type} (body handler : Console A)
  : Console A :=
  fun inputs w =>
    match body inputs w with
    | (Fail ValueError, inputs', w') => handler inputs' w'
    | r => r
    end.

Definition digit_value (c : ascii) : option Z :=
  let n := N_of_ascii c in
  if ((48 <=? n) && (n <=? 57))%N then Some (Z.of_N (n - 48)) else None.

(** The digits of a decimal literal, single underscores allowed between
    them. *)
Fixpoint digit_part (acc : Z) (after_digit : bool) (s : list ascii)
  : option Z :=
  match s with
  | [] => if after_digit then Some acc else None
  | c :: s' =>
      if Ascii.eqb c "_" then
        if after_digit then digit_part acc false s' else None
      else
        match digit_value c with
        | Some d => digit_part (10 * acc + d) true s'
        | None => None
        end
  end.

(** The number of digit characters of a text. *)
Definition count_digits (s : list ascii) : Z :=
  Z.of_nat (List.length
              (filter (fun c => match digit_value c with
                                | Some _ => true
                                | None => false
                                end) s)).

(** The default of [sys.get_int_max_str_digits()]. *)
Definition max_str_digits : Z := 4300.

(** [int(s)] on the ASCII range, [None] standing for [ValueError]: blanks
    around, an optional sign, decimal digits, and no more digits, leading
    zeros included, than the interpreter converts (CPython since 3.11). *)
Definition python_int (s : string) : option Z :=
  let literal := list_ascii_of_string (strip s) in
  if count_digits literal >? max_str_digits then None
  else
    match literal with
    | c :: rest =>
        if Ascii.eqb c "+" then digit_part 0 false rest
        else if Ascii.eqb c "-"
             then option_map Z.opp (digit_part 0 false rest)
             else digit_part 0 false (c :: rest)
    | [] => None
    end.

Definition int (s : string) : Console Z :=
  match python_int s with
  | Some z => done z
  | None => fail ValueError
  end.

(** Python's floating point numbers are left open: the type, what [float(s)]
    makes of a text ([None] for [ValueError]), the two comparisons of the
    validation, and the hundredths the server reads when the number is sent
    for the [marks] column (a value the column refuses when the number is
    not one it can hold). *)
Record Floats : Type := mkFloats {
  pyfloat : Type;
  float_of : string -> option pyfloat;
  below_zero : pyfloat -> bool;
  above_hundred : pyfloat -> bool;
  as_decimal : pyfloat -> Z
}.

Definition float (fl : Floats) (s : string) : Console (pyfloat fl) :=
  match float_of fl s with
  | Some x => done x
  | None => fail ValueError
  end.

(** [str.lower()] on the ASCII range. *)
Definition lower_char (c : ascii) : ascii :=
  let n := N_of_ascii c in
  if ((65 <=? n) && (n <=? 90))%N then ascii_of_N (n + 32) else c.

Definition lower (s : string) : string :=
  string_of_list_ascii (map lower_char (list_ascii_of_string s)).

(** [s or None] *)
Definition or_None (s : string) : option string :=
  if String.eqb s "" then None else Some s.

(* ================================================================== *)
(** ** [get_student_input] *)

(** The first [while True] loop: a line that is no integer, or an integer
    outside 5..25, asks again. *)
Fixpoint ask_age (inputs : list Event) (w : World)
  : result Z * list Event * World :=
  match inputs with
  | [] => (Fail EOFError, [], w)
  | Interrupt :: rest => (Fail KeyboardInterrupt, rest, w)
  | Line s :: rest =>
      match python_int s with
      | Some age =>
          if (age <? 5) || (age >? 25) then ask_age rest w
          else (Ok age, rest, w)
      | None => ask_age rest w
      end
  end.

(** The second loop: a line that is no number, or a number below 0 or above
    100, asks again. *)
Fixpoint ask_marks (fl : Floats) (inputs : list Event) (w : World)
  : result (pyfloat fl) * list Event * World :=
  match inputs with
  | [] => (Fail EOFError, [], w)
  | Interrupt :: rest => (Fail KeyboardInterrupt, rest, w)
  | Line s :: rest =>
      match float_of fl s with
      | Some marks =>
          if below_zero fl marks || above_hundred fl marks
          then ask_marks fl rest w
          else (Ok marks, rest, w)
      | None => ask_marks fl rest w
      end
  end.

Definition get_student_input (fl : Floats)
  : Console (option (string * Z * string * pyfloat fl)) :=
  name <~ input ;;
  let name := strip name in
  if String.eqb name "" then done None
  else
    age <~ ask_age ;;
    class_name <~ input ;;
    let class_name := strip class_name in
    if String.eqb class_name "" then done None
    else
      marks <~ ask_marks fl ;;
      done (Some (name, age, class_name, marks)).

(* ================================================================== *)
(** ** [main] *)

(** A method of the record layer called through the object: it runs against
    the database the connection leads to; an object without a connection, or
    one whose database is not there, reaches no table. *)
Definition through {A : Type} (sms : StudentManagementSystem) (m : M A)
    (w : World) : outcome A * World :=
  match connection sms with
  | Some c =>
      match conn_database c with
      | Some d =>
          match lookup_db (schemas w) (conn_host c) d with
          | Some db =>
              let '(o, db') := m db in
              (o, mkWorld (accounts w)
                          (store_db (schemas w) (conn_host c) d db'))
          | None => (fst (m empty_database), w)
          end
      | None => (fst (m empty_database), w)
      end
  | None => (fst (m empty_database), w)
  end.

Definition store {A : Type} (sms : StudentManagementSystem) (m : M A)
  : Console A :=
  fun inputs w =>
    match through sms m w with
    | (Returned a, w') => (Ok a, inputs, w')
    | (Raised e, w') => (Fail (Escaped e), inputs, w')
    end.

(** The inner [try] of the loop, one choice of the menu: [true] is the
    [break] of choice 8. *)
Definition choose (fl : Floats) (sms : StudentManagementSystem)
    (now : Timestamp) : Console bool :=
  choice <~ input ;;
  let choice := strip choice in
  if String.eqb choice "1" then
    student_data <~ get_student_input fl ;;
    match student_data with
    | Some (name, age, class_name, marks) =>
        _ <~ store sms (add_student sms now (Some name) (Some age)
                          (Some class_name) (Some (as_decimal fl marks))) ;;
        done false
    | None => done false
    end
  else if String.eqb choice "2" then
    try_except_ValueError
      (line <~ input ;;
       student_id <~ int line ;;
       line <~ input ;;
       let name := or_None (strip line) in
       line <~ input ;;
       let age_input := strip line in
       age <~ (if String.eqb age_input "" then done None
               else (a <~ int age_input ;; done (Some a))) ;;
       line <~ input ;;
       let class_name := or_None (strip line) in
       line <~ input ;;
       let marks_input := strip line in
       marks <~ (if String.eqb marks_input "" then done None
                 else (x <~ float fl marks_input ;; done (Some x))) ;;
       if truthy_str name || is_not_None age || truthy_str class_name
          || is_not_None marks
       then
         _ <~ store sms (update_student sms now student_id name age class_name
                           (option_map (as_decimal fl) marks)) ;;
         done false
       else done false)
      (done false)
  else if String.eqb choice "3" then
    try_except_ValueError
      (line <~ input ;;
       student_id <~ int line ;;
       line <~ input ;;
       let confirm := lower line in
       if String.eqb confirm "yes" then
         _ <~ store sms (delete_student sms now student_id) ;;
         done false
       else done false)
      (done false)
  else if String.eqb choice "4" then
    _ <~ store sms (view_all_students sms now) ;;
    done false
  else if String.eqb choice "5" then
    line <~ input ;;
    let search_term := strip line in
    if negb (String.eqb search_term "") then
      _ <~ store sms (search_students sms now (Some search_term) None) ;;
      done false
    else done false
  else if String.eqb choice "6" then
    try_except_ValueError
      (line <~ input ;;
       student_id <~ int line ;;
       _ <~ store sms (search_students sms now None (Some student_id)) ;;
       done false)
      (done false)
  else if String.eqb choice "7" then
    _ <~ store sms (get_student_count sms now) ;;
    done false
  else if String.eqb choice "8" then done true
  else done false.

(** One turn of the [while True] loop with its two [except] clauses:
    [KeyboardInterrupt] breaks, every other exception is printed and the
    loop goes on. *)
Definition turn (fl : Floats) (sms : StudentManagementSystem)
    (now : Timestamp) (inputs : list Event) (w : World)
  : bool * list Event * World :=
  match choose fl sms now inputs w with
  | (Ok stop, inputs', w') => (stop, inputs', w')
  | (Fail KeyboardInterrupt, inputs', w') => (true, inputs', w')
  | (Fail _, inputs', w') => (false, inputs', w')
  end.

(** The loop, one turn per tick of the server clock: [None] when the ticks
    are used up and the loop is still going. *)
Fixpoint loop (fl : Floats) (sms : StudentManagementSystem)
    (ticks : list Timestamp) (inputs : list Event) (w : World)
  : option (list Event * World) :=
  match ticks with
  | [] => None
  | now :: ticks' =>
      match turn fl sms now inputs w with
      | (true, inputs', w') => Some (inputs', w')
      | (false, inputs', w') => loop fl sms ticks' inputs' w'
      end
  end.

(** [main]: the bootstrap, then the loop inside [try ... finally
    sms.close_connection()]. The lines of [inputs] are those typed after the
    bootstrap. The result is [None] while the loop is still going. When
    [main] has returned, it holds the object as [main] leaves it, if the
    bootstrap gave one, the input left and the servers; an exception out of
    the bootstrap would leave [main] at once. *)
Definition main (sv : Server) (fl : Floats) (now : Timestamp)
    (typed : Typed) (ticks : list Timestamp) (inputs : list Event) (w : World)
  : option (outcome (option StudentManagementSystem) * list Event * World) :=
  match setup_database sv now typed w with
  | (Returned (Some sms), w1) =>
      match loop fl sms ticks inputs w1 with
      | Some (inputs', w2) =>
          Some (Returned (Some (snd (close_connection sms))), inputs', w2)
      | None => None
      end
  | (Returned None, w1) => Some (Returned None, inputs, w1)
  | (Raised e, w1) => Some (Raised e, inputs, w1)
  end.

(* ================================================================== *)
(** ** Vocabulary of the statements *)

(** The primary key is unique, starts at 1 and stays below the counter. *)
Definition wf_table (t : Table) : Prop :=
  NoDup (map row_id (rows t)) /\
  Forall (fun r => 1 <= row_id r < auto_increment t) (rows t) /\
  1 <= auto_increment t.

(** The object holds a connection that reports itself connected. *)
Definition live (self : StudentManagementSystem) : Prop :=
  exists c, connection self = Some c /\ is_connected c = true.

(** The object holds no usable connection any more. *)
Definition released (self : StudentManagementSystem) : Prop :=
  match connection self with
  | Some c => is_connected c = false
  | None => True
  end.

(** The row with a given primary key. *)
Definition row_with_id (i : Z) (t : Table) : option Row :=
  find (fun r => row_id r =? i) (rows t).

(** The two lists [update_student] builds before it looks at them. *)
Definition update_lists (name : option string) (age : option Z)
    (class_name : option string) (marks : option Z)
  : list Column * list Value :=
  ((if truthy_str name then [col_name] else []) ++
   (if is_not_None age then [col_age] else []) ++
   (if truthy_str class_name then [col_class] else []) ++
   (if is_not_None marks then [col_marks] else []),
   (if truthy_str name then [py_str name] else []) ++
   (if is_not_None age then [py_int age] else []) ++
   (if truthy_str class_name then [py_str class_name] else []) ++
   (if is_not_None marks then [py_dec marks] else [])).

(** At least one argument counts as a field to update. *)
Definition supplied (name : option string) (age : option Z)
    (class_name : option string) (marks : option Z) : bool :=
  truthy_str name || is_not_None age || truthy_str class_name
  || is_not_None marks.

Definition is_some {A : Type} (o : option A) : bool :=
  match o with Some _ => true | None => false end.

(** Every argument that counts fits its column. *)
Definition fits (name : option string) (age : option Z)
    (class_name : option string) (marks : option Z) : bool :=
  (negb (truthy_str name) || is_some (fits_name (py_str name))) &&
  (negb (is_not_None age) || is_some (fits_age (py_int age))) &&
  (negb (truthy_str class_name) || is_some (fits_class (py_str class_name))) &&
  (negb (is_not_None marks) || is_some (fits_marks (py_dec marks))).

(** The row with the arguments that count written over its columns. *)
Definition overwritten (r : Row) (name : option string) (age : option Z)
    (class_name : option string) (marks : option Z) : Row :=
  mkRow (row_id r)
        (match name with
         | Some s => if String.eqb s "" then row_name r else s
         | None => row_name r
         end)
        (match age with Some a => a | None => row_age r end)
        (match class_name with
         | Some s => if String.eqb s "" then row_class r else s
         | None => row_class r
         end)
        (match marks with Some m => m | None => row_marks r end)
        (row_created_at r) (row_updated_at r).

(** The rows with the one of key [i] replaced. *)
Definition replace_row (i : Z) (r' : Row) (rs : list Row) : list Row :=
  map (fun x => if row_id x =? i then r' else x) rs.

(** The database after one more statement has been received. *)
Definition after_statement (db : Database) (t : Table) (q : Query)
    (params : list Value) : Database :=
  {| students := Some t; received := received db ++ [(q, params)] |}.

(** The [UPDATE] statement [update_student] sends. *)
Definition update_statement (student_id : Z) (name : option string)
    (age : option Z) (class_name : option string) (marks : option Z)
  : Query * list Value :=
  (UPDATE_students_SET (fst (update_lists name age class_name marks)),
   snd (update_lists name age class_name marks) ++ [Int student_id]).



(** A candidate the server accepts: its credentials log in, and its database
    exists or may be created by the account. *)
Definition works (w : World) (c : Config) : bool :=
  match login w (cfg_host c) (cfg_user c) (cfg_password c) with
  | Some a =>
      is_some (lookup_db (schemas w) (cfg_host c) (cfg_database c))
      || acct_create a
  | None => false
  end.

(** The server reads the statement built from the name [d] as the creation
    of the database of that name. *)
Definition names_database (sv : Server) (d : string) : Prop :=
  forall w a h,
    execute_text sv w a h (create_database_statement d)
    = create_database w a h d.

(** The typed candidate succeeds: its credentials log in, and its database
    is there, or is there, with the credentials still logging in, once the
    server has carried out the statement built from the typed name. *)
Definition typed_works (sv : Server) (w : World) (c : Config) : bool :=
  match login w (cfg_host c) (cfg_user c) (cfg_password c) with
  | Some a =>
      is_some (lookup_db (schemas w) (cfg_host c) (cfg_database c)) ||
      match execute_text sv w a (cfg_host c)
                         (create_database_statement (cfg_database c)) with
      | (Returned _, w') =>
          is_some (login w' (cfg_host c) (cfg_user c) (cfg_password c)) &&
          is_some (lookup_db (schemas w') (cfg_host c) (cfg_database c))
      | (Raised _, _) => false
      end
  | None => false
  end.

(** The bootstrap in the words of the specification: one candidate is tried;
    when it fails, its database is created with the same credentials on the
    server, no database selected, and the connection is tried once more. *)
Definition attempt_candidate (now : Timestamp) (c : Config) (w : World)
  : option StudentManagementSystem * World :=
  match connect (of_config c) now w with
  | (Returned r, sms, w1) =>
      if truthy_bool r then (Some sms, w1)
      else
        match create_on_server w1 (cfg_host c) (cfg_user c) (cfg_password c)
                               (cfg_database c) with
        | (Returned _, w2) =>
            match connect sms now w2 with
            | (Returned r', sms', w3) =>
                if truthy_bool r' then (Some sms', w3) else (None, w3)
            | (Raised _, _, w3) => (None, w3)
            end
        | (Raised _, w2) => (None, w2)
        end
  | (Raised _, _, w1) => (None, w1)
  end.

(** The candidates in order, until one succeeds. *)
Fixpoint connect_candidates (now : Timestamp) (candidates : list Config)
    (w : World) : option StudentManagementSystem * World :=
  match candidates with
  | [] => (None, w)
  | c :: rest =>
      match attempt_candidate now c w with
      | (Some sms, w') => (Some sms, w')
      | (None, w') => connect_candidates now rest w'
      end
  end.

(** The connection an object is left with leads to this candidate's
    database, and the table [students] is there. *)
Definition ready (w : World) (c : Config) (sms : StudentManagementSystem)
  : Prop :=
  host sms = cfg_host c /\ database sms = cfg_database c /\
  user sms = cfg_user c /\ password sms = cfg_password c /\
  (exists k, connection sms = Some k /\ is_connected k = true /\
             conn_host k = cfg_host c /\
             conn_database k = Some (cfg_database c)) /\
  (exists db t, lookup_db (schemas w) (cfg_host c) (cfg_database c) = Some db
                /\ students db = Some t).

(** The call cannot be served: the connection is lost, or the table is not
    there. *)
Definition failing (self : StudentManagementSystem) (db : Database) : Prop :=
  exists c, connection self = Some c /\
            (is_connected c = false \/ students db = None).

(** An error of the store under a call: asking for the cursor or carrying
    out the statement raises [Error]. The connection is lost, the table is
    not there, or the server refuses the statement, as it does a value that
    a column does not take. *)
Definition store_error (self : StudentManagementSystem) (now : Timestamp)
    (q : Query) (params : list Value) (db : Database) : Prop :=
  fst ((cur <- cursor (connection self) ;; execute cur now q params) db)
  = Raised Error.

(** A failure kept inside a method: the caller gets the fallback value and no
    exception, the table is as before, and the statement went out at most
    once. *)
Definition swallowed {A : Type} (m : M A) (fallback : A) (db : Database)
  : Prop :=
  fst (m db) = Returned fallback /\
  students (snd (m db)) = students db /\
  (List.length (received (snd (m db))) <= S (List.length (received db)))%nat.

(** The table exists and holds no row. *)
Definition no_rows (db : Database) : Prop :=
  exists t, students db = Some t /\ rows t = [].

(** The shape the methods share: a cursor, one statement, the commit, a value
    read off the cursor, and a fallback when [Error] is raised. *)
Definition call {A : Type} (self : StudentManagementSystem) (now : Timestamp)
    (q : Query) (params : list Value) (read : Result -> A) (fallback : A)
  : M A :=
  try_except_Error
    (cur <- cursor (connection self) ;;
     res <- execute cur now q params ;;
     _ <- commit cur ;;
     ret (read res))
    (ret fallback).

(** The connection [mysql.connector.connect] hands out. *)
Definition fresh_connection (h d : string) : Connection :=
  mkConnection h (Some d) true false.

(** The database once [create_table_if_not_exists] has run on it. *)
Definition with_table (now : Timestamp) (h d : string) (db : Database)
  : Database :=
  snd (execute (fresh_connection h d) now CREATE_TABLE_IF_NOT_EXISTS [] db).

(** One call of a method of the record layer, by any object, at any time,
    with any arguments, seen as a step from one state of the database to the
    next; [create_table_if_not_exists] is what a new [connect] runs on the
    database. *)
Inductive store_step (db : Database) : Database -> Prop :=
| step_add : forall self now n a c m,
    store_step db (snd (add_student self now n a c m db))
| step_update : forall self now i n a c m,
    store_step db (snd (update_student self now i n a c m db))
| step_delete : forall self now i,
    store_step db (snd (delete_student self now i db))
| step_view : forall self now,
    store_step db (snd (view_all_students self now db))
| step_search : forall self now term i,
    store_step db (snd (search_students self now term i db))
| step_count : forall self now,
    store_step db (snd (get_student_count self now db))
| step_create : forall self now,
    store_step db (snd (create_table_if_not_exists self now db)).

(** Any number of such calls, one after the other. *)
Inductive store_steps (db : Database) : Database -> Prop :=
| steps_none : store_steps db db
| steps_more : forall db1 db2,
    store_steps db db1 -> store_step db1 db2 -> store_steps db db2.

(** The [AUTO_INCREMENT] counter of the table, 0 while there is no table. *)
Definition counter (db : Database) : Z :=
  match students db with
  | Some t => auto_increment t
  | None => 0
  end.

(** The accounts are the same and every table that was there is still there
    with its rows. *)
Definition keeps_tables (w w' : World) : Prop :=
  accounts w' = accounts w /\
  forall h d db t,
    lookup_db (schemas w) h d = Some db -> students db = Some t ->
    exists db', lookup_db (schemas w') h d = Some db' /\ students db' = Some t.

(** The user answers every prompt of the manual setup with Enter or blanks. *)
Definition all_defaults (typed : Typed) : Prop :=
  strip (typed_host typed) = ""%string /\
  strip (typed_user typed) = ""%string /\
  typed_password typed = ""%string /\
  strip (typed_database typed) = ""%string.

(** Interactive code that reads its lines from the front of the input and
    is interrupted only by an interrupt it has read. *)
Definition tame {A : Type} (m : Console A) : Prop :=
  forall inputs w r inputs' w',
    m inputs w = (r, inputs', w') ->
    (exists used, inputs = used ++ inputs') /\
    (r = Fail KeyboardInterrupt -> In Interrupt inputs).

(** A piece of the menu that never asks for the loop to stop. *)
Definition goes_on (m : Console bool) : Prop :=
  forall inputs w inputs' w', m inputs w <> (Ok true, inputs', w').

(** The input holds what ends the loop: an interrupt, or a line that reads
    8 once the blanks around it are gone. *)
Definition told_to_stop (inputs : list Event) : Prop :=
  In Interrupt inputs \/
  exists s, In (Line s) inputs /\ strip s = "8"%string.

(* ------------------------------------------------------------------ *)
(** *** Sample data *)

Definition noon : Timestamp := mkTimestamp 2024 3 1 12 0 0.
Definition later : Timestamp := mkTimestamp 2024 3 1 12 0 7.

(** A server that carries out one statement it gets as text, the creation of
    the database [school], and refuses every other text. *)
Definition a_server : Server :=
  fun a h sql w =>
    if String.eqb sql "CREATE DATABASE IF NOT EXISTS school"
    then match create_database w a h "school" with
         | (Returned _, w') => (true, w')
         | (Raised _, w') => (false, w')
         end
    else (false, w).

Definition a_connection : Connection :=
  mkConnection "localhost" (Some "student_db"%string) true false.
Definition a_lost_connection : Connection :=
  mkConnection "localhost" (Some "student_db"%string) false false.

Definition sms_live : StudentManagementSystem :=
  mkSMS "localhost" "student_db" "root" "" (Some a_connection).
Definition sms_lost : StudentManagementSystem :=
  mkSMS "localhost" "student_db" "root" "" (Some a_lost_connection).

Definition asha : Row := mkRow 1 "Asha" 14 "8A" 8850 noon noon.
Definition ben : Row := mkRow 2 "Ben" 15 "8B" 7200 noon noon.

Definition two_students : Table := {| rows := [asha; ben]; auto_increment := 3 |}.

Definition db_empty : Database := {| students := Some empty_table; received := [] |}.
Definition db_two : Database := {| students := Some two_students; received := [] |}.

(** A name of 101 characters. *)
Definition long_name : string :=
  string_of_list_ascii (repeat "a"%char 101).

(* ================================================================== *)
(** * Properties *)

(** ** [DATE_FORMAT] keeps the order of time *)

Lemma compare_same_width : forall a b s t,
  String.length a = String.length b ->
  String.compare (a ++ s) (b ++ t)
  = lex (String.compare a b) (String.compare s t).
Proof.
  induction a as [|c a IH]; intros [|d b] s t Hlen; simpl in Hlen;
    try discriminate.
  - reflexivity.
  - simpl. destruct (Ascii.compare c d); auto.
Qed.

Lemma digits_length : forall k x, String.length (digits k x) = k.
Proof.
  induction k as [|k IH]; intros x; simpl; auto.
  assert (H : forall a b, String.length (a ++ b)
                          = (String.length a + String.length b)%nat).
  { induction a as [|c a IHa]; intros b; simpl; auto. }
  rewrite H, IH. simpl. lia.
Qed.

Lemma digit_compare : forall a b,
  0 <= a < 10 -> 0 <= b < 10 ->
  Ascii.compare (digit a) (digit b) = (a ?= b).
Proof.
  intros a b Ha Hb. unfold Ascii.compare, digit.
  rewrite !N_ascii_embedding by lia.
  destruct (Z.compare_spec a b) as [E|E|E].
  - subst. apply N.compare_refl.
  - apply N.compare_lt_iff. lia.
  - apply N.compare_gt_iff. lia.
Qed.

Lemma compare_by_quotient : forall x y,
  lex (x / 10 ?= y / 10) (x mod 10 ?= y mod 10) = (x ?= y).
Proof.
  intros x y.
  pose proof (Z.div_mod x 10 ltac:(lia)) as Hx.
  pose proof (Z.div_mod y 10 ltac:(lia)) as Hy.
  pose proof (Z.mod_pos_bound x 10 ltac:(lia)) as Bx.
  pose proof (Z.mod_pos_bound y 10 ltac:(lia)) as By.
  destruct (Z.compare_spec (x / 10) (y / 10)) as [E|E|E]; simpl.
  - destruct (Z.compare_spec (x mod 10) (y mod 10)) as [F|F|F]; symmetry.
    + apply Z.compare_eq_iff. lia.
    + apply Z.compare_lt_iff. lia.
    + apply Z.compare_gt_iff. lia.
  - symmetry. apply Z.compare_lt_iff. lia.
  - symmetry. apply Z.compare_gt_iff. lia.
Qed.

Lemma digits_compare : forall k x y,
  0 <= x < 10 ^ Z.of_nat k -> 0 <= y < 10 ^ Z.of_nat k ->
  String.compare (digits k x) (digits k y) = (x ?= y).
Proof.
  induction k as [|k IH]; intros x y Hx Hy.
  - simpl in *. assert (x = 0) by lia. assert (y = 0) by lia. subst.
    reflexivity.
  - rewrite Nat2Z.inj_succ, Z.pow_succ_r in Hx, Hy by lia.
    cbn [digits].
    rewrite compare_same_width by (rewrite !digits_length; reflexivity).
    rewrite IH.
    + cbn [String.compare]. rewrite digit_compare.
      * replace (match x mod 10 ?= y mod 10 with
                 | Eq => Eq | Lt => Lt | Gt => Gt end)
          with (x mod 10 ?= y mod 10) by (destruct (x mod 10 ?= y mod 10); auto).
        apply compare_by_quotient.
      * apply Z.mod_pos_bound; lia.
      * apply Z.mod_pos_bound; lia.
    + split; [apply Z.div_pos; lia | apply Z.div_lt_upper_bound; lia].
    + split; [apply Z.div_pos; lia | apply Z.div_lt_upper_bound; lia].
Qed.

Lemma compare_field : forall k x y c s t,
  0 <= x < 10 ^ Z.of_nat k -> 0 <= y < 10 ^ Z.of_nat k ->
  String.compare (digits k x ++ String c s) (digits k y ++ String c t)
  = lex (x ?= y) (String.compare s t).
Proof.
  intros k x y c s t Hx Hy.
  rewrite compare_same_width by (rewrite !digits_length; reflexivity).
  rewrite digits_compare by assumption.
  f_equal. cbn [String.compare]. unfold Ascii.compare.
  now rewrite N.compare_refl.
Qed.

Lemma DATE_FORMAT_unfold : forall t,
  DATE_FORMAT t
  = (digits 4 (year t) ++ String "-" (digits 2 (month t) ++ String "-"
      (digits 2 (day t) ++ String " " (digits 2 (hour t) ++ String ":"
        (digits 2 (minute t) ++ String ":" (digits 2 (second t)))))))%string.
Proof. reflexivity. Qed.

Lemma DATE_FORMAT_compare : forall a b,
  ts_valid a -> ts_valid b ->
  String.compare (DATE_FORMAT a) (DATE_FORMAT b) = ts_compare a b.
Proof.
  intros a b (Ya & Ma & Da & Ha & Ia & Sa) (Yb & Mb & Db & Hb & Ib & Sb).
  rewrite !DATE_FORMAT_unfold. unfold ts_compare.
  rewrite !compare_field by (simpl; lia).
  rewrite digits_compare by (simpl; lia).
  reflexivity.
Qed.

(** Reading two timestamps back as text orders them as the clock did. *)
Lemma DATE_FORMAT_ltb : forall a b,
  ts_valid a -> ts_valid b ->
  String.ltb (DATE_FORMAT a) (DATE_FORMAT b) = true <-> ts_lt a b.
Proof.
  intros a b Ha Hb. unfold String.ltb, ts_lt.
  rewrite DATE_FORMAT_compare by assumption.
  destruct (ts_compare a b); split; congruence.
Qed.


(* ================================================================== *)
(** ** How the methods unfold *)

Arguments execute : simpl never.
Arguments run : simpl never.
Arguments run_insert : simpl never.
Arguments run_update : simpl never.
Arguments DATE_FORMAT : simpl never.

Lemma execute_refused : forall c now q params db t,
  students db = Some t ->
  run (found_rows c) now q params t = None ->
  execute c now q params db
  = (Raised Error,
     {| students := Some t; received := received db ++ [(q, params)] |}).
Proof.
  intros c now q params db t Ht Hrun. unfold execute.
  rewrite Ht, Hrun. reflexivity.
Qed.

Lemma execute_done : forall c now q params db t res t',
  students db = Some t ->
  run (found_rows c) now q params t = Some (res, t') ->
  execute c now q params db
  = (Returned res,
     {| students := Some t'; received := received db ++ [(q, params)] |}).
Proof.
  intros c now q params db t res t' Ht Hrun. unfold execute.
  rewrite Ht, Hrun. reflexivity.
Qed.

Lemma execute_no_table : forall c now q params db,
  students db = None ->
  q <> CREATE_TABLE_IF_NOT_EXISTS ->
  execute c now q params db
  = (Raised Error,
     {| students := None; received := received db ++ [(q, params)] |}).
Proof.
  intros c now q params db Ht Hq. unfold execute. rewrite Ht.
  destruct q; congruence.
Qed.

(** The methods with the connection at hand: the cursor is there when the
    connection reports itself connected, and raises [Error] otherwise. *)
Ltac run_method :=
  unfold add_student, delete_student, view_all_students, search_students,
    get_student_count, try_except_Error, bind, cursor, commit, ret, raise.

(** [update_student] in terms of the two lists it builds. *)
Lemma update_student_lists : forall self now student_id name age class_name marks,
  update_student self now student_id name age class_name marks
  = match fst (update_lists name age class_name marks) with
    | [] => ret 0
    | _ :: _ =>
        try_except_Error
          (cur <- cursor (connection self) ;;
           res <- execute cur now
                    (UPDATE_students_SET
                       (fst (update_lists name age class_name marks)))
                    (snd (update_lists name age class_name marks)
                     ++ [Int student_id]) ;;
           _ <- commit cur ;;
           ret (rowcount res))
          (ret 0)
    end.
Proof.
  intros self now student_id name age class_name marks.
  unfold update_student, update_lists.
  destruct (truthy_str name), (is_not_None age), (truthy_str class_name),
    (is_not_None marks); reflexivity.
Qed.

Lemma update_lists_nil_iff : forall name age class_name marks,
  fst (update_lists name age class_name marks) = []
  <-> supplied name age class_name marks = false.
Proof.
  intros name age class_name marks. unfold update_lists, supplied.
  destruct (truthy_str name), (is_not_None age), (truthy_str class_name),
    (is_not_None marks); simpl; split; congruence.
Qed.

Lemma update_lists_length : forall name age class_name marks,
  List.length (snd (update_lists name age class_name marks))
  = List.length (fst (update_lists name age class_name marks)).
Proof.
  intros name age class_name marks. unfold update_lists.
  destruct (truthy_str name), (is_not_None age), (truthy_str class_name),
    (is_not_None marks); reflexivity.
Qed.

(** The statement is well formed: one parameter per placeholder. *)
Lemma run_update_lists : forall fr now fields vals i t,
  List.length vals = List.length fields ->
  run_update fr now fields (vals ++ [Int i]) t
  = match update_rows fr now fields vals (Int i) (rows t) with
    | Some (rs, n) =>
        Some (Done 0 n, {| rows := rs; auto_increment := auto_increment t |})
    | None => None
    end.
Proof.
  intros fr now fields vals i t Hlen. unfold run_update.
  rewrite length_app, Hlen. simpl.
  replace (List.length fields + 1)%nat with (S (List.length fields)) by lia.
  rewrite Nat.eqb_refl, removelast_last, last_last. reflexivity.
Qed.

(* ================================================================== *)
(** ** Updating with nothing to update *)

(** C3. For every identifier and every state of the object and of the
    database, [update_student] called with no field returns 0 and leaves the
    database exactly as it was: no row changes, no statement is sent, nothing
    is raised. *)
Theorem update_student_no_fields : forall self now student_id db,
  update_student self now student_id None None None None db = (Returned 0, db).
Proof. reflexivity. Qed.

(* ================================================================== *)
(** ** Closing the connection *)

(** C9. [close_connection] never raises; afterwards the object holds no
    usable connection; called on an object that never connected or whose
    connection is already closed it changes nothing; and a second call after
    any call changes nothing more. *)
Theorem close_connection_idempotent : forall self,
  fst (close_connection self) = Returned tt /\
  released (snd (close_connection self)) /\
  close_connection (snd (close_connection self))
  = (Returned tt, snd (close_connection self)) /\
  (released self -> close_connection self = (Returned tt, self)).
Proof.
  intros [h d u p [c|]]; unfold close_connection, released; simpl.
  - destruct (is_connected c) eqn:E; simpl; rewrite ?E; repeat split; auto.
    congruence.
  - repeat split; auto.
Qed.

(* ================================================================== *)
(** ** Creating a student with a missing field *)

Lemma run_insert_null : forall now n a c m t,
  n = NONE \/ a = NONE \/ c = NONE \/ m = NONE ->
  run_insert now [n; a; c; m] t = None.
Proof.
  intros now n a c m t H. unfold run_insert.
  destruct H as [-> | [-> | [-> | ->]]]; simpl;
    repeat match goal with
           | |- context [match ?x with Some _ => _ | None => _ end] =>
               destruct x
           end; reflexivity.
Qed.

(** C1 (amended). When at least one of name, age, class and marks is [None],
    [add_student] leaves the table as it was, and on an object that holds a
    connection it raises nothing and returns [None]: the row is refused by
    the [NOT NULL] columns and the error is caught in the method. *)
Theorem add_student_missing_field :
  forall self now (name : option string) (age : option Z)
         (class_name : option string) (marks : option Z) db,
  name = None \/ age = None \/ class_name = None \/ marks = None ->
  students (snd (add_student self now name age class_name marks db))
  = students db /\
  (forall c, connection self = Some c ->
     fst (add_student self now name age class_name marks db) = Returned None).
Proof.
  intros self now name age class_name marks db H.
  assert (Hnull : forall t,
            run_insert now [py_str name; py_int age; py_str class_name;
                            py_dec marks] t = None).
  { intros t. apply run_insert_null.
    destruct H as [-> | [-> | [-> | ->]]]; simpl; auto. }
  run_method. destruct (connection self) as [c|]; cbn.
  - destruct (is_connected c); cbn.
    + destruct (students db) as [t|] eqn:Et.
      * rewrite (execute_refused _ _ _ _ _ t) by (auto; apply Hnull).
        cbn. split; auto.
      * rewrite execute_no_table by (auto; discriminate).
        cbn. split; auto.
    + split; auto.
  - split; auto. intros c Hc. discriminate.
Qed.

Lemma add_student_missing_field_witness :
  (@None string = None \/ Some 14 = None \/ Some "8A"%string = None
   \/ Some 8850 = None) /\
  students (snd (add_student sms_live noon None (Some 14) (Some "8A"%string)
                             (Some 8850) db_two))
  = students db_two /\
  (forall c, connection sms_live = Some c ->
     fst (add_student sms_live noon None (Some 14) (Some "8A"%string)
                      (Some 8850) db_two) = Returned None).
Proof.
  split.
  - left. reflexivity.
  - apply (add_student_missing_field sms_live noon None (Some 14)
             (Some "8A"%string) (Some 8850) db_two).
    left. reflexivity.
Defined.

(** C1 as stated fails: with the name missing, nothing is raised to the
    caller, the call returns [None]. *)
Lemma add_student_null_name_not_raised :
  raised (fst (add_student sms_live noon None (Some 14) (Some "8A"%string)
                           (Some 8850) db_two)) = false /\
  fst (add_student sms_live noon None (Some 14) (Some "8A"%string)
                   (Some 8850) db_two) = Returned None.
Proof. split; reflexivity. Qed.

(* ================================================================== *)
(** ** One call, served or not *)

Lemma add_student_call : forall self now name age class_name marks,
  add_student self now name age class_name marks
  = call self now INSERT_INTO_students
         [py_str name; py_int age; py_str class_name; py_dec marks]
         (fun res => Some (lastrowid res)) None.
Proof. reflexivity. Qed.

Lemma delete_student_call : forall self now student_id,
  delete_student self now student_id
  = call self now DELETE_FROM_students_WHERE_id [Int student_id] rowcount 0.
Proof. reflexivity. Qed.

Lemma view_all_students_call : forall self now,
  view_all_students self now
  = call self now SELECT_ORDER_BY_id [] fetchall [].
Proof. reflexivity. Qed.

Lemma get_student_count_call : forall self now,
  get_student_count self now
  = call self now SELECT_COUNT []
         (fun res => match fetchone_total res with
                     | Some total => total
                     | None => 0
                     end) 0.
Proof. reflexivity. Qed.

Lemma update_student_call : forall self now student_id name age class_name marks,
  supplied name age class_name marks = true ->
  update_student self now student_id name age class_name marks
  = call self now
         (UPDATE_students_SET (fst (update_lists name age class_name marks)))
         (snd (update_lists name age class_name marks) ++ [Int student_id])
         rowcount 0.
Proof.
  intros self now student_id name age class_name marks Hs.
  rewrite update_student_lists.
  destruct (fst (update_lists name age class_name marks)) eqn:E.
  - apply update_lists_nil_iff in E. congruence.
  - reflexivity.
Qed.

Lemma update_student_not_supplied :
  forall self now student_id name age class_name marks db,
  supplied name age class_name marks = false ->
  update_student self now student_id name age class_name marks db
  = (Returned 0, db).
Proof.
  intros self now student_id name age class_name marks db Hs.
  rewrite update_student_lists.
  apply update_lists_nil_iff in Hs. rewrite Hs. reflexivity.
Qed.

Lemma search_students_by_id : forall self now search_term student_id db,
  truthy_int student_id = true ->
  search_students self now search_term student_id db
  = call self now SELECT_WHERE_id [py_int student_id] fetchall [] db.
Proof.
  intros self now search_term student_id db H.
  unfold search_students, call, try_except_Error, bind.
  destruct (cursor (connection self) db) as [[cur|e] db']; rewrite ?H;
    reflexivity.
Qed.

Lemma search_students_by_name : forall self now search_term student_id db,
  truthy_int student_id = false ->
  truthy_str search_term = true ->
  search_students self now search_term student_id db
  = call self now SELECT_WHERE_name_LIKE_ORDER_BY_name
         [Str (like_pattern search_term)] fetchall [] db.
Proof.
  intros self now search_term student_id db H1 H2.
  unfold search_students, call, try_except_Error, bind.
  destruct (cursor (connection self) db) as [[cur|e] db']; rewrite ?H1, ?H2;
    reflexivity.
Qed.

Lemma search_students_by_nothing : forall self now search_term student_id db c,
  truthy_int student_id = false ->
  truthy_str search_term = false ->
  connection self = Some c ->
  search_students self now search_term student_id db = (Returned [], db).
Proof.
  intros self now search_term student_id db c H1 H2 Hc.
  unfold search_students, try_except_Error, bind, cursor. rewrite Hc.
  destruct (is_connected c); cbn; rewrite ?H1, ?H2; reflexivity.
Qed.

(** A call that cannot be served hands back the fallback, leaves the table
    alone and sends its statement at most once. *)
Lemma call_failing : forall A self now q params (read : Result -> A) fallback db,
  failing self db ->
  q <> CREATE_TABLE_IF_NOT_EXISTS ->
  fst (call self now q params read fallback db) = Returned fallback /\
  students (snd (call self now q params read fallback db)) = students db /\
  (List.length (received (snd (call self now q params read fallback db)))
   <= S (List.length (received db)))%nat.
Proof.
  intros A self now q params read fallback db (c & Hc & H) Hq.
  unfold call, try_except_Error, bind, cursor. rewrite Hc.
  destruct (is_connected c) eqn:E; cbn.
  - destruct H as [H|H]; [discriminate|].
    rewrite execute_no_table by assumption. cbn.
    rewrite length_app. simpl. repeat split; auto. lia.
  - repeat split; auto.
Qed.

(** A call on a connected object and an existing table. *)
Lemma call_live : forall A self now q params (read : Result -> A) fallback db c t,
  connection self = Some c ->
  is_connected c = true ->
  students db = Some t ->
  call self now q params read fallback db
  = match run (found_rows c) now q params t with
    | Some (res, t') =>
        (Returned (read res),
         {| students := Some t'; received := received db ++ [(q, params)] |})
    | None =>
        (Returned fallback,
         {| students := Some t; received := received db ++ [(q, params)] |})
    end.
Proof.
  intros A self now q params read fallback db c t Hc E Ht.
  unfold call, try_except_Error, bind, cursor. rewrite Hc, E. cbn.
  destruct (run (found_rows c) now q params t) as [[res t']|] eqn:R.
  - rewrite (execute_done _ _ _ _ _ t res t') by assumption. reflexivity.
  - rewrite (execute_refused _ _ _ _ _ t) by assumption. reflexivity.
Qed.

(* ================================================================== *)
(** ** Failures of the store *)

Lemma update_rows_nil : forall fr now fields vals idv,
  update_rows fr now fields vals idv [] = Some ([], 0).
Proof. reflexivity. Qed.

(** Any error of the store under a call is kept inside the call. *)
Lemma call_store_error :
  forall A self now q params (read : Result -> A) fallback db,
  store_error self now q params db ->
  swallowed (call self now q params read fallback) fallback db.
Proof.
  intros A self now q params read fallback db H.
  unfold store_error, swallowed, call, try_except_Error, bind, cursor in *.
  destruct (connection self) as [c|]; [|discriminate H].
  destruct (is_connected c); cbn in *; [|repeat split; auto].
  unfold execute in *.
  destruct (students db) as [t|] eqn:Et.
  - destruct (run (found_rows c) now q params t) as [[res t']|];
      cbn in *; [discriminate H|].
    split; [reflexivity|]. split; [auto|].
    rewrite length_app. simpl. lia.
  - destruct q; cbn in *; try discriminate H;
      (split; [reflexivity|]; split; [auto|];
       rewrite length_app; simpl; lia).
Qed.

Lemma failing_store_error : forall self now q params db,
  failing self db -> q <> CREATE_TABLE_IF_NOT_EXISTS ->
  store_error self now q params db.
Proof.
  intros self now q params db (c & Hc & H) Hq.
  unfold store_error, bind, cursor. rewrite Hc.
  destruct (is_connected c) eqn:E; cbn; [|reflexivity].
  destruct H as [H|H]; [discriminate|].
  now rewrite execute_no_table.
Qed.

Lemma refused_store_error : forall self now q params db c t,
  connection self = Some c -> is_connected c = true ->
  students db = Some t ->
  run (found_rows c) now q params t = None ->
  store_error self now q params db.
Proof.
  intros self now q params db c t Hc E Ht R.
  unfold store_error, bind, cursor. rewrite Hc, E. cbn.
  now rewrite (execute_refused _ _ _ _ _ t).
Qed.

(** C2 (amended). Whenever asking for the cursor or carrying out the
    statement raises an error of the store, the operation catches it itself:
    nothing is raised, the table is unchanged, the statement is sent at most
    once, and the caller gets the operation's fallback value: [None] from
    create, 0 from update, delete and count, the empty list from the listing
    and the searches. Such an error is raised when the connection is lost or
    the table is missing, and when a live server refuses the statement, as
    it does a value that a column does not take. With the connection lost or
    the table missing this holds of every call, whatever its arguments. On a
    connected object and a table without rows update, delete, listing,
    searches and count return these same values. *)
Theorem store_errors_are_swallowed :
  forall self db now,
  (forall n a c m,
     store_error self now INSERT_INTO_students
                 [py_str n; py_int a; py_str c; py_dec m] db ->
     swallowed (add_student self now n a c m) None db) /\
  (forall i n a c m,
     supplied n a c m = true ->
     store_error self now (fst (update_statement i n a c m))
                 (snd (update_statement i n a c m)) db ->
     swallowed (update_student self now i n a c m) 0 db) /\
  (forall i,
     store_error self now DELETE_FROM_students_WHERE_id [Int i] db ->
     swallowed (delete_student self now i) 0 db) /\
  (store_error self now SELECT_ORDER_BY_id [] db ->
   swallowed (view_all_students self now) [] db) /\
  (forall term i,
     truthy_int i = true ->
     store_error self now SELECT_WHERE_id [py_int i] db ->
     swallowed (search_students self now term i) [] db) /\
  (forall term i,
     truthy_int i = false -> truthy_str term = true ->
     store_error self now SELECT_WHERE_name_LIKE_ORDER_BY_name
                 [Str (like_pattern term)] db ->
     swallowed (search_students self now term i) [] db) /\
  (store_error self now SELECT_COUNT [] db ->
   swallowed (get_student_count self now) 0 db) /\
  (forall q params,
     failing self db -> q <> CREATE_TABLE_IF_NOT_EXISTS ->
     store_error self now q params db) /\
  (forall q params c t,
     connection self = Some c -> is_connected c = true ->
     students db = Some t ->
     run (found_rows c) now q params t = None ->
     store_error self now q params db) /\
  (failing self db ->
   (forall n a c m, swallowed (add_student self now n a c m) None db) /\
   (forall i n a c m, swallowed (update_student self now i n a c m) 0 db) /\
   (forall i, swallowed (delete_student self now i) 0 db) /\
   swallowed (view_all_students self now) [] db /\
   (forall term i, swallowed (search_students self now term i) [] db) /\
   swallowed (get_student_count self now) 0 db) /\
  (forall other db0 i n a c m term j,
     live other -> no_rows db0 ->
     fst (update_student other now i n a c m db0) = Returned 0 /\
     fst (delete_student other now i db0) = Returned 0 /\
     fst (view_all_students other now db0) = Returned [] /\
     fst (search_students other now term j db0) = Returned [] /\
     fst (get_student_count other now db0) = Returned 0).
Proof.
  intros self db now.
  split; [|split; [|split; [|split; [|split; [|split; [|split;
    [|split; [|split; [|split]]]]]]]]].
  - intros n a c m H. rewrite add_student_call. now apply call_store_error.
  - intros i n a c m Hs H. rewrite update_student_call by assumption.
    now apply call_store_error.
  - intros i H. rewrite delete_student_call. now apply call_store_error.
  - intros H. rewrite view_all_students_call. now apply call_store_error.
  - intros term i Hi H. unfold swallowed.
    rewrite search_students_by_id by assumption.
    now apply call_store_error.
  - intros term i Hi Ht H. unfold swallowed.
    rewrite search_students_by_name by assumption.
    now apply call_store_error.
  - intros H. rewrite get_student_count_call. now apply call_store_error.
  - intros q params Hf Hq. now apply failing_store_error.
  - intros q params c t Hc E Ht R. now apply (refused_store_error _ _ _ _ _ c t).
  - intros Hf.
    split; [|split; [|split; [|split; [|split]]]].
    + intros n a c m. rewrite add_student_call.
      apply call_failing; [assumption|discriminate].
    + intros i n a c m.
      destruct (supplied n a c m) eqn:Hs.
      * rewrite update_student_call by assumption.
        apply call_failing; [assumption|discriminate].
      * unfold swallowed. rewrite update_student_not_supplied by assumption.
        simpl. repeat split; auto.
    + intros i. rewrite delete_student_call.
      apply call_failing; [assumption|discriminate].
    + rewrite view_all_students_call.
      apply call_failing; [assumption|discriminate].
    + intros term i. unfold swallowed.
      destruct (truthy_int i) eqn:Hi.
      * rewrite search_students_by_id by assumption.
        apply call_failing; [assumption|discriminate].
      * destruct (truthy_str term) eqn:Ht.
        -- rewrite search_students_by_name by assumption.
           apply call_failing; [assumption|discriminate].
        -- destruct Hf as (k & Hk & _).
           rewrite (search_students_by_nothing _ _ _ _ _ k) by assumption.
           simpl. repeat split; auto.
    + rewrite get_student_count_call.
      apply call_failing; [assumption|discriminate].
  - intros other db0 i n a c m term j (k & Hk & Ek) (t & Ht & Hrows).
    split; [|split; [|split; [|split]]].
    + destruct (supplied n a c m) eqn:Hs.
      * rewrite update_student_call by assumption.
        rewrite (call_live _ _ _ _ _ _ _ _ k t) by assumption.
        unfold run.
        rewrite run_update_lists by apply update_lists_length.
        rewrite Hrows, update_rows_nil. reflexivity.
      * rewrite update_student_not_supplied by assumption. reflexivity.
    + rewrite delete_student_call.
      rewrite (call_live _ _ _ _ _ _ _ _ k t) by assumption.
      unfold run, run_delete. rewrite Hrows. reflexivity.
    + rewrite view_all_students_call.
      rewrite (call_live _ _ _ _ _ _ _ _ k t) by assumption.
      unfold run. rewrite Hrows. reflexivity.
    + destruct (truthy_int j) eqn:Hj.
      * rewrite search_students_by_id by assumption.
        rewrite (call_live _ _ _ _ _ _ _ _ k t) by assumption.
        unfold run. rewrite Hrows. reflexivity.
      * destruct (truthy_str term) eqn:Hterm.
        -- rewrite search_students_by_name by assumption.
           rewrite (call_live _ _ _ _ _ _ _ _ k t) by assumption.
           unfold run. rewrite Hrows. reflexivity.
        -- rewrite (search_students_by_nothing _ _ _ _ _ k) by assumption.
           reflexivity.
    + rewrite get_student_count_call.
      rewrite (call_live _ _ _ _ _ _ _ _ k t) by assumption.
      unfold run. rewrite Hrows. reflexivity.
Qed.

(** A lost connection under a listing, and a name of 101 characters refused
    by a live server under a create. *)
Lemma store_errors_are_swallowed_witness :
  swallowed (view_all_students sms_lost noon) [] db_two /\
  swallowed (add_student sms_live noon (Some long_name) (Some 14)
                         (Some "8A"%string) (Some 8850)) None db_two /\
  students (snd (add_student sms_live noon (Some long_name) (Some 14)
                             (Some "8A"%string) (Some 8850) db_two))
  = Some two_students.
Proof.
  destruct (store_errors_are_swallowed sms_lost db_two noon)
    as (_ & _ & _ & Hview & _).
  destruct (store_errors_are_swallowed sms_live db_two noon) as (Hadd & _).
  split; [|split].
  - apply Hview. reflexivity.
  - apply Hadd. reflexivity.
  - reflexivity.
Defined.

(** C2 as stated fails: over a lost connection the listing of a table with
    two rows comes back as the empty list, the very value the listing of an
    empty table gives, and nothing is raised. *)
Lemma lost_connection_looks_empty :
  fst (view_all_students sms_lost noon db_two) = Returned [] /\
  fst (view_all_students sms_live noon db_empty) = Returned [] /\
  raised (fst (view_all_students sms_lost noon db_two)) = false.
Proof. repeat split; reflexivity. Qed.

(* ================================================================== *)
(** ** Rows and their primary key *)

Lemma row_with_id_none : forall i t,
  row_with_id i t = None -> forall r, In r (rows t) -> row_id r <> i.
Proof.
  intros i t H r Hin E. unfold row_with_id in H.
  apply (find_none _ _ H) in Hin. simpl in Hin.
  apply Z.eqb_neq in Hin. contradiction.
Qed.

Lemma find_unique_split : forall i (rs : list Row) r,
  NoDup (map row_id rs) ->
  find (fun x => row_id x =? i) rs = Some r ->
  row_id r = i /\
  exists pre post, rs = pre ++ r :: post /\
    (forall x, In x pre -> row_id x <> i) /\
    (forall x, In x post -> row_id x <> i).
Proof.
  intros i rs r Hnd. induction rs as [|x rs IH]; simpl; [discriminate|].
  inversion Hnd as [|? ? Hx Hnd']; subst.
  destruct (row_id x =? i) eqn:E.
  - intros [= ->]. apply Z.eqb_eq in E. split; [assumption|].
    exists [], rs. split; [reflexivity|]. split; [intros ? []|].
    intros y Hy Ey. apply Hx. rewrite E, <- Ey. now apply in_map.
  - intros Hf. destruct (IH Hnd' Hf) as (Hr & pre & post & -> & Hpre & Hpost).
    split; [assumption|]. exists (x :: pre), post.
    split; [reflexivity|]. split; [|assumption].
    intros y [<-|Hy]; [now apply Z.eqb_neq | now apply Hpre].
Qed.

Lemma row_with_id_split : forall i t r,
  wf_table t ->
  row_with_id i t = Some r ->
  row_id r = i /\
  exists pre post, rows t = pre ++ r :: post /\
    (forall x, In x pre -> row_id x <> i) /\
    (forall x, In x post -> row_id x <> i).
Proof.
  intros i t r [Hnd _] H. now apply find_unique_split.
Qed.

Lemma row_with_id_positive : forall i t r,
  wf_table t -> row_with_id i t = Some r -> 1 <= i < auto_increment t.
Proof.
  intros i t r Hwf H.
  destruct (row_with_id_split i t r Hwf H) as (<- & pre & post & E & _).
  destruct Hwf as (_ & Hall & _). rewrite Forall_forall in Hall.
  apply Hall. rewrite E. apply in_elt.
Qed.

(* ================================================================== *)
(** ** [UPDATE] on a table with a primary key *)

Lemma update_rows_no_match : forall fr now fields vals i rs,
  (forall x, In x rs -> row_id x <> i) ->
  update_rows fr now fields vals (Int i) rs = Some (rs, 0).
Proof.
  intros fr now fields vals i rs. induction rs as [|x rs IH]; intros H.
  - reflexivity.
  - cbn [update_rows]. rewrite IH by (intros y Hy; apply H; now right).
    unfold where_id.
    destruct (row_id x =? i) eqn:E; [|reflexivity].
    apply Z.eqb_eq in E. exfalso. apply (H x); [now left | assumption].
Qed.

Lemma update_rows_one_match : forall fr now fields vals i pre r post,
  row_id r = i ->
  (forall x, In x pre -> row_id x <> i) ->
  (forall x, In x post -> row_id x <> i) ->
  update_rows fr now fields vals (Int i) (pre ++ r :: post)
  = match assign r fields vals with
    | None => None
    | Some r' =>
        if same_data r r'
        then Some (pre ++ r :: post, if fr then 1 else 0)
        else Some (pre ++ touch now r' :: post, 1)
    end.
Proof.
  intros fr now fields vals i pre r post Hr Hpre Hpost.
  induction pre as [|x pre IH].
  - cbn [app update_rows].
    rewrite update_rows_no_match by assumption.
    unfold where_id. rewrite Hr, Z.eqb_refl.
    destruct (assign r fields vals) as [r'|]; [|reflexivity].
    destruct (same_data r r'), fr; reflexivity.
  - cbn [app update_rows].
    rewrite IH by (intros y Hy; apply Hpre; now right).
    assert (Ex : where_id (Int i) x = false).
    { unfold where_id. apply Z.eqb_neq. apply Hpre. now left. }
    destruct (assign r fields vals) as [r'|]; [|reflexivity].
    destruct (same_data r r'); rewrite Ex; reflexivity.
Qed.

(** What the built [SET] list does to a row. *)
Lemma assign_update_lists : forall r name age class_name marks,
  assign r (fst (update_lists name age class_name marks))
           (snd (update_lists name age class_name marks))
  = if fits name age class_name marks
    then Some (overwritten r name age class_name marks)
    else None.
Proof.
  intros [i n a c m ca ua] name age class_name marks.
  unfold update_lists, fits, overwritten, truthy_str, is_not_None.
  destruct name as [s1|], age as [z1|], class_name as [s2|], marks as [z2|];
    try destruct (String.eqb s1 "") eqn:E1;
    try destruct (String.eqb s2 "") eqn:E2;
    cbn [negb app fst snd assign set_column py_str py_int py_dec fits_name
         fits_age fits_class fits_marks row_id row_name row_age row_class
         row_marks row_created_at row_updated_at is_some orb andb];
    repeat match goal with
           | |- context [if ?b then Some _ else None] =>
               destruct b; cbn [negb app fst snd assign set_column py_str
                 py_int py_dec fits_name fits_age fits_class fits_marks row_id
                 row_name row_age row_class row_marks row_created_at
                 row_updated_at is_some orb andb]
           end;
    reflexivity.
Qed.

Lemma replace_row_no_match : forall i r' rs,
  (forall x, In x rs -> row_id x <> i) -> replace_row i r' rs = rs.
Proof.
  intros i r' rs. induction rs as [|x rs IH]; intros H; simpl.
  - reflexivity.
  - rewrite IH by (intros y Hy; apply H; now right).
    destruct (row_id x =? i) eqn:E; [|reflexivity].
    apply Z.eqb_eq in E. exfalso. apply (H x); [now left | assumption].
Qed.

Lemma replace_row_split : forall i r r' pre post,
  row_id r = i ->
  (forall x, In x pre -> row_id x <> i) ->
  (forall x, In x post -> row_id x <> i) ->
  replace_row i r' (pre ++ r :: post) = pre ++ r' :: post.
Proof.
  intros i r r' pre post Hr Hpre Hpost. unfold replace_row.
  rewrite map_app. cbn [map]. rewrite Hr, Z.eqb_refl.
  fold (replace_row i r' pre). fold (replace_row i r' post).
  now rewrite !replace_row_no_match.
Qed.

(** The whole effect of [update_student] on a connected object, by cases on
    the row, on whether the values fit and on whether they change anything. *)
Lemma update_student_served :
  forall self c now student_id name age class_name marks db t,
  connection self = Some c ->
  is_connected c = true ->
  students db = Some t ->
  wf_table t ->
  supplied name age class_name marks = true ->
  let (q, params) := update_statement student_id name age class_name marks in
  update_student self now student_id name age class_name marks db
  = match row_with_id student_id t with
    | None => (Returned 0, after_statement db t q params)
    | Some r =>
        if fits name age class_name marks then
          let r' := overwritten r name age class_name marks in
          if same_data r r'
          then (Returned (if found_rows c then 1 else 0),
                after_statement db t q params)
          else (Returned 1,
                after_statement db
                  {| rows := replace_row student_id (touch now r') (rows t);
                     auto_increment := auto_increment t |} q params)
        else (Returned 0, after_statement db t q params)
    end.
Proof.
  intros self c now student_id name age class_name marks db t
         Hc Ec Ht Hwf Hs.
  unfold update_statement.
  rewrite update_student_call by assumption.
  rewrite (call_live _ _ _ _ _ _ _ _ c t) by assumption.
  unfold run. rewrite run_update_lists by apply update_lists_length.
  unfold after_statement.
  destruct (row_with_id student_id t) as [r|] eqn:Hr.
  - destruct (row_with_id_split _ _ _ Hwf Hr)
      as (Hid & pre & post & Erows & Hpre & Hpost).
    rewrite Erows, update_rows_one_match by assumption.
    rewrite assign_update_lists.
    destruct (fits name age class_name marks); [|reflexivity].
    cbv zeta.
    destruct (same_data r (overwritten r name age class_name marks)).
    + rewrite <- Erows. destruct t; reflexivity.
    + rewrite (replace_row_split _ r) by assumption. reflexivity.
  - rewrite update_rows_no_match by (now apply row_with_id_none).
    destruct t; reflexivity.
Qed.

Lemma replace_row_length : forall i r' rs,
  List.length (replace_row i r' rs) = List.length rs.
Proof. intros. unfold replace_row. apply length_map. Qed.

(** The value [update_student] returns. On a connected object and an
    existing table, for every call in which at least one argument counts as
    a field (a non-empty name, an age, a non-empty class, marks):
    [update_student] raises nothing; it
    returns 1 when a row with the identifier exists, the values fit their
    columns and either one of them differs from what is stored or the
    connection counts matched rows, and 0 in every other case; with no such
    row it returns 0 and the table is unchanged; and the number of rows never
    changes. *)
Theorem update_student_rows_affected :
  forall self c now student_id (name : option string) (age : option Z)
         (class_name : option string) (marks : option Z) db t,
  connection self = Some c ->
  is_connected c = true ->
  students db = Some t ->
  wf_table t ->
  supplied name age class_name marks = true ->
  fst (update_student self now student_id name age class_name marks db)
  = Returned
      match row_with_id student_id t with
      | None => 0
      | Some r =>
          if fits name age class_name marks &&
             (found_rows c ||
              negb (same_data r (overwritten r name age class_name marks)))
          then 1 else 0
      end /\
  (row_with_id student_id t = None ->
   students (snd (update_student self now student_id name age class_name
                                 marks db)) = Some t) /\
  (exists t',
     students (snd (update_student self now student_id name age class_name
                                   marks db)) = Some t' /\
     List.length (rows t') = List.length (rows t)).
Proof.
  intros self c now student_id name age class_name marks db t
         Hc Ec Ht Hwf Hs.
  pose proof (update_student_served self c now student_id name age class_name
                marks db t Hc Ec Ht Hwf Hs) as H.
  unfold update_statement in H. rewrite H. clear H.
  destruct (row_with_id student_id t) as [r|].
  - destruct (fits name age class_name marks); cbn [andb].
    + cbv zeta.
      destruct (same_data r (overwritten r name age class_name marks));
        cbn [negb orb fst snd after_statement students].
      * rewrite orb_false_r. split; [reflexivity|].
        split; [discriminate|]. exists t. auto.
      * rewrite orb_true_r. split; [reflexivity|].
        split; [discriminate|]. eexists. split; [reflexivity|].
        cbn [rows]. apply replace_row_length.
    + cbn [fst snd after_statement students]. split; [reflexivity|].
      split; [discriminate|]. exists t. auto.
  - cbn [fst snd after_statement students]. split; [reflexivity|].
    split; [reflexivity|]. exists t. auto.
Qed.

Lemma wf_two_students : wf_table two_students.
Proof.
  split; [|split].
  - simpl. repeat constructor; simpl; intuition discriminate.
  - repeat constructor; simpl; lia.
  - simpl. lia.
Qed.

Lemma update_student_rows_affected_witness :
  fst (update_student sms_live later 2 None None None (Some 9000) db_two)
  = Returned 1 /\
  (row_with_id 2 two_students = None ->
   students (snd (update_student sms_live later 2 None None None (Some 9000)
                                 db_two)) = Some two_students) /\
  (exists t',
     students (snd (update_student sms_live later 2 None None None (Some 9000)
                                   db_two)) = Some t' /\
     List.length (rows t') = List.length (rows two_students)).
Proof.
  exact (update_student_rows_affected sms_live a_connection later 2 None None
           None (Some 9000) db_two two_students eq_refl eq_refl eq_refl
           wf_two_students eq_refl).
Defined.

(** C5. The row count [update_student] returns is [cursor.rowcount], which
    on a connection opened as the program opens it counts the rows changed,
    not the rows matched. So for every stored row, an update whose values
    fit their columns and are the values the row already has returns 0 and
    leaves the table as it was, although the row matched; it is the value
    the method returns, and reports as no student found, for an identifier
    that is in no row. *)
Theorem update_student_unchanged_row_returns_0 :
  forall self c now student_id (name : option string) (age : option Z)
         (class_name : option string) (marks : option Z) db t r,
  connection self = Some c ->
  is_connected c = true ->
  found_rows c = false ->
  students db = Some t ->
  wf_table t ->
  row_with_id student_id t = Some r ->
  supplied name age class_name marks = true ->
  fits name age class_name marks = true ->
  same_data r (overwritten r name age class_name marks) = true ->
  fst (update_student self now student_id name age class_name marks db)
  = Returned 0 /\
  students (snd (update_student self now student_id name age class_name
                                marks db)) = Some t /\
  (forall other_id,
     row_with_id other_id t = None ->
     fst (update_student self now other_id name age class_name marks db)
     = Returned 0).
Proof.
  intros self c now student_id name age class_name marks db t r
         Hc Ec Hfr Ht Hwf Hr Hs Hfits Hsame.
  pose proof (update_student_served self c now student_id name age class_name
                marks db t Hc Ec Ht Hwf Hs) as H.
  unfold update_statement in H. rewrite H, Hr, Hfits. cbv zeta.
  rewrite Hsame, Hfr. cbn [fst snd after_statement students].
  split; [reflexivity|]. split; [reflexivity|].
  intros other_id Hnone.
  pose proof (update_student_served self c now other_id name age class_name
                marks db t Hc Ec Ht Hwf Hs) as H'.
  unfold update_statement in H'. rewrite H', Hnone. reflexivity.
Qed.

(** Row 1 holds the marks 88.50: writing 88.50 to it returns 0, as does
    writing them to the identifier 7, which is in no row. *)
Lemma update_student_unchanged_row_returns_0_witness :
  row_with_id 1 two_students = Some asha /\
  fst (update_student sms_live later 1 None None None (Some 8850) db_two)
  = Returned 0 /\
  students (snd (update_student sms_live later 1 None None None (Some 8850)
                                db_two)) = Some two_students /\
  row_with_id 7 two_students = None /\
  fst (update_student sms_live later 7 None None None (Some 8850) db_two)
  = Returned 0.
Proof.
  destruct (update_student_unchanged_row_returns_0 sms_live a_connection
              later 1 None None None (Some 8850) db_two two_students asha
              eq_refl eq_refl eq_refl eq_refl wf_two_students eq_refl eq_refl
              eq_refl eq_refl) as (H1 & H2 & H3).
  split; [reflexivity|]. split; [exact H1|]. split; [exact H2|].
  split; [reflexivity|]. apply H3. reflexivity.
Defined.

(* ================================================================== *)
(** ** Reading one record back *)

Lemma filter_where_id_no_match : forall i rs,
  (forall x, In x rs -> row_id x <> i) ->
  filter (where_id (Int i)) rs = [].
Proof.
  intros i rs. induction rs as [|x rs IH]; intros H; simpl.
  - reflexivity.
  - destruct (row_id x =? i) eqn:E.
    + apply Z.eqb_eq in E. exfalso. apply (H x); [now left | assumption].
    + apply IH. intros y Hy. apply H. now right.
Qed.


(** [search_students(student_id=i)] on a connected object: the rows with
    that key, as fetched. *)
Lemma search_by_id_served : forall self c now i db t,
  connection self = Some c ->
  is_connected c = true ->
  students db = Some t ->
  i <> 0 ->
  search_students self now None (Some i) db
  = (Returned (map fetch (filter (where_id (Int i)) (rows t))),
     after_statement db t SELECT_WHERE_id [Int i]).
Proof.
  intros self c now i db t Hc Ec Ht Hi.
  rewrite search_students_by_id
    by (simpl; apply negb_true_iff; now apply Z.eqb_neq).
  rewrite (call_live _ _ _ _ _ _ _ _ c t) by assumption.
  reflexivity.
Qed.

Lemma same_data_marks : forall r X,
  same_data r (overwritten r None None None (Some X)) = (row_marks r =? X).
Proof.
  intros r X. unfold same_data, overwritten. simpl.
  now rewrite !String.eqb_refl, Z.eqb_refl.
Qed.

Lemma same_data_age : forall r a,
  same_data r (overwritten r None (Some a) None None) = (row_age r =? a).
Proof.
  intros r a. unfold same_data, overwritten. simpl.
  rewrite !String.eqb_refl, Z.eqb_refl. simpl. now rewrite !andb_true_r.
Qed.




(* ================================================================== *)
(** ** What an update can write *)

Lemma update_rows_pointwise : forall fr now fields vals idv rs rs' n,
  update_rows fr now fields vals idv rs = Some (rs', n) ->
  Forall2 (fun r r' =>
             r' = r \/
             exists r1, assign r fields vals = Some r1 /\ r' = touch now r1)
          rs rs'.
Proof.
  intros fr now fields vals idv rs.
  induction rs as [|x rs IH]; intros rs' n H; cbn [update_rows] in H.
  - injection H as <- <-. constructor.
  - destruct (update_rows fr now fields vals idv rs) as [[rest m]|];
      [|discriminate].
    specialize (IH rest m eq_refl).
    destruct (where_id idv x).
    + destruct (assign x fields vals) as [x1|] eqn:Ex; [|discriminate].
      destruct (same_data x x1); injection H as <- <-; constructor; auto.
      right. exists x1. auto.
    + injection H as <- <-. constructor; auto.
Qed.

Lemma Forall2_same : forall (A : Type) (R : A -> A -> Prop) l,
  (forall x, R x x) -> Forall2 R l l.
Proof. intros A R l H. induction l; constructor; auto. Qed.

(** The table after any call of [update_student]: row by row, either the row
    as it was or the row overwritten by the arguments that count. *)
Lemma update_student_table :
  forall self now student_id name age class_name marks db t t',
  students db = Some t ->
  students (snd (update_student self now student_id name age class_name
                                marks db)) = Some t' ->
  Forall2 (fun r r' =>
             r' = r \/
             r' = touch now (overwritten r name age class_name marks))
          (rows t) (rows t').
Proof.
  intros self now student_id name age class_name marks db t t' Ht H.
  assert (Hsame : students db = Some t' ->
                  Forall2 (fun r r' =>
                     r' = r \/
                     r' = touch now (overwritten r name age class_name marks))
                    (rows t) (rows t')).
  { intros E. rewrite Ht in E. injection E as <-.
    apply Forall2_same. auto. }
  destruct (supplied name age class_name marks) eqn:Hs.
  - rewrite update_student_call in H by assumption.
    destruct (connection self) as [c|] eqn:Hc.
    + destruct (is_connected c) eqn:Ec.
      * rewrite (call_live _ _ _ _ _ _ _ _ c t) in H by assumption.
        unfold run in H.
        rewrite run_update_lists in H by apply update_lists_length.
        destruct (update_rows (found_rows c) now
                    (fst (update_lists name age class_name marks))
                    (snd (update_lists name age class_name marks))
                    (Int student_id) (rows t)) as [[rs n]|] eqn:Eu.
        -- cbn in H. injection H as <-. cbn [rows].
           apply update_rows_pointwise in Eu.
           eapply Forall2_impl; [|exact Eu].
           intros r r' [E | (r1 & Ea & E)]; [now left|right].
           rewrite assign_update_lists in Ea.
           destruct (fits name age class_name marks); [|discriminate].
           injection Ea as <-. exact E.
        -- cbn in H. apply Hsame. now rewrite Ht.
      * apply Hsame. revert H.
        unfold call, try_except_Error, bind, cursor. rewrite Hc, Ec. cbn. auto.
    + apply Hsame. revert H.
      unfold call, try_except_Error, bind, cursor. rewrite Hc. cbn. auto.
  - rewrite update_student_not_supplied in H by assumption. now apply Hsame.
Qed.

Lemma find_row_split : forall i r pre post,
  row_id r = i ->
  (forall x, In x pre -> row_id x <> i) ->
  find (fun x => row_id x =? i) (pre ++ r :: post) = Some r.
Proof.
  intros i r pre post Hr Hpre. induction pre as [|x pre IH]; cbn [app find].
  - now rewrite Hr, Z.eqb_refl.
  - destruct (row_id x =? i) eqn:E.
    + apply Z.eqb_eq in E. exfalso. apply (Hpre x); [now left | assumption].
    + apply IH. intros y Hy. apply Hpre. now right.
Qed.

(** C10. [update_student] takes a text argument as supplied when it is
    non-empty, a numeric one when it is not [None]. In every state, a call
    whose only arguments are an empty name, an empty class, or both returns 0
    and leaves the database untouched, no statement being sent. No call at
    all turns a name or a class into the empty string. An age of 0 and marks
    of 0 are sent in the [UPDATE] statement and, on a connected object, end up
    in the row with the identifier. *)
Theorem update_student_truthiness : forall self now student_id db,
  update_student self now student_id (Some ""%string) None None None db
  = (Returned 0, db) /\
  update_student self now student_id None None (Some ""%string) None db
  = (Returned 0, db) /\
  update_student self now student_id (Some ""%string) None (Some ""%string)
                 None db
  = (Returned 0, db) /\
  (forall name age class_name marks t t',
     students db = Some t ->
     students (snd (update_student self now student_id name age class_name
                                   marks db)) = Some t' ->
     Forall2 (fun r r' =>
                row_id r' = row_id r /\
                (row_name r' = ""%string -> row_name r = ""%string) /\
                (row_class r' = ""%string -> row_class r = ""%string))
             (rows t) (rows t')) /\
  (forall c t r,
     connection self = Some c -> is_connected c = true ->
     students db = Some t -> wf_table t ->
     row_with_id student_id t = Some r ->
     (exists t' r',
        snd (update_student self now student_id None (Some 0) None None db)
        = after_statement db t' (UPDATE_students_SET [col_age])
                          [Int 0; Int student_id] /\
        row_with_id student_id t' = Some r' /\ row_age r' = 0) /\
     (exists t' r',
        snd (update_student self now student_id None None None (Some 0) db)
        = after_statement db t' (UPDATE_students_SET [col_marks])
                          [Dec 0; Int student_id] /\
        row_with_id student_id t' = Some r' /\ row_marks r' = 0)).
Proof.
  intros self now student_id db.
  do 3 (split; [reflexivity|]).
  split.
  - intros name age class_name marks t t' Ht H.
    eapply Forall2_impl;
      [|exact (update_student_table _ _ _ _ _ _ _ _ _ _ Ht H)].
    intros r r' [-> | ->]; [auto|].
    unfold touch, overwritten. cbn.
    split; [reflexivity|]. split.
    + destruct name as [s|]; auto.
      destruct (String.eqb s "") eqn:E; auto.
      intros ->. discriminate.
    + destruct class_name as [s|]; auto.
      destruct (String.eqb s "") eqn:E; auto.
      intros ->. discriminate.
  - intros c t r Hc Ec Ht Hwf Hr.
    destruct (row_with_id_split _ _ _ Hwf Hr)
      as (Hid & pre & post & Erows & Hpre & Hpost).
    split.
    + pose proof (update_student_served self c now student_id None (Some 0)
                    None None db t Hc Ec Ht Hwf eq_refl) as H.
      unfold update_statement in H. rewrite H, Hr. clear H.
      change (fits None (Some 0) None None) with true. cbv iota zeta.
      destruct (same_data r (overwritten r None (Some 0) None None)) eqn:Es.
      * exists t, r. cbn [snd]. split; [reflexivity|]. split; [assumption|].
        rewrite same_data_age in Es. now apply Z.eqb_eq in Es.
      * eexists. exists (touch now (overwritten r None (Some 0) None None)).
        cbn [snd]. split; [reflexivity|]. split; [|reflexivity].
        unfold row_with_id. cbn [rows].
        rewrite Erows, (replace_row_split _ r) by assumption.
        apply find_row_split; [exact Hid | assumption].
    + pose proof (update_student_served self c now student_id None None
                    None (Some 0) db t Hc Ec Ht Hwf eq_refl) as H.
      unfold update_statement in H. rewrite H, Hr. clear H.
      change (fits None None None (Some 0)) with true. cbv iota zeta.
      destruct (same_data r (overwritten r None None None (Some 0))) eqn:Es.
      * exists t, r. cbn [snd]. split; [reflexivity|]. split; [assumption|].
        rewrite same_data_marks in Es. now apply Z.eqb_eq in Es.
      * eexists. exists (touch now (overwritten r None None None (Some 0))).
        cbn [snd]. split; [reflexivity|]. split; [|reflexivity].
        unfold row_with_id. cbn [rows].
        rewrite Erows, (replace_row_split _ r) by assumption.
        apply find_row_split; [exact Hid | assumption].
Qed.

(* ================================================================== *)
(** ** Creating a student and reading it back *)



Lemma wf_empty_table : wf_table empty_table.
Proof.
  split; [|split]; simpl; [constructor | constructor | lia].
Qed.



(* ================================================================== *)
(** ** [LIKE] with a pattern made of a search term *)








(* ================================================================== *)
(** ** [ORDER BY] *)

Section OrderByFacts.
Variable leb : Row -> Row -> bool.
Hypothesis leb_total : forall a b, leb a b = true \/ leb b a = true.

Lemma insert_row_perm : forall r l, Permutation (r :: l) (insert_row leb r l).
Proof.
  intros r l. induction l as [|x l IH]; simpl; [reflexivity|].
  destruct (leb r x); [reflexivity|].
  rewrite perm_swap. now constructor.
Qed.

Lemma order_by_perm : forall l, Permutation l (order_by leb l).
Proof.
  induction l as [|r l IH]; simpl; [constructor|].
  rewrite <- insert_row_perm. now constructor.
Qed.

Lemma insert_row_sorted : forall r l,
  Sorted (fun a b => leb a b = true) l ->
  Sorted (fun a b => leb a b = true) (insert_row leb r l).
Proof.
  intros r l H. induction H as [|x l Hs IH Hd]; simpl.
  - repeat constructor.
  - destruct (leb r x) eqn:E.
    + constructor; [now constructor | now constructor].
    + constructor; [assumption|].
      assert (Hxr : leb x r = true)
        by (destruct (leb_total r x); congruence).
      destruct Hd as [|y l' Hxy]; simpl.
      * now constructor.
      * destruct (leb r y); now constructor.
Qed.

Lemma order_by_sorted : forall l,
  Sorted (fun a b => leb a b = true) (order_by leb l).
Proof.
  induction l as [|r l IH]; simpl; [constructor|].
  now apply insert_row_sorted.
Qed.
End OrderByFacts.


Lemma by_id_total : forall a b, by_id a b = true \/ by_id b a = true.
Proof.
  intros a b. unfold by_id.
  destruct (Z.leb_spec (row_id a) (row_id b)); [now left|right].
  apply Z.leb_le. lia.
Qed.

(* ================================================================== *)
(** ** Searching by name *)






(* ================================================================== *)
(** ** The bootstrap *)

Lemma lookup_store_same : forall l h d db,
  lookup_db (store_db l h d db) h d = Some db.
Proof.
  induction l as [|[[h' d'] db'] l IH]; intros h d db; simpl.
  - now rewrite !String.eqb_refl.
  - destruct (String.eqb h' h && String.eqb d' d) eqn:E; simpl; rewrite E.
    + reflexivity.
    + apply IH.
Qed.

Lemma with_table_students : forall now h d db,
  exists t, students (with_table now h d db) = Some t.
Proof.
  intros now h d db. unfold with_table, execute.
  destruct (students db) as [t|]; simpl; eauto.
Qed.

(** [connect] decided by the server: it succeeds exactly when the
    credentials log in and the database is there, and then the table is
    created if it was missing; otherwise it returns [False] and nothing
    changes. *)
Lemma connect_decided : forall h d u p k now w,
  connect (mkSMS h d u p k) now w
  = match login w h u p, lookup_db (schemas w) h d with
    | Some _, Some db =>
        (Returned (Some true),
         mkSMS h d u p (Some (fresh_connection h d)),
         mkWorld (accounts w)
                 (store_db (schemas w) h d (with_table now h d db)))
    | _, _ => (Returned (Some false), mkSMS h d u p k, w)
    end.
Proof.
  intros h d u p k now w.
  unfold connect, mysql_connector_connect. cbn [host database user password].
  destruct (login w h u p) as [a|]; [|reflexivity].
  destruct (lookup_db (schemas w) h d) as [db|] eqn:El; [|reflexivity].
  cbn [is_connected]. unfold on_database. cbn [conn_database conn_host].
  rewrite El. unfold create_table_if_not_exists, cursor.
  cbn [connection is_connected ret]. unfold try_except_Error, bind, commit, ret.
  unfold with_table, fresh_connection.
  destruct (execute (mkConnection h (Some d) true false) now
              CREATE_TABLE_IF_NOT_EXISTS [] db) as [[res|e] db'] eqn:Ex.
  - reflexivity.
  - exfalso. revert Ex. unfold execute.
    destruct (students db); simpl; discriminate.
Qed.

Lemma create_on_server_decided : forall w h u p d,
  create_on_server w h u p d
  = match login w h u p with
    | Some a => create_database w a h d
    | None => (Raised Error, w)
    end.
Proof.
  intros w h u p d. unfold create_on_server, mysql_connector_connect.
  destruct (login w h u p); reflexivity.
Qed.

(** A candidate that does not work: both connection attempts fail and the
    servers are left as they were. *)
Lemma candidate_fails : forall now w c d,
  works w c = false ->
  connect (of_config c) now w = (Returned (Some false), of_config c, w) /\
  create_on_server w (cfg_host c) (cfg_user c) (cfg_password c) d
  = (Raised Error, w).
Proof.
  intros now w [h db u p] d H. unfold works in H. cbn in H.
  unfold of_config, init. cbn [cfg_host cfg_database cfg_user cfg_password].
  rewrite connect_decided, create_on_server_decided.
  destruct (login w h u p) as [a|]; [|auto].
  apply orb_false_iff in H. destruct H as [H1 H2].
  destruct (lookup_db (schemas w) h db); [discriminate|].
  unfold create_database. rewrite H2. auto.
Qed.

(** A candidate that works: it connects at once, or after its database has
    been created; either way the object is left ready. *)
Lemma candidate_works : forall now w c,
  works w c = true ->
  (exists sms w',
     connect (of_config c) now w = (Returned (Some true), sms, w') /\
     ready w' c sms) \/
  (exists w2 sms w',
     connect (of_config c) now w = (Returned (Some false), of_config c, w) /\
     create_on_server w (cfg_host c) (cfg_user c) (cfg_password c)
                      (cfg_database c) = (Returned tt, w2) /\
     connect (of_config c) now w2 = (Returned (Some true), sms, w') /\
     ready w' c sms).
Proof.
  intros now w [h db u p] H. unfold works in H. cbn in H.
  unfold of_config, init. cbn [cfg_host cfg_database cfg_user cfg_password].
  rewrite create_on_server_decided, !connect_decided.
  destruct (login w h u p) as [a|] eqn:Hl; [|discriminate].
  assert (Hready : forall l d0,
    ready (mkWorld (accounts w) (store_db l h db (with_table now h db d0)))
          (mkConfig h db u p)
          (mkSMS h db u p (Some (fresh_connection h db)))).
  { intros l d0. unfold ready. cbn.
    repeat split; auto.
    - exists (fresh_connection h db). repeat split.
    - rewrite lookup_store_same.
      destruct (with_table_students now h db d0) as (t & Ht). eauto. }
  destruct (lookup_db (schemas w) h db) as [d0|] eqn:El.
  - left. eexists. eexists. split; [reflexivity|]. apply Hready.
  - right. cbn in H. unfold create_database. rewrite H, El.
    eexists. eexists. eexists.
    split; [reflexivity|]. split; [reflexivity|].
    rewrite connect_decided. unfold login in *. cbn [accounts schemas].
    rewrite Hl, lookup_store_same.
    split; [reflexivity|]. apply Hready.
Qed.

Lemma try_configs_all_fail : forall now cfgs w,
  (forall x, In x cfgs -> works w x = false) ->
  try_configs now cfgs w = (Returned None, w).
Proof.
  intros now cfgs w. induction cfgs as [|c cfgs IH]; intros H.
  - reflexivity.
  - cbn [try_configs].
    destruct (candidate_fails now w c "student_db" (H c (or_introl eq_refl)))
      as [E1 E2].
    rewrite E1. cbn [truthy_bool]. rewrite E2.
    apply IH. intros x Hx. apply H. now right.
Qed.

Lemma try_configs_first_working : forall now pre c post w,
  (forall x, In x pre -> works w x = false) ->
  works w c = true ->
  cfg_database c = "student_db"%string ->
  exists sms w',
    try_configs now (pre ++ c :: post) w = (Returned (Some sms), w') /\
    ready w' c sms.
Proof.
  intros now pre c post w. induction pre as [|x pre IH]; intros Hpre Hc Hd.
  - cbn [app try_configs].
    destruct (candidate_works now w c Hc)
      as [(sms & w' & E & R) | (w2 & sms & w' & E1 & E2 & E3 & R)].
    + rewrite E. cbn [truthy_bool]. eauto.
    + rewrite E1. cbn [truthy_bool]. rewrite <- Hd, E2, E3.
      cbn [truthy_bool]. eauto.
  - cbn [app try_configs].
    destruct (candidate_fails now w x "student_db" (Hpre x (or_introl eq_refl)))
      as [E1 E2].
    rewrite E1. cbn [truthy_bool]. rewrite E2.
    apply IH; auto. intros y Hy. apply Hpre. now right.
Qed.

(** The statement that names [student_db] is read as the loop's own. *)
Lemma names_student_db : forall sv, names_database sv "student_db".
Proof. intros sv w a h. reflexivity. Qed.

Lemma send_on_server_decided : forall sv w h u p sql,
  send_on_server sv w h u p sql
  = match login w h u p with
    | Some a => execute_text sv w a h sql
    | None => (Raised Error, w)
    end.
Proof.
  intros sv w h u p sql. unfold send_on_server, mysql_connector_connect.
  destruct (login w h u p); reflexivity.
Qed.

Lemma send_on_server_named : forall sv w h u p d,
  names_database sv d ->
  send_on_server sv w h u p (create_database_statement d)
  = create_on_server w h u p d.
Proof.
  intros sv w h u p d H.
  rewrite send_on_server_decided, create_on_server_decided.
  destruct (login w h u p); [apply H|reflexivity].
Qed.

(** A statement sent as text is carried out or raises [Error]. *)
Lemma execute_text_outcome : forall sv w a h sql,
  exists w',
    execute_text sv w a h sql = (Returned tt, w') \/
    execute_text sv w a h sql = (Raised Error, w').
Proof.
  intros sv w a h sql. unfold execute_text.
  destruct (String.eqb sql "CREATE DATABASE IF NOT EXISTS student_db").
  - unfold create_database.
    destruct (acct_create a);
      [destruct (lookup_db (schemas w) h "student_db")|]; eauto.
  - destruct (sv a h sql w) as [[|] w']; eauto.
Qed.

(** A connection that succeeded leaves the object ready. *)
Lemma store_ready : forall now h d u p accts l d0,
  ready (mkWorld accts (store_db l h d (with_table now h d d0)))
        (mkConfig h d u p)
        (mkSMS h d u p (Some (fresh_connection h d))).
Proof.
  intros now h d u p accts l d0. unfold ready. cbn.
  repeat split; auto.
  - exists (fresh_connection h d). repeat split.
  - rewrite lookup_store_same.
    destruct (with_table_students now h d d0) as (t & Ht). eauto.
Qed.

(** The typed candidate, whatever the server makes of the statement. *)
Lemma try_manual_typed : forall sv now c w,
  (typed_works sv w c = true ->
   exists sms w', try_manual sv now c w = (Returned (Some sms), w') /\
                  ready w' c sms) /\
  (typed_works sv w c = false ->
   exists w', try_manual sv now c w = (Returned None, w')).
Proof.
  intros sv now [h d u p] w.
  unfold try_manual, typed_works, of_config, init.
  cbn [cfg_host cfg_database cfg_user cfg_password].
  rewrite connect_decided.
  destruct (login w h u p) as [a|] eqn:Hl.
  - destruct (lookup_db (schemas w) h d) as [d0|] eqn:El.
    + cbn [is_some orb truthy_bool]. split; [|discriminate].
      intros _. eexists. eexists. split; [reflexivity|]. apply store_ready.
    + cbn [is_some orb truthy_bool]. rewrite send_on_server_decided, Hl.
      destruct (execute_text_outcome sv w a h (create_database_statement d))
        as (w2 & [E|E]); rewrite E.
      * rewrite connect_decided.
        destruct (login w2 h u p) as [a2|];
          [destruct (lookup_db (schemas w2) h d) as [d2|]|];
          cbn [is_some andb truthy_bool].
        -- split; [|discriminate]. intros _. eexists. eexists.
           split; [reflexivity|]. apply store_ready.
        -- split; [discriminate|eauto].
        -- split; [discriminate|eauto].
      * split; [discriminate|eauto].
  - cbn [truthy_bool]. rewrite send_on_server_decided, Hl.
    split; [discriminate|eauto].
Qed.

(** With a name the server reads as a name, the typed candidate is a
    candidate like the built-in ones. *)
Lemma typed_works_named : forall sv w c,
  names_database sv (cfg_database c) -> typed_works sv w c = works w c.
Proof.
  intros sv w [h d u p] Hn. unfold typed_works, works.
  cbn [cfg_host cfg_database cfg_user cfg_password] in *.
  destruct (login w h u p) as [a|] eqn:Hl; [|reflexivity].
  rewrite Hn. unfold create_database.
  destruct (lookup_db (schemas w) h d) eqn:El; cbn [is_some orb];
    [reflexivity|].
  destruct (acct_create a); [|reflexivity].
  unfold login in *. cbn [accounts schemas].
  rewrite Hl, lookup_store_same. reflexivity.
Qed.

Lemma try_manual_fails : forall sv now c w,
  names_database sv (cfg_database c) ->
  works w c = false -> try_manual sv now c w = (Returned None, w).
Proof.
  intros sv now c w Hn H. unfold try_manual.
  destruct (candidate_fails now w c (cfg_database c) H) as [E1 E2].
  rewrite E1. cbn [truthy_bool].
  rewrite send_on_server_named by assumption. now rewrite E2.
Qed.

Lemma first_working : forall w l,
  (forall x, In x l -> works w x = false) \/
  exists pre c post,
    l = pre ++ c :: post /\
    (forall x, In x pre -> works w x = false) /\ works w c = true.
Proof.
  intros w l. induction l as [|x l IH].
  - left. intros x [].
  - destruct (works w x) eqn:E.
    + right. exists [], x, l. repeat split; auto. intros y [].
    + destruct IH as [H | (pre & c & post & -> & Hpre & Hc)].
      * left. intros y [<-|Hy]; auto.
      * right. exists (x :: pre), c, post. repeat split; auto.
        intros y [<-|Hy]; auto.
Qed.

(** A built-in candidate that is the first to work ends the bootstrap,
    whatever would have been typed. *)
Lemma setup_database_builtin : forall sv now typed w pre c post,
  configs = pre ++ c :: post ->
  (forall x, In x pre -> works w x = false) ->
  works w c = true ->
  exists sms w',
    setup_database sv now typed w = (Returned (Some sms), w') /\ ready w' c sms.
Proof.
  intros sv now typed w pre c post E Hpre Hc. unfold setup_database.
  assert (Hd : cfg_database c = "student_db"%string).
  { assert (Hall : Forall (fun x => cfg_database x = "student_db"%string)
                          configs) by (repeat constructor).
    rewrite Forall_forall in Hall. apply Hall. rewrite E. apply in_elt. }
  rewrite E.
  destruct (try_configs_first_working now pre c post w Hpre Hc Hd)
    as (sms & w' & Et & R).
  rewrite Et. eauto.
Qed.

(** When no built-in candidate works, the bootstrap is the typed one. *)
Lemma setup_database_typed : forall sv now typed w,
  (forall x, In x configs -> works w x = false) ->
  setup_database sv now typed w = try_manual sv now (manual_config typed) w.
Proof.
  intros sv now typed w H. unfold setup_database.
  now rewrite try_configs_all_fail.
Qed.

(** [setup_database] raises nothing. *)
Lemma setup_database_returns : forall sv now typed w,
  raised (fst (setup_database sv now typed w)) = false.
Proof.
  intros sv now typed w.
  destruct (first_working w configs)
    as [H | (pre & c & post & E & Hpre & Hc)].
  - rewrite setup_database_typed by assumption.
    destruct (try_manual_typed sv now (manual_config typed) w) as [H1 H2].
    destruct (typed_works sv w (manual_config typed)).
    + destruct (H1 eq_refl) as (sms & w' & Em & _). now rewrite Em.
    + destruct (H2 eq_refl) as (w' & Em). now rewrite Em.
  - destruct (setup_database_builtin sv now typed w pre c post E Hpre Hc)
      as (sms & w' & Es & _).
    now rewrite Es.
Qed.

Lemma connect_returns : forall self now w,
  exists r self' w', connect self now w = (Returned r, self', w').
Proof.
  intros [h d u p k] now w. rewrite connect_decided.
  destruct (login w h u p); [destruct (lookup_db (schemas w) h d)|]; eauto.
Qed.

Lemma create_on_server_outcome : forall w h u p d,
  (exists w', create_on_server w h u p d = (Returned tt, w')) \/
  create_on_server w h u p d = (Raised Error, w).
Proof.
  intros w h u p d. rewrite create_on_server_decided.
  destruct (login w h u p) as [a|]; [|now right].
  unfold create_database.
  destruct (acct_create a); [|now right].
  destruct (lookup_db (schemas w) h d); left; eauto.
Qed.

(** One turn of the loop is one attempt of the specification, for a
    candidate whose database is [student_db]. *)
Lemma try_configs_refines : forall now cfgs w,
  Forall (fun c => cfg_database c = "student_db"%string) cfgs ->
  try_configs now cfgs w
  = (Returned (fst (connect_candidates now cfgs w)),
     snd (connect_candidates now cfgs w)).
Proof.
  intros now cfgs. induction cfgs as [|c cfgs IH]; intros w Hall.
  - reflexivity.
  - inversion Hall as [|? ? Hd Hall']; subst.
    cbn [try_configs connect_candidates]. unfold attempt_candidate.
    destruct (connect_returns (of_config c) now w) as (r & s1 & w1 & E1).
    rewrite E1. destruct (truthy_bool r); [reflexivity|].
    rewrite Hd.
    destruct (create_on_server_outcome w1 (cfg_host c) (cfg_user c)
                (cfg_password c) "student_db") as [(w2 & E2) | E2];
      rewrite E2.
    + destruct (connect_returns s1 now w2) as (r' & s2 & w3 & E3).
      rewrite E3. destruct (truthy_bool r'); [reflexivity|]. now apply IH.
    + now apply IH.
Qed.

Lemma try_manual_refines : forall sv now c w,
  names_database sv (cfg_database c) ->
  try_manual sv now c w
  = (Returned (fst (attempt_candidate now c w)),
     snd (attempt_candidate now c w)).
Proof.
  intros sv now c w Hn. unfold try_manual, attempt_candidate.
  destruct (connect_returns (of_config c) now w) as (r & s1 & w1 & E1).
  rewrite E1. destruct (truthy_bool r); [reflexivity|].
  rewrite send_on_server_named by assumption.
  destruct (create_on_server_outcome w1 (cfg_host c) (cfg_user c)
              (cfg_password c) (cfg_database c)) as [(w2 & E2) | E2];
    rewrite E2; [|reflexivity].
  destruct (connect_returns s1 now w2) as (r' & s2 & w3 & E3).
  rewrite E3. destruct (truthy_bool r'); reflexivity.
Qed.

Lemma connect_candidates_app : forall now l c w,
  connect_candidates now (l ++ [c]) w
  = match connect_candidates now l w with
    | (Some sms, w') => (Some sms, w')
    | (None, w') => attempt_candidate now c w'
    end.
Proof.
  intros now l c. induction l as [|x l IH]; intros w.
  - cbn [app connect_candidates].
    destruct (attempt_candidate now c w) as [[sms|] w']; reflexivity.
  - cbn [app connect_candidates].
    destruct (attempt_candidate now x w) as [[sms|] w']; [reflexivity|].
    apply IH.
Qed.

(** With a typed name the server reads as a name, [setup_database] is the
    bootstrap of the specification run on the three built-in candidates
    followed by the typed one. *)
Lemma setup_database_refines : forall sv now typed w,
  names_database sv (cfg_database (manual_config typed)) ->
  setup_database sv now typed w
  = (Returned (fst (connect_candidates now
                      (configs ++ [manual_config typed]) w)),
     snd (connect_candidates now (configs ++ [manual_config typed]) w)).
Proof.
  intros sv now typed w Hn. unfold setup_database.
  rewrite try_configs_refines by (repeat constructor).
  rewrite connect_candidates_app.
  destruct (connect_candidates now configs w) as [[sms|] w']; cbn [fst snd].
  - reflexivity.
  - now apply try_manual_refines.
Qed.

(** C7. [setup_database] tries the three built-in candidates in their order
    as the specification describes: each is tried, on failure its database
    is created with the same credentials and the candidate retried once, and
    the first success ends the search. A built-in candidate works when its
    credentials log in and its database exists or can be created by the
    account; the first one that works gives the result, an object left
    connected to that candidate's database with the table [students] in
    place, whatever failed before it and whatever would have been typed.
    When none of them works the typed candidate is tried in the same way,
    its creation statement built from the typed name: it succeeds, and the
    object is left ready, exactly when its credentials log in and its
    database is there at once or after the server has carried out that
    statement. The result is [None] only when the three built-in candidates
    and the typed one have all failed, and no exception is raised in any
    case. With a typed name that the server reads as a database name, the
    whole bootstrap is the procedure of the specification on the four
    candidates, and a bootstrap that fails has changed nothing on the
    servers. *)
Theorem setup_database_first_candidate : forall sv now typed w,
  try_configs now configs w
  = (Returned (fst (connect_candidates now configs w)),
     snd (connect_candidates now configs w)) /\
  (forall pre c post,
     configs = pre ++ c :: post ->
     (forall x, In x pre -> works w x = false) ->
     works w c = true ->
     exists sms w',
       setup_database sv now typed w = (Returned (Some sms), w') /\
       ready w' c sms) /\
  ((forall x, In x configs -> works w x = false) ->
   (typed_works sv w (manual_config typed) = true ->
    exists sms w',
      setup_database sv now typed w = (Returned (Some sms), w') /\
      ready w' (manual_config typed) sms) /\
   (typed_works sv w (manual_config typed) = false ->
    fst (setup_database sv now typed w) = Returned None)) /\
  (fst (setup_database sv now typed w) = Returned None ->
   (forall x, In x configs -> works w x = false) /\
   typed_works sv w (manual_config typed) = false) /\
  raised (fst (setup_database sv now typed w)) = false /\
  (names_database sv (cfg_database (manual_config typed)) ->
   setup_database sv now typed w
   = (Returned (fst (connect_candidates now
                       (configs ++ [manual_config typed]) w)),
      snd (connect_candidates now (configs ++ [manual_config typed]) w)) /\
   typed_works sv w (manual_config typed) = works w (manual_config typed) /\
   ((forall x, In x (configs ++ [manual_config typed]) ->
               works w x = false) ->
    setup_database sv now typed w = (Returned None, w))).
Proof.
  intros sv now typed w.
  split; [|split; [|split; [|split; [|split]]]].
  - apply try_configs_refines. repeat constructor.
  - intros pre c post. apply setup_database_builtin.
  - intros Hnone. rewrite setup_database_typed by assumption.
    destruct (try_manual_typed sv now (manual_config typed) w) as [H1 H2].
    split; [exact H1|].
    intros Hf. destruct (H2 Hf) as (w' & E). now rewrite E.
  - intros Hret.
    destruct (first_working w configs)
      as [H | (pre & c & post & E & Hpre & Hc)].
    + split; [exact H|].
      rewrite setup_database_typed in Hret by assumption.
      destruct (try_manual_typed sv now (manual_config typed) w) as [H1 _].
      destruct (typed_works sv w (manual_config typed)); [|reflexivity].
      destruct (H1 eq_refl) as (sms & w' & Em & _).
      rewrite Em in Hret. discriminate.
    + destruct (setup_database_builtin sv now typed w pre c post E Hpre Hc)
        as (sms & w' & Es & _).
      rewrite Es in Hret. discriminate.
  - apply setup_database_returns.
  - intros Hn. split; [|split].
    + now apply setup_database_refines.
    + now apply typed_works_named.
    + intros H. rewrite setup_database_typed
        by (intros x Hx; apply H; apply in_or_app; now left).
      apply try_manual_fails; [assumption|].
      apply H. apply in_or_app. right. now left.
Qed.

(** Three refused candidates and the typed one accepted: the bootstrap ends
    with the typed candidate, whose database it had to create. *)
Example setup_database_fourth_candidate :
  let w := mkWorld [mkAccount "db.school" "clerk" "s3cret" true] [] in
  let typed := mkTyped " db.school " "clerk" "s3cret" "  " in
  exists sms w',
    setup_database a_server noon typed w = (Returned (Some sms), w') /\
    host sms = "db.school"%string /\ database sms = "student_db"%string /\
    connection sms = Some (fresh_connection "db.school" "student_db") /\
    lookup_db (schemas w') "db.school" "student_db"
    = Some {| students := Some empty_table;
              received := [(CREATE_TABLE_IF_NOT_EXISTS, [])] |}.
Proof. eexists. eexists. repeat split; reflexivity. Qed.

(** A server reads a name as a name: the sample one does [school]. *)
Example a_server_names_school : names_database a_server "school".
Proof.
  intros w a h. unfold execute_text, create_database_statement, a_server.
  cbn [String.append String.eqb Ascii.eqb Bool.eqb].
  unfold create_database.
  destruct (acct_create a); [|reflexivity].
  destruct (lookup_db (schemas w) h "school"); reflexivity.
Qed.

(** The typed name goes into the statement without quotes. On a server that
    refuses the text made from [my-db], the bootstrap fails and creates
    nothing, although the account may create databases; a name the server
    reads as one is created and connected to. *)
Example setup_database_typed_name :
  let w := mkWorld [mkAccount "db.school" "clerk" "s3cret" true] [] in
  create_database_statement "my-db"
  = "CREATE DATABASE IF NOT EXISTS my-db"%string /\
  setup_database a_server noon (mkTyped "db.school" "clerk" "s3cret" "my-db") w
  = (Returned None, w) /\
  exists sms w',
    setup_database a_server noon
                   (mkTyped "db.school" "clerk" "s3cret" " school ") w
    = (Returned (Some sms), w') /\
    database sms = "school"%string /\
    connection sms = Some (fresh_connection "db.school" "school").
Proof.
  split; [reflexivity|]. split; [reflexivity|].
  eexists. eexists. repeat split; reflexivity.
Qed.

(* ================================================================== *)
(** ** The primary key stays in order *)

Lemma set_column_row_id : forall r c v r',
  set_column r c v = Some r' -> row_id r' = row_id r.
Proof.
  intros r c v r' H. destruct c; simpl in H;
    match type of H with
    | match ?x with Some _ => _ | None => _ end = _ => destruct x
    end; try discriminate; injection H as <-; reflexivity.
Qed.

Lemma assign_row_id : forall fields vals r r',
  assign r fields vals = Some r' -> row_id r' = row_id r.
Proof.
  induction fields as [|c fields IH]; intros [|v vals] r r' H; simpl in H;
    try discriminate.
  - now injection H as <-.
  - destruct (set_column r c v) as [r1|] eqn:E; [|discriminate].
    rewrite (IH _ _ _ H). now apply (set_column_row_id r c v).
Qed.

Lemma update_rows_keys : forall fr now fields vals idv rs rs' n,
  update_rows fr now fields vals idv rs = Some (rs', n) ->
  map row_id rs' = map row_id rs.
Proof.
  intros fr now fields vals idv rs rs' n H.
  apply update_rows_pointwise in H.
  induction H as [|r r' rs rs' Hr _ IH]; [reflexivity|].
  simpl. rewrite IH. f_equal.
  destruct Hr as [-> | (r1 & Ea & ->)]; [reflexivity|].
  simpl. now apply assign_row_id in Ea.
Qed.

Lemma NoDup_map_filter : forall (A B : Type) (f : A -> B) p (l : list A),
  NoDup (map f l) -> NoDup (map f (filter p l)).
Proof.
  intros A B f p l. induction l as [|x l IH]; simpl; intros H; [constructor|].
  inversion H as [|? ? Hx Hl]; subst.
  destruct (p x); simpl; [|auto].
  constructor; [|auto].
  intros Hin. apply Hx. apply in_map_iff in Hin.
  destruct Hin as (y & Ey & Hy). apply filter_In in Hy.
  apply in_map_iff. exists y. tauto.
Qed.

Lemma Forall_filter : forall (A : Type) (P : A -> Prop) p (l : list A),
  Forall P l -> Forall P (filter p l).
Proof.
  intros A P p l H. rewrite Forall_forall in *.
  intros x Hx. apply filter_In in Hx. apply H. tauto.
Qed.

Lemma Forall_keys : forall (P : Z -> Prop) (l l' : list Row),
  map row_id l' = map row_id l ->
  Forall (fun r => P (row_id r)) l -> Forall (fun r => P (row_id r)) l'.
Proof.
  intros P l l' E H.
  apply Forall_map. rewrite E. now apply Forall_map.
Qed.

(** Every statement the server accepts keeps the keys of the table unique,
    positive and below the counter. *)
Lemma run_preserves_wf : forall fr now q params t res t',
  wf_table t ->
  run fr now q params t = Some (res, t') ->
  wf_table t'.
Proof.
  intros fr now q params t res t' (Hnd & Hall & Hpos) H.
  unfold run in H. destruct q.
  - injection H as _ <-. repeat split; assumption.
  - unfold run_insert in H.
    destruct params as [|n [|a [|c [|m [|? ?]]]]]; try discriminate.
    destruct (fits_name n), (fits_age a), (fits_class c), (fits_marks m);
      try discriminate.
    injection H as _ <-. unfold wf_table. cbn [rows auto_increment].
    split; [|split].
    + rewrite map_app. cbn [map row_id].
      apply NoDup_app; [assumption | repeat constructor; intros [] |].
      intros x Hx [<-|[]]. apply in_map_iff in Hx.
      destruct Hx as (r & Er & Hr). rewrite Forall_forall in Hall.
      specialize (Hall r Hr). lia.
    + apply Forall_app. split.
      * eapply Forall_impl; [|exact Hall]. simpl. intros r Hr. lia.
      * repeat constructor; simpl; lia.
    + lia.
  - unfold run_update in H.
    destruct (List.length params =? S (List.length update_fields))%nat;
      [|discriminate].
    destruct (update_rows fr now update_fields (removelast params)
                (last params NONE) (rows t)) as [[rs n]|] eqn:E;
      [|discriminate].
    injection H as _ <-. apply update_rows_keys in E.
    unfold wf_table. cbn [rows auto_increment].
    split; [now rewrite E|]. split; [|assumption].
    apply (Forall_keys (fun i => 1 <= i < auto_increment t) (rows t));
      assumption.
  - unfold run_delete in H. destruct params as [|idv [|? ?]]; try discriminate.
    injection H as _ <-. unfold wf_table. cbn [rows auto_increment].
    split; [now apply NoDup_map_filter|].
    split; [now apply Forall_filter | assumption].
  - destruct params; [|discriminate]. injection H as _ <-.
    repeat split; assumption.
  - destruct params as [|? [|? ?]]; try discriminate. injection H as _ <-.
    repeat split; assumption.
  - destruct params as [|? [|? ?]]; try discriminate. injection H as _ <-.
    repeat split; assumption.
  - destruct params; [|discriminate]. injection H as _ <-.
    repeat split; assumption.
Qed.

Lemma call_preserves_wf :
  forall A self now q params (read : Result -> A) fallback db t,
  students db = Some t ->
  wf_table t ->
  exists t', students (snd (call self now q params read fallback db)) = Some t'
             /\ wf_table t'.
Proof.
  intros A self now q params read fallback db t Ht Hwf.
  destruct (connection self) as [c|] eqn:Hc.
  - destruct (is_connected c) eqn:Ec.
    + rewrite (call_live _ _ _ _ _ _ _ _ c t) by assumption.
      destruct (run (found_rows c) now q params t) as [[res t']|] eqn:R.
      * exists t'. split; [reflexivity|]. eapply run_preserves_wf; eauto.
      * exists t. auto.
    + unfold call, try_except_Error, bind, cursor. rewrite Hc, Ec. cbn. eauto.
  - unfold call, try_except_Error, bind, cursor. rewrite Hc. cbn. eauto.
Qed.

(** The key invariant of the table. The empty table created by
    [create_table_if_not_exists] has its keys in order, and no call of
    [add_student], [update_student], [delete_student], [view_all_students],
    [search_students] or [get_student_count], in any state of the object,
    breaks it: the identifiers stay unique, at least 1 and below the
    [AUTO_INCREMENT] counter. *)
Theorem methods_keep_keys_in_order :
  wf_table empty_table /\
  forall self now db t,
    students db = Some t ->
    wf_table t ->
    forall i n a c m term j db',
      In db' [snd (add_student self now n a c m db);
              snd (update_student self now i n a c m db);
              snd (delete_student self now i db);
              snd (view_all_students self now db);
              snd (search_students self now term j db);
              snd (get_student_count self now db)] ->
      exists t', students db' = Some t' /\ wf_table t'.
Proof.
  split; [exact wf_empty_table|].
  intros self now db t Ht Hwf i n a c m term j db' Hin.
  assert (Hsame : db' = db -> exists t', students db' = Some t' /\ wf_table t')
    by (intros ->; eauto).
  cbn [In] in Hin.
  destruct Hin as [<-|[<-|[<-|[<-|[<-|[<-|[]]]]]]].
  - rewrite add_student_call. now apply (call_preserves_wf _ _ _ _ _ _ _ _ t).
  - destruct (supplied n a c m) eqn:Hs.
    + rewrite update_student_call by assumption.
      now apply (call_preserves_wf _ _ _ _ _ _ _ _ t).
    + apply Hsame. now rewrite update_student_not_supplied.
  - rewrite delete_student_call.
    now apply (call_preserves_wf _ _ _ _ _ _ _ _ t).
  - rewrite view_all_students_call.
    now apply (call_preserves_wf _ _ _ _ _ _ _ _ t).
  - destruct (truthy_int j) eqn:Hj.
    + rewrite search_students_by_id by assumption.
      now apply (call_preserves_wf _ _ _ _ _ _ _ _ t).
    + destruct (truthy_str term) eqn:Hterm.
      * rewrite search_students_by_name by assumption.
        now apply (call_preserves_wf _ _ _ _ _ _ _ _ t).
      * unfold search_students, try_except_Error, bind, cursor.
        destruct (connection self) as [k|]; cbn; [|eauto].
        destruct (is_connected k); cbn; rewrite ?Hj, ?Hterm; cbn; eauto.
  - rewrite get_student_count_call.
    now apply (call_preserves_wf _ _ _ _ _ _ _ _ t).
Qed.

(** The timestamps of fetched records compare as text exactly as the stored
    times compare on the clock. *)
Theorem fetched_timestamps_in_order : forall r1 r2,
  ts_valid (row_created_at r1) -> ts_valid (row_created_at r2) ->
  ts_valid (row_updated_at r1) -> ts_valid (row_updated_at r2) ->
  (String.ltb (created_at (fetch r1)) (created_at (fetch r2)) = true
   <-> ts_lt (row_created_at r1) (row_created_at r2)) /\
  (String.ltb (updated_at (fetch r1)) (updated_at (fetch r2)) = true
   <-> ts_lt (row_updated_at r1) (row_updated_at r2)).
Proof.
  intros r1 r2 C1 C2 U1 U2. cbn [fetch created_at updated_at].
  split; now apply DATE_FORMAT_ltb.
Qed.

Lemma fetched_timestamps_in_order_witness :
  String.ltb (updated_at (fetch asha))
             (updated_at (fetch (touch later ben))) = true
  <-> ts_lt (row_updated_at asha) (row_updated_at (touch later ben)).
Proof.
  apply (fetched_timestamps_in_order asha (touch later ben));
    unfold ts_valid; simpl; lia.
Defined.

(* ================================================================== *)
(** ** Listing, counting and deleting *)

(** [view_all_students] on a connected object returns every row once, as
    fetched, in non-decreasing order of the identifier; an empty table gives
    the empty list. *)
Theorem view_all_students_ordered :
  forall self c now db t,
  connection self = Some c ->
  is_connected c = true ->
  students db = Some t ->
  exists l,
    fst (view_all_students self now db) = Returned (map fetch l) /\
    Permutation l (rows t) /\
    Sorted (fun a b => row_id a <= row_id b) l /\
    (rows t = [] -> l = []).
Proof.
  intros self c now db t Hc Ec Ht.
  exists (order_by by_id (rows t)).
  rewrite view_all_students_call.
  rewrite (call_live _ _ _ _ _ _ _ _ c t) by assumption.
  split; [reflexivity|].
  split; [symmetry; apply order_by_perm|].
  split.
  - pose proof (order_by_sorted by_id by_id_total (rows t)) as H.
    induction H as [|x l Hs IH Hd]; constructor; auto.
    destruct Hd as [|y l' Hxy]; constructor.
    now apply Z.leb_le.
  - intros ->. reflexivity.
Qed.

Lemma view_all_students_ordered_witness :
  exists l,
    fst (view_all_students sms_live later db_two) = Returned (map fetch l) /\
    Permutation l (rows two_students) /\
    Sorted (fun a b => row_id a <= row_id b) l.
Proof.
  destruct (view_all_students_ordered sms_live a_connection later db_two
              two_students eq_refl eq_refl eq_refl) as (l & H1 & H2 & H3 & _).
  exists l. auto.
Defined.

Lemma filter_out_no_match : forall i rs,
  (forall x, In x rs -> row_id x <> i) ->
  filter (fun r => negb (where_id (Int i) r)) rs = rs.
Proof.
  intros i rs. induction rs as [|x rs IH]; intros H; simpl; [reflexivity|].
  destruct (row_id x =? i) eqn:E; simpl.
  - apply Z.eqb_eq in E. exfalso. apply (H x); [now left | assumption].
  - f_equal. apply IH. intros y Hy. apply H. now right.
Qed.

Lemma filter_out_split : forall i r pre post,
  row_id r = i ->
  (forall x, In x pre -> row_id x <> i) ->
  (forall x, In x post -> row_id x <> i) ->
  filter (fun r => negb (where_id (Int i) r)) (pre ++ r :: post) = pre ++ post.
Proof.
  intros i r pre post Hr Hpre Hpost.
  set (f := fun r => negb (where_id (Int i) r)).
  assert (Hf : f r = false)
    by (unfold f, where_id; rewrite Hr, Z.eqb_refl; reflexivity).
  rewrite filter_app. cbn [filter]. rewrite Hf. unfold f.
  now rewrite !filter_out_no_match.
Qed.

(** Deleting an existing record, on a connected object: [delete_student]
    returns 1; a search for the identifier afterwards returns the empty list;
    and [get_student_count] is one less than before. Deleting an identifier
    that is not there returns 0 and leaves the table as it was. *)
Theorem delete_student_then_search :
  forall self c now now' i db t,
  connection self = Some c ->
  is_connected c = true ->
  students db = Some t ->
  wf_table t ->
  match row_with_id i t with
  | Some r =>
      fst (delete_student self now i db) = Returned 1 /\
      fst (search_students self now' None (Some i)
             (snd (delete_student self now i db))) = Returned [] /\
      fst (get_student_count self now' db)
      = Returned (Z.of_nat (List.length (rows t))) /\
      fst (get_student_count self now' (snd (delete_student self now i db)))
      = Returned (Z.of_nat (List.length (rows t)) - 1)
  | None =>
      fst (delete_student self now i db) = Returned 0 /\
      students (snd (delete_student self now i db)) = Some t
  end.
Proof.
  intros self c now now' i db t Hc Ec Ht Hwf.
  rewrite delete_student_call.
  rewrite (call_live _ _ _ _ _ _ _ _ c t) by assumption.
  unfold run, run_delete.
  destruct (row_with_id i t) as [r|] eqn:Hr.
  - destruct (row_with_id_split _ _ _ Hwf Hr)
      as (Hid & pre & post & Erows & Hpre & Hpost).
    assert (Hi : i <> 0)
      by (pose proof (row_with_id_positive _ _ _ Hwf Hr); lia).
    cbn [fst snd rowcount].
    rewrite Erows, filter_out_split by assumption.
    rewrite !length_app. cbn [List.length].
    split; [f_equal; lia|].
    split.
    + rewrite (search_by_id_served _ c _ _ _
                 {| rows := pre ++ post; auto_increment := auto_increment t |})
        by (auto; reflexivity).
      cbn [fst rows]. rewrite filter_app.
      now rewrite !filter_where_id_no_match.
    + rewrite !get_student_count_call.
      rewrite (call_live _ _ _ _ _ _ _ _ c t) by assumption.
      rewrite (call_live _ _ _ _ _ _ _ _ c
                 {| rows := pre ++ post; auto_increment := auto_increment t |})
        by (auto; reflexivity).
      unfold run. cbn [fst rows fetchone_total].
      rewrite Erows, !length_app. cbn [List.length].
      split; f_equal; lia.
  - pose proof (row_with_id_none _ _ Hr) as Hnone.
    rewrite filter_out_no_match by assumption.
    cbn [fst snd rowcount students].
    split; [f_equal; lia|]. destruct t; reflexivity.
Qed.

Lemma delete_student_then_search_witness :
  fst (delete_student sms_live later 2 db_two) = Returned 1 /\
  fst (search_students sms_live later None (Some 2)
         (snd (delete_student sms_live later 2 db_two))) = Returned [] /\
  fst (get_student_count sms_live later db_two) = Returned 2 /\
  fst (get_student_count sms_live later
         (snd (delete_student sms_live later 2 db_two))) = Returned (2 - 1).
Proof.
  exact (delete_student_then_search sms_live a_connection later later 2 db_two
           two_students eq_refl eq_refl eq_refl wf_two_students).
Defined.

(** The scenario of the specification, run on the model: two students are
    created, counted, one is found by a lower-case part of its name, the
    second is deleted, and an update without fields changes nothing. *)
Example scenario :
  let s0 := db_empty in
  let '(id1, s1) := add_student sms_live noon (Some "Asha"%string) (Some 14)
                                (Some "8A"%string) (Some 8850) s0 in
  let '(id2, s2) := add_student sms_live noon (Some "Ben"%string) (Some 15)
                                (Some "8B"%string) (Some 7200) s1 in
  let '(n2, s3) := get_student_count sms_live later s2 in
  let '(found, s4) := search_students sms_live later (Some "as"%string) None
                                      s3 in
  let '(deleted, s5) := delete_student sms_live later 2 s4 in
  let '(n1, s6) := get_student_count sms_live later s5 in
  let '(updated, s7) := update_student sms_live later 1 None None None None
                                       s6 in
  let '(n1', _) := get_student_count sms_live later s7 in
  id1 = Returned (Some 1) /\ id2 = Returned (Some 2) /\ n2 = Returned 2 /\
  found = Returned [fetch asha] /\ deleted = Returned 1 /\
  n1 = Returned 1 /\ updated = Returned 0 /\ n1' = Returned 1.
Proof. vm_compute. repeat split; reflexivity. Qed.

(* ================================================================== *)
(** ** What the methods raise *)

Lemma call_unconnected : forall A self now q params (read : Result -> A)
    fallback db,
  connection self = None ->
  call self now q params read fallback db = (Raised AttributeError, db).
Proof.
  intros A self now q params read fallback db Hc.
  unfold call, try_except_Error, bind, cursor. now rewrite Hc.
Qed.

Lemma call_connected_returns : forall A self now q params (read : Result -> A)
    fallback db c,
  connection self = Some c ->
  raised (fst (call self now q params read fallback db)) = false.
Proof.
  intros A self now q params read fallback db c Hc.
  unfold call, try_except_Error, bind, cursor. rewrite Hc.
  destruct (is_connected c); cbn; [|reflexivity].
  destruct (execute c now q params db) as [[res|[| |]] db'] eqn:E;
    cbn; try reflexivity.
  - exfalso. revert E. unfold execute.
    destruct (students db) as [t|]; [|destruct q; discriminate].
    destruct (run (found_rows c) now q params t) as [[? ?]|]; discriminate.
  - exfalso. revert E. unfold execute.
    destruct (students db) as [t|]; [|destruct q; discriminate].
    destruct (run (found_rows c) now q params t) as [[? ?]|]; discriminate.
Qed.

(** A method of the record layer raises only on an object that never
    connected. On an object that holds a connection, open or closed, none of
    the six methods raises, whatever the arguments and the database. On an
    object whose connection is [None], each of them raises [AttributeError],
    which no [except] clause of the method catches, and leaves the database
    untouched; the one exception is [update_student] with nothing to update,
    which returns 0 before it asks for a cursor. *)
Theorem methods_raise_only_unconnected :
  forall self now db i n a c m term j,
  (forall k, connection self = Some k ->
     raised (fst (add_student self now n a c m db)) = false /\
     raised (fst (update_student self now i n a c m db)) = false /\
     raised (fst (delete_student self now i db)) = false /\
     raised (fst (view_all_students self now db)) = false /\
     raised (fst (search_students self now term j db)) = false /\
     raised (fst (get_student_count self now db)) = false) /\
  (connection self = None ->
     add_student self now n a c m db = (Raised AttributeError, db) /\
     update_student self now i n a c m db
     = (if supplied n a c m then Raised AttributeError else Returned 0, db) /\
     delete_student self now i db = (Raised AttributeError, db) /\
     view_all_students self now db = (Raised AttributeError, db) /\
     search_students self now term j db = (Raised AttributeError, db) /\
     get_student_count self now db = (Raised AttributeError, db)).
Proof.
  intros self now db i n a c m term j. split.
  - intros k Hk.
    split; [rewrite add_student_call; now apply (call_connected_returns _ _ _ _ _ _ _ _ k)|].
    split.
    { destruct (supplied n a c m) eqn:Hs.
      - rewrite update_student_call by assumption.
        now apply (call_connected_returns _ _ _ _ _ _ _ _ k).
      - now rewrite update_student_not_supplied. }
    split; [rewrite delete_student_call; now apply (call_connected_returns _ _ _ _ _ _ _ _ k)|].
    split; [rewrite view_all_students_call; now apply (call_connected_returns _ _ _ _ _ _ _ _ k)|].
    split; [|rewrite get_student_count_call; now apply (call_connected_returns _ _ _ _ _ _ _ _ k)].
    destruct (truthy_int j) eqn:Hj.
    + rewrite search_students_by_id by assumption.
      now apply (call_connected_returns _ _ _ _ _ _ _ _ k).
    + destruct (truthy_str term) eqn:Ht.
      * rewrite search_students_by_name by assumption.
        now apply (call_connected_returns _ _ _ _ _ _ _ _ k).
      * now rewrite (search_students_by_nothing _ _ _ _ _ k).
  - intros Hn.
    split; [rewrite add_student_call; now apply call_unconnected|].
    split.
    { destruct (supplied n a c m) eqn:Hs.
      - rewrite update_student_call by assumption. now apply call_unconnected.
      - now apply update_student_not_supplied. }
    split; [rewrite delete_student_call; now apply call_unconnected|].
    split; [rewrite view_all_students_call; now apply call_unconnected|].
    split; [|rewrite get_student_count_call; now apply call_unconnected].
    unfold search_students, try_except_Error, bind, cursor. now rewrite Hn.
Qed.

(* ================================================================== *)
(** ** Reading changes nothing *)

Lemma call_select_keeps_table : forall A self now q params (read : Result -> A)
    fallback db,
  q <> CREATE_TABLE_IF_NOT_EXISTS ->
  (forall fr t res t', run fr now q params t = Some (res, t') -> t' = t) ->
  students (snd (call self now q params read fallback db)) = students db.
Proof.
  intros A self now q params read fallback db Hc Hq.
  unfold call, try_except_Error, bind, cursor.
  destruct (connection self) as [c|]; [|reflexivity].
  destruct (is_connected c); cbn; [|reflexivity].
  unfold execute.
  destruct (students db) as [t|] eqn:Et.
  - destruct (run (found_rows c) now q params t) as [[res t']|] eqn:R; cbn.
    + now rewrite (Hq _ _ _ _ R).
    + reflexivity.
  - destruct q; try reflexivity. congruence.
Qed.

Lemma run_select_keeps_table : forall fr now q params t res t',
  In q [SELECT_ORDER_BY_id; SELECT_WHERE_id;
        SELECT_WHERE_name_LIKE_ORDER_BY_name; SELECT_COUNT] ->
  run fr now q params t = Some (res, t') -> t' = t.
Proof.
  intros fr now q params t res t' Hq H. unfold run in H. cbn [In] in Hq.
  destruct Hq as [<-|[<-|[<-|[<-|[]]]]];
    destruct params as [|? [|? ?]]; try discriminate;
    now injection H as _ <-.
Qed.

(** The three reading methods never change the table: in any state of the
    object and of the database, after [view_all_students], [search_students]
    and [get_student_count] the table is what it was. On a connected object
    the count is the number of records the listing returns. *)
Theorem reading_keeps_the_table :
  forall self now db term j,
  students (snd (view_all_students self now db)) = students db /\
  students (snd (search_students self now term j db)) = students db /\
  students (snd (get_student_count self now db)) = students db /\
  (forall c t,
     connection self = Some c -> is_connected c = true ->
     students db = Some t ->
     exists l,
       fst (view_all_students self now db) = Returned l /\
       fst (get_student_count self now db)
       = Returned (Z.of_nat (List.length l))).
Proof.
  intros self now db term j.
  assert (Hsel : forall A q params (read : Result -> A) fallback,
            In q [SELECT_ORDER_BY_id; SELECT_WHERE_id;
                  SELECT_WHERE_name_LIKE_ORDER_BY_name; SELECT_COUNT] ->
            students (snd (call self now q params read fallback db))
            = students db).
  { intros A q params read fallback Hq. apply call_select_keeps_table.
    - cbn [In] in Hq. intuition (subst; discriminate).
    - intros fr t res t'. now apply run_select_keeps_table. }
  split; [|split; [|split]].
  - rewrite view_all_students_call. apply Hsel. cbn. auto.
  - destruct (truthy_int j) eqn:Hj.
    + rewrite search_students_by_id by assumption. apply Hsel. cbn. auto.
    + destruct (truthy_str term) eqn:Ht.
      * rewrite search_students_by_name by assumption. apply Hsel. cbn. auto.
      * unfold search_students, try_except_Error, bind, cursor.
        destruct (connection self) as [k|]; [|reflexivity].
        destruct (is_connected k); cbn; rewrite ?Hj, ?Ht; reflexivity.
  - rewrite get_student_count_call. apply Hsel. cbn. auto.
  - intros c t Hc Ec Et.
    exists (map fetch (order_by by_id (rows t))).
    rewrite view_all_students_call, get_student_count_call.
    rewrite !(call_live _ _ _ _ _ _ _ _ c t) by assumption.
    unfold run. cbn [fst fetchall fetchone_total].
    split; [reflexivity|].
    rewrite length_map.
    now rewrite <- (Permutation_length (order_by_perm by_id (rows t))).
Qed.

(* ================================================================== *)
(** ** The arguments of a search *)


(* ================================================================== *)
(** ** Identifiers are handed out once *)

Lemma run_counter : forall fr now q params t res t',
  run fr now q params t = Some (res, t') ->
  auto_increment t <= auto_increment t'.
Proof.
  intros fr now q params t res t' H. unfold run in H. destruct q.
  - injection H as _ <-. lia.
  - unfold run_insert in H.
    destruct params as [|n [|a [|c [|m [|? ?]]]]]; try discriminate.
    destruct (fits_name n), (fits_age a), (fits_class c), (fits_marks m);
      try discriminate.
    injection H as _ <-. simpl. lia.
  - unfold run_update in H.
    destruct (List.length params =? S (List.length update_fields))%nat;
      [|discriminate].
    destruct (update_rows fr now update_fields (removelast params)
                (last params NONE) (rows t)) as [[rs n]|]; [|discriminate].
    injection H as _ <-. simpl. lia.
  - unfold run_delete in H. destruct params as [|? [|? ?]]; try discriminate.
    injection H as _ <-. simpl. lia.
  - destruct params; [|discriminate]. injection H as _ <-. lia.
  - destruct params as [|? [|? ?]]; try discriminate. injection H as _ <-. lia.
  - destruct params as [|? [|? ?]]; try discriminate. injection H as _ <-. lia.
  - destruct params; [|discriminate]. injection H as _ <-. lia.
Qed.

Lemma call_counter : forall A self now q params (read : Result -> A) fallback
    db t,
  students db = Some t ->
  exists t', students (snd (call self now q params read fallback db)) = Some t'
             /\ auto_increment t <= auto_increment t'.
Proof.
  intros A self now q params read fallback db t Ht.
  destruct (connection self) as [c|] eqn:Hc.
  - destruct (is_connected c) eqn:Ec.
    + rewrite (call_live _ _ _ _ _ _ _ _ c t) by assumption.
      destruct (run (found_rows c) now q params t) as [[res t']|] eqn:R.
      * exists t'. split; [reflexivity|]. eapply run_counter; eauto.
      * exists t. split; [reflexivity|lia].
    + unfold call, try_except_Error, bind, cursor. rewrite Hc, Ec. cbn.
      exists t. split; [assumption|lia].
  - unfold call, try_except_Error, bind, cursor. rewrite Hc. cbn.
    exists t. split; [assumption|lia].
Qed.

Lemma store_step_counter : forall db db' t,
  store_step db db' ->
  students db = Some t ->
  exists t', students db' = Some t' /\ auto_increment t <= auto_increment t'.
Proof.
  intros db db' t Hstep Ht.
  assert (Hsame : exists t', students db = Some t'
                             /\ auto_increment t <= auto_increment t')
    by (exists t; split; [assumption|lia]).
  destruct Hstep as [self now n a c m | self now i n a c m | self now i
                    | self now | self now term i | self now | self now].
  - rewrite add_student_call. now apply call_counter.
  - destruct (supplied n a c m) eqn:Hs.
    + rewrite update_student_call by assumption. now apply call_counter.
    + now rewrite update_student_not_supplied.
  - rewrite delete_student_call. now apply call_counter.
  - rewrite view_all_students_call. now apply call_counter.
  - destruct (truthy_int i) eqn:Hi.
    + rewrite search_students_by_id by assumption. now apply call_counter.
    + destruct (truthy_str term) eqn:Hterm.
      * rewrite search_students_by_name by assumption. now apply call_counter.
      * unfold search_students, try_except_Error, bind, cursor.
        destruct (connection self) as [k|]; cbn; [|assumption].
        destruct (is_connected k); cbn; rewrite ?Hi, ?Hterm; assumption.
  - rewrite get_student_count_call. now apply call_counter.
  - unfold create_table_if_not_exists, cursor.
    destruct (connection self) as [k|]; cbn; [|assumption].
    destruct (is_connected k); cbn; [|assumption].
    unfold try_except_Error, bind, commit, ret.
    rewrite (execute_done _ _ _ _ _ t (Done 0 0) t) by (auto; reflexivity).
    exists t. split; [reflexivity|lia].
Qed.

Lemma store_steps_counter : forall db db' t,
  store_steps db db' ->
  students db = Some t ->
  exists t', students db' = Some t' /\ auto_increment t <= auto_increment t'.
Proof.
  intros db db' t Hsteps Ht. induction Hsteps as [|db1 db2 _ IH Hstep].
  - exists t. split; [assumption|lia].
  - destruct IH as (t1 & Ht1 & Hle).
    destruct (store_step_counter _ _ _ Hstep Ht1) as (t2 & Ht2 & Hle2).
    exists t2. split; [assumption|lia].
Qed.

(** What a successful [add_student] tells: the identifier is the counter of
    the table, and the counter has moved past it. *)
Lemma add_student_returned : forall self now n a c m db i,
  fst (add_student self now n a c m db) = Returned (Some i) ->
  exists t t',
    students db = Some t /\ i = auto_increment t /\
    students (snd (add_student self now n a c m db)) = Some t' /\
    auto_increment t' = i + 1.
Proof.
  intros self now n a c m db i H. rewrite add_student_call in *.
  destruct (connection self) as [k|] eqn:Hk;
    [|rewrite call_unconnected in H by assumption; discriminate].
  destruct (is_connected k) eqn:Ek.
  - destruct (students db) as [t|] eqn:Et.
    + rewrite (call_live _ _ _ _ _ _ _ _ k t) in * by assumption.
      unfold run in *. unfold run_insert in *.
      destruct (fits_name (py_str n)), (fits_age (py_int a)),
        (fits_class (py_str c)), (fits_marks (py_dec m));
        try discriminate.
      cbn in H. injection H as <-.
      exists t. eexists. repeat split; reflexivity.
    + exfalso. revert H. unfold call, try_except_Error, bind, cursor.
      rewrite Hk, Ek. cbn. rewrite execute_no_table by (auto; discriminate).
      discriminate.
  - exfalso. revert H. unfold call, try_except_Error, bind, cursor.
    rewrite Hk, Ek. discriminate.
Qed.

(** An identifier returned by [add_student] is never returned again: after
    any number of calls of the methods, by any objects and with any
    arguments, deletions and the [create_table_if_not_exists] of a new
    connection included, a later successful [add_student] returns a strictly
    greater identifier. *)
Theorem identifiers_never_reused :
  forall self1 now1 n1 a1 c1 m1 self2 now2 n2 a2 c2 m2 db db2 i1 i2,
  fst (add_student self1 now1 n1 a1 c1 m1 db) = Returned (Some i1) ->
  store_steps (snd (add_student self1 now1 n1 a1 c1 m1 db)) db2 ->
  fst (add_student self2 now2 n2 a2 c2 m2 db2) = Returned (Some i2) ->
  i1 < i2.
Proof.
  intros self1 now1 n1 a1 c1 m1 self2 now2 n2 a2 c2 m2 db db2 i1 i2
         H1 Hsteps H2.
  destruct (add_student_returned _ _ _ _ _ _ _ _ H1)
    as (t & t' & _ & _ & Ht' & Hc).
  destruct (store_steps_counter _ _ _ Hsteps Ht') as (t2 & Ht2 & Hle).
  destruct (add_student_returned _ _ _ _ _ _ _ _ H2)
    as (u & u' & Hu & -> & _ & _).
  rewrite Ht2 in Hu. injection Hu as <-. lia.
Qed.

Lemma identifiers_never_reused_witness :
  fst (add_student sms_live later (Some "Cleo"%string) (Some 16)
         (Some "9A"%string) (Some 9100)
         (snd (create_table_if_not_exists sms_live later
            (snd (delete_student sms_live later 1
               (snd (add_student sms_live noon (Some "Asha"%string) (Some 14)
                       (Some "8A"%string) (Some 8850) db_empty)))))))
  = Returned (Some 2) /\
  1 < 2.
Proof.
  split; [reflexivity|].
  apply (identifiers_never_reused sms_live noon (Some "Asha"%string) (Some 14)
           (Some "8A"%string) (Some 8850) sms_live later (Some "Cleo"%string)
           (Some 16) (Some "9A"%string) (Some 9100) db_empty
           (snd (create_table_if_not_exists sms_live later
              (snd (delete_student sms_live later 1
                 (snd (add_student sms_live noon (Some "Asha"%string)
                         (Some 14) (Some "8A"%string) (Some 8850)
                         db_empty))))))).
  - reflexivity.
  - eapply steps_more;
      [eapply steps_more; [apply steps_none | apply step_delete]
      | apply step_create].
  - reflexivity.
Defined.

(* ================================================================== *)
(** ** What an update and a deletion leave alone *)

Lemma update_rows_frame : forall fr now fields vals i rs rs' n,
  update_rows fr now fields vals (Int i) rs = Some (rs', n) ->
  Forall2 (fun r r' =>
             (row_id r <> i -> r' = r) /\
             (r' = r \/
              exists r1, assign r fields vals = Some r1 /\ r' = touch now r1))
          rs rs'.
Proof.
  intros fr now fields vals i rs.
  induction rs as [|x rs IH]; intros rs' n H; cbn [update_rows] in H.
  - injection H as <- <-. constructor.
  - destruct (update_rows fr now fields vals (Int i) rs) as [[rest m]|];
      [|discriminate].
    specialize (IH rest m eq_refl). unfold where_id in H.
    destruct (row_id x =? i) eqn:E.
    + apply Z.eqb_eq in E.
      destruct (assign x fields vals) as [x1|] eqn:Ex; [|discriminate].
      destruct (same_data x x1); injection H as <- <-; constructor; auto.
      split; [contradiction|]. right. exists x1. auto.
    + injection H as <- <-. constructor; auto.
Qed.

(** [update_student] touches one row at most and only the columns it was
    given. In any state of the object, row by row and in the same order: the
    identifier and created_at stay; a row with another identifier is left
    exactly as it was; and in the row with the identifier a name, age, class
    or marks that was not supplied keeps its value. *)
Theorem update_student_frame :
  forall self now student_id (name : option string) (age : option Z)
         (class_name : option string) (marks : option Z) db t t',
  students db = Some t ->
  students (snd (update_student self now student_id name age class_name
                                marks db)) = Some t' ->
  auto_increment t' = auto_increment t /\
  Forall2 (fun r r' =>
             row_id r' = row_id r /\
             row_created_at r' = row_created_at r /\
             (row_id r <> student_id -> r' = r) /\
             (truthy_str name = false -> row_name r' = row_name r) /\
             (age = None -> row_age r' = row_age r) /\
             (truthy_str class_name = false -> row_class r' = row_class r) /\
             (marks = None -> row_marks r' = row_marks r))
          (rows t) (rows t').
Proof.
  intros self now student_id name age class_name marks db t t' Ht H.
  assert (Hsame : students db = Some t' ->
            auto_increment t' = auto_increment t /\
            Forall2 (fun r r' =>
               row_id r' = row_id r /\
               row_created_at r' = row_created_at r /\
               (row_id r <> student_id -> r' = r) /\
               (truthy_str name = false -> row_name r' = row_name r) /\
               (age = None -> row_age r' = row_age r) /\
               (truthy_str class_name = false -> row_class r' = row_class r) /\
               (marks = None -> row_marks r' = row_marks r))
              (rows t) (rows t')).
  { intros E. rewrite Ht in E. injection E as <-. split; [reflexivity|].
    apply Forall2_same. intros r. repeat split; auto. }
  destruct (supplied name age class_name marks) eqn:Hs;
    [|rewrite update_student_not_supplied in H by assumption; auto].
  rewrite update_student_call in H by assumption.
  destruct (connection self) as [c|] eqn:Hc;
    [|rewrite call_unconnected in H by assumption; auto].
  destruct (is_connected c) eqn:Ec.
  - rewrite (call_live _ _ _ _ _ _ _ _ c t) in H by assumption.
    unfold run in H.
    rewrite run_update_lists in H by apply update_lists_length.
    destruct (update_rows (found_rows c) now
                (fst (update_lists name age class_name marks))
                (snd (update_lists name age class_name marks))
                (Int student_id) (rows t)) as [[rs n]|] eqn:Eu;
      [|cbn in H; apply Hsame; now rewrite Ht].
    cbn in H. injection H as <-. cbn [rows auto_increment].
    split; [reflexivity|].
    apply update_rows_frame in Eu.
    eapply Forall2_impl; [|exact Eu].
    intros r r' [Hother [-> | (r1 & Ea & ->)]].
    + repeat split; auto.
    + rewrite assign_update_lists in Ea.
      destruct (fits name age class_name marks); [|discriminate].
      injection Ea as <-.
      unfold touch, overwritten. cbn.
      split; [reflexivity|]. split; [reflexivity|]. split; [exact Hother|].
      split; [|split; [|split]].
      * destruct name as [s|]; auto. simpl.
        destruct (String.eqb s ""); [auto|discriminate].
      * intros ->. reflexivity.
      * destruct class_name as [s|]; auto. simpl.
        destruct (String.eqb s ""); [auto|discriminate].
      * intros ->. reflexivity.
  - apply Hsame. revert H.
    unfold call, try_except_Error, bind, cursor. rewrite Hc, Ec. cbn. auto.
Qed.

Lemma update_student_frame_witness :
  auto_increment two_students = auto_increment two_students /\
  Forall2 (fun r r' =>
             row_id r' = row_id r /\
             row_created_at r' = row_created_at r /\
             (row_id r <> 2 -> r' = r) /\
             (truthy_str None = false -> row_name r' = row_name r) /\
             (Some 16 = None -> row_age r' = row_age r) /\
             (truthy_str None = false -> row_class r' = row_class r) /\
             (@None Z = None -> row_marks r' = row_marks r))
          (rows two_students)
          [asha; mkRow 2 "Ben" 16 "8B" 7200 noon later].
Proof.
  exact (update_student_frame sms_live later 2 None (Some 16) None None db_two
           two_students
           {| rows := [asha; mkRow 2 "Ben" 16 "8B" 7200 noon later];
              auto_increment := 3 |} eq_refl eq_refl).
Defined.

(** [delete_student] removes the rows with the identifier and nothing else.
    In any state of the object: every row left was there before; every row
    with another identifier is still there, in the same order; the counter
    of identifiers is not lowered; and on a connected object no row with the
    identifier is left. *)
Theorem delete_student_frame :
  forall self now student_id db t t',
  students db = Some t ->
  students (snd (delete_student self now student_id db)) = Some t' ->
  auto_increment t' = auto_increment t /\
  filter (fun r => negb (row_id r =? student_id)) (rows t')
  = filter (fun r => negb (row_id r =? student_id)) (rows t) /\
  (forall r, In r (rows t') -> In r (rows t)) /\
  (forall c, connection self = Some c -> is_connected c = true ->
     forall r, In r (rows t') -> row_id r <> student_id).
Proof.
  intros self now student_id db t t' Ht H.
  rewrite delete_student_call in H.
  destruct (connection self) as [c|] eqn:Hc.
  - destruct (is_connected c) eqn:Ec.
    + rewrite (call_live _ _ _ _ _ _ _ _ c t) in H by assumption.
      unfold run, run_delete in H. cbn in H. injection H as <-.
      cbn [rows auto_increment].
      split; [reflexivity|]. split; [|split].
      * induction (rows t) as [|x l IH]; [reflexivity|].
        cbn [filter]. destruct (row_id x =? student_id) eqn:E; cbn [negb].
        -- exact IH.
        -- cbn [filter]. rewrite E. cbn [negb]. now rewrite IH.
      * intros r Hr. apply filter_In in Hr. tauto.
      * intros k _ _ r Hr. apply filter_In in Hr. destruct Hr as [_ Hr].
        apply negb_true_iff in Hr. now apply Z.eqb_neq in Hr.
    + revert H. unfold call, try_except_Error, bind, cursor.
      rewrite Hc, Ec. cbn. rewrite Ht. intros [= <-].
      repeat split; auto. intros k [= <-]. congruence.
  - rewrite call_unconnected in H by assumption. cbn in H.
    rewrite Ht in H. injection H as <-.
    repeat split; auto. intros k. discriminate.
Qed.

Lemma delete_student_frame_witness :
  auto_increment {| rows := [asha]; auto_increment := 3 |}
  = auto_increment two_students /\
  filter (fun r => negb (row_id r =? 2)) [asha]
  = filter (fun r => negb (row_id r =? 2)) (rows two_students).
Proof.
  destruct (delete_student_frame sms_live later 2 db_two two_students
              {| rows := [asha]; auto_increment := 3 |} eq_refl eq_refl)
    as (H1 & H2 & _).
  split; assumption.
Defined.

(* ================================================================== *)
(** ** Creating the table and connecting *)

(** [create_table_if_not_exists] on a connected object never raises, creates
    the empty table when there is none and keeps an existing table with all
    its rows, so that a second call changes no table. On an object without a
    usable connection the failing [cursor()] leaves the local [cursor]
    unbound, and the [finally] clause that reads it raises
    [UnboundLocalError], also when the error was an [Error] that the
    [except] clause had handled; the database is untouched. *)
Theorem create_table_if_not_exists_behaviour :
  forall self now db,
  (forall c, connection self = Some c -> is_connected c = true ->
     fst (create_table_if_not_exists self now db) = Returned tt /\
     students (snd (create_table_if_not_exists self now db))
     = Some match students db with
            | Some t => t
            | None => empty_table
            end /\
     students (snd (create_table_if_not_exists self now
                      (snd (create_table_if_not_exists self now db))))
     = students (snd (create_table_if_not_exists self now db))) /\
  (~ live self ->
   create_table_if_not_exists self now db = (Raised UnboundLocalError, db)).
Proof.
  intros self now db. split.
  - intros c Hc Ec.
    unfold create_table_if_not_exists, cursor. rewrite Hc, Ec.
    cbn [ret]. unfold try_except_Error, bind, commit, ret, execute.
    destruct (students db) as [t|]; cbn; auto.
  - intros Hn. unfold create_table_if_not_exists, cursor.
    destruct (connection self) as [c|] eqn:Hc; [|reflexivity].
    destruct (is_connected c) eqn:Ec; [|reflexivity].
    exfalso. apply Hn. exists c. auto.
Qed.

Lemma lookup_store_other : forall l h d db h' d',
  String.eqb h h' && String.eqb d d' = false ->
  lookup_db (store_db l h d db) h' d' = lookup_db l h' d'.
Proof.
  induction l as [|[[h0 d0] db0] l IH]; intros h d db h' d' Hne; simpl.
  - now rewrite Hne.
  - destruct (String.eqb h0 h && String.eqb d0 d) eqn:E; simpl.
    + apply andb_true_iff in E. destruct E as [E1 E2].
      apply String.eqb_eq in E1, E2. subst h0 d0. now rewrite Hne.
    + destruct (String.eqb h0 h' && String.eqb d0 d'); [reflexivity|].
      now apply IH.
Qed.

Lemma with_table_keeps : forall now h d db,
  students (with_table now h d db)
  = Some match students db with Some t => t | None => empty_table end.
Proof.
  intros now h d db. unfold with_table, execute.
  destruct (students db); reflexivity.
Qed.

(** [connect] never raises. It returns [True] exactly when the credentials
    of the object log in at its host and its database exists there; the
    object then holds a connection to that database, in which the table is
    the one that was there, rows included, or the empty table when there was
    none; the accounts and every other database are as before. In every
    other case it returns [False] and neither the object nor any server has
    changed. *)
Theorem connect_behaviour :
  forall self now w,
  match login w (host self) (user self) (password self),
        lookup_db (schemas w) (host self) (database self) with
  | Some _, Some db =>
      exists self' w' db',
        connect self now w = (Returned (Some true), self', w') /\
        host self' = host self /\ database self' = database self /\
        user self' = user self /\ password self' = password self /\
        connection self'
        = Some (fresh_connection (host self) (database self)) /\
        accounts w' = accounts w /\
        lookup_db (schemas w') (host self) (database self) = Some db' /\
        students db'
        = Some match students db with Some t => t | None => empty_table end /\
        (forall h d,
           String.eqb (host self) h && String.eqb (database self) d = false ->
           lookup_db (schemas w') h d = lookup_db (schemas w) h d)
  | _, _ => connect self now w = (Returned (Some false), self, w)
  end.
Proof.
  intros [h d u p k] now w. cbn [host database user password].
  rewrite connect_decided.
  destruct (login w h u p) as [a|]; [|reflexivity].
  destruct (lookup_db (schemas w) h d) as [db|]; [|reflexivity].
  eexists. eexists. exists (with_table now h d db).
  split; [reflexivity|]. cbn.
  repeat split.
  - apply lookup_store_same.
  - apply with_table_keeps.
  - intros h' d' Hne. now apply lookup_store_other.
Qed.

(* ================================================================== *)
(** ** What the bootstrap leaves in place *)

Lemma keeps_tables_refl : forall w, keeps_tables w w.
Proof. intros w. split; [reflexivity|]. intros h d db t H1 H2. eauto. Qed.

Lemma keeps_tables_trans : forall w1 w2 w3,
  keeps_tables w1 w2 -> keeps_tables w2 w3 -> keeps_tables w1 w3.
Proof.
  intros w1 w2 w3 [A1 K1] [A2 K2]. split; [congruence|].
  intros h d db t H1 H2.
  destruct (K1 h d db t H1 H2) as (db2 & L2 & S2).
  exact (K2 h d db2 t L2 S2).
Qed.

(** Storing a database under a key keeps the tables when the key was free or
    the stored database has the table of the one it replaces. *)
Lemma keeps_tables_store : forall w h d db',
  (forall db t, lookup_db (schemas w) h d = Some db -> students db = Some t ->
                students db' = Some t) ->
  keeps_tables w (mkWorld (accounts w) (store_db (schemas w) h d db')).
Proof.
  intros w h d db' Hreplace. split; [reflexivity|].
  intros h' d' db t H1 H2. cbn [schemas].
  destruct (String.eqb h h' && String.eqb d d') eqn:E.
  - apply andb_true_iff in E. destruct E as [E1 E2].
    apply String.eqb_eq in E1, E2. subst h' d'.
    rewrite lookup_store_same. eauto.
  - rewrite lookup_store_other by assumption. eauto.
Qed.

Lemma connect_keeps_tables : forall self now w,
  keeps_tables w (snd (connect self now w)).
Proof.
  intros [h d u p k] now w. rewrite connect_decided.
  destruct (login w h u p) as [a|]; [|apply keeps_tables_refl].
  destruct (lookup_db (schemas w) h d) as [db|] eqn:El;
    [|apply keeps_tables_refl].
  cbn [snd]. apply keeps_tables_store.
  intros db0 t H1 H2. rewrite El in H1. injection H1 as <-.
  rewrite with_table_keeps, H2. reflexivity.
Qed.

Lemma create_on_server_keeps_tables : forall w h u p d,
  keeps_tables w (snd (create_on_server w h u p d)).
Proof.
  intros w h u p d. rewrite create_on_server_decided.
  destruct (login w h u p) as [a|]; [|apply keeps_tables_refl].
  unfold create_database.
  destruct (acct_create a); [|apply keeps_tables_refl].
  destruct (lookup_db (schemas w) h d) as [db|] eqn:El;
    [apply keeps_tables_refl|].
  cbn [snd]. apply keeps_tables_store.
  intros db0 t H1. rewrite El in H1. discriminate.
Qed.

Lemma attempt_candidate_keeps_tables : forall now c w,
  keeps_tables w (snd (attempt_candidate now c w)).
Proof.
  intros now c w. unfold attempt_candidate.
  pose proof (connect_keeps_tables (of_config c) now w) as K1.
  destruct (connect (of_config c) now w) as [[[r|e] s1] w1]; cbn [snd] in K1;
    [|exact K1].
  destruct (truthy_bool r); [exact K1|].
  pose proof (create_on_server_keeps_tables w1 (cfg_host c) (cfg_user c)
                (cfg_password c) (cfg_database c)) as K2.
  destruct (create_on_server w1 (cfg_host c) (cfg_user c) (cfg_password c)
              (cfg_database c)) as [[u|e] w2]; cbn [snd] in K2;
    [|exact (keeps_tables_trans _ _ _ K1 K2)].
  pose proof (connect_keeps_tables s1 now w2) as K3.
  destruct (connect s1 now w2) as [[[r'|e] s2] w3]; cbn [snd] in K3.
  - destruct (truthy_bool r'); cbn [snd];
      exact (keeps_tables_trans _ _ _ K1 (keeps_tables_trans _ _ _ K2 K3)).
  - exact (keeps_tables_trans _ _ _ K1 (keeps_tables_trans _ _ _ K2 K3)).
Qed.

Lemma connect_candidates_keeps_tables : forall now l w,
  keeps_tables w (snd (connect_candidates now l w)).
Proof.
  intros now l. induction l as [|c l IH]; intros w.
  - apply keeps_tables_refl.
  - cbn [connect_candidates].
    pose proof (attempt_candidate_keeps_tables now c w) as K.
    destruct (attempt_candidate now c w) as [[sms|] w']; cbn [snd] in K.
    + exact K.
    + exact (keeps_tables_trans _ _ _ K (IH w')).
Qed.

(** The bootstrap loses no data on the built-in candidates: whatever the
    servers hold, after the loop over the three of them the accounts are
    unchanged and every [students] table that existed on any server still
    exists with the same rows and the same counter; databases and tables
    are only ever added. The same holds of the whole of [setup_database]
    when the typed name of the database is one the server reads as a name,
    and so when the prompt for it was answered with Enter. *)
Theorem setup_database_keeps_data : forall sv now typed w,
  keeps_tables w (snd (try_configs now configs w)) /\
  (names_database sv (cfg_database (manual_config typed)) ->
   keeps_tables w (snd (setup_database sv now typed w))) /\
  (strip (typed_database typed) = ""%string ->
   keeps_tables w (snd (setup_database sv now typed w))).
Proof.
  intros sv now typed w.
  assert (Hnamed : names_database sv (cfg_database (manual_config typed)) ->
                   keeps_tables w (snd (setup_database sv now typed w))).
  { intros Hn. rewrite setup_database_refines by assumption. cbn [snd].
    apply connect_candidates_keeps_tables. }
  split; [|split].
  - rewrite try_configs_refines by (repeat constructor). cbn [snd].
    apply connect_candidates_keeps_tables.
  - exact Hnamed.
  - intros Hd. apply Hnamed. unfold manual_config. cbn [cfg_database].
    rewrite Hd. apply names_student_db.
Qed.

(** Answering every prompt of the manual setup with Enter names the first
    built-in candidate once more, so it cannot succeed where the built-in
    candidates failed: when none of the three works, [setup_database]
    returns [None] and the servers are as they were. *)
Theorem setup_database_all_defaults : forall sv now typed w,
  all_defaults typed ->
  manual_config typed = mkConfig "localhost" "student_db" "root" "" /\
  ((forall c, In c configs -> works w c = false) ->
   setup_database sv now typed w = (Returned None, w)).
Proof.
  intros sv now typed w (Hh & Hu & Hp & Hd).
  assert (E : manual_config typed = mkConfig "localhost" "student_db" "root" "").
  { unfold manual_config. now rewrite Hh, Hu, Hp, Hd. }
  split; [exact E|].
  intros Hfail. unfold setup_database.
  rewrite try_configs_all_fail by assumption.
  apply try_manual_fails; rewrite E.
  - apply names_student_db.
  - apply Hfail. now left.
Qed.

Lemma setup_database_all_defaults_witness :
  manual_config (mkTyped "  " "" "" " ")
  = mkConfig "localhost" "student_db" "root" "" /\
  setup_database a_server noon (mkTyped "  " "" "" " ") (mkWorld [] [])
  = (Returned None, mkWorld [] []).
Proof.
  destruct (setup_database_all_defaults a_server noon
              (mkTyped "  " "" "" " ") (mkWorld [] [])) as [H1 H2].
  - repeat split; reflexivity.
  - split; [exact H1|]. apply H2.
    intros c [<-|[<-|[<-|[]]]]; reflexivity.
Defined.

(* ================================================================== *)
(** ** [strip] *)

Lemma lstrip_head : forall l c l', lstrip l = c :: l' -> is_space c = false.
Proof.
  induction l as [|x l IH]; intros c l' H; simpl in H; [discriminate|].
  destruct (is_space x) eqn:E; [now apply (IH c l')|].
  now injection H as <- _.
Qed.

Lemma lstrip_fixed : forall c l, is_space c = false -> lstrip (c :: l) = c :: l.
Proof. intros c l H. simpl. now rewrite H. Qed.

(** What [lstrip] leaves is the end of the list. *)
Lemma lstrip_suffix : forall l, exists ws, l = ws ++ lstrip l.
Proof.
  induction l as [|x l [ws IH]]; [now exists []|].
  simpl. destruct (is_space x).
  - exists (x :: ws). simpl. now rewrite <- IH.
  - now exists [].
Qed.

Lemma lstrip_idempotent : forall l, lstrip (lstrip l) = lstrip l.
Proof.
  intros l. destruct (lstrip l) as [|c l'] eqn:E; [reflexivity|].
  apply lstrip_fixed. now apply (lstrip_head l c l').
Qed.

(** Stripping twice is stripping once: what [strip] returns has no blank at
    either end. *)
Lemma strip_idempotent : forall s, strip (strip s) = strip s.
Proof.
  intros s. unfold strip.
  rewrite list_ascii_of_string_of_list_ascii.
  set (a := lstrip (list_ascii_of_string s)).
  set (b := lstrip (rev a)).
  assert (Hb : lstrip b = b) by apply lstrip_idempotent.
  assert (Hx : lstrip (rev b) = rev b).
  { destruct (lstrip_suffix (rev a)) as [ws Hws]. fold b in Hws.
    assert (Ea : a = rev b ++ rev ws).
    { rewrite <- (rev_involutive a), Hws, rev_app_distr. reflexivity. }
    destruct (rev b) as [|c x] eqn:Er; [reflexivity|].
    apply lstrip_fixed.
    destruct a as [|c0 a'] eqn:Eq; [discriminate|].
    simpl in Ea. injection Ea as -> _.
    now apply (lstrip_head (list_ascii_of_string s) c a'). }
  now rewrite Hx, rev_involutive, Hb.
Qed.

(* ================================================================== *)
(** ** What [get_student_input] hands on *)

Lemma ask_age_answers : forall inputs w,
  match ask_age inputs w with
  | (Ok age, inputs', w') =>
      5 <= age <= 25 /\ w' = w /\ exists used, inputs = used ++ inputs'
  | (Fail s, inputs', w') =>
      (s = EOFError \/ s = KeyboardInterrupt /\ In Interrupt inputs) /\
      w' = w /\ exists used, inputs = used ++ inputs'
  end.
Proof.
  intros inputs w. induction inputs as [|[s|] rest IH]; cbn [ask_age].
  - split; [now left|]. split; [reflexivity|]. now exists [].
  - assert (Hrec :
      match ask_age rest w with
      | (Ok age, inputs', w') =>
          5 <= age <= 25 /\ w' = w /\
          exists used, Line s :: rest = used ++ inputs'
      | (Fail e, inputs', w') =>
          (e = EOFError \/ e = KeyboardInterrupt /\
                           In Interrupt (Line s :: rest)) /\
          w' = w /\ exists used, Line s :: rest = used ++ inputs'
      end).
    { destruct (ask_age rest w) as [[[age|e] inputs'] w'].
      - destruct IH as (H1 & H2 & used & ->).
        split; [assumption|]. split; [assumption|]. now exists (Line s :: used).
      - destruct IH as (H1 & H2 & used & ->).
        split; [|split; [assumption | now exists (Line s :: used)]].
        destruct H1 as [H1|[H1 H1']]; [now left|right].
        split; [assumption | now right]. }
    destruct (python_int s) as [age|]; [|exact Hrec].
    destruct ((age <? 5) || (age >? 25)) eqn:E; [exact Hrec|].
    apply orb_false_iff in E. destruct E as [E1 E2].
    apply Z.ltb_ge in E1. rewrite Z.gtb_ltb in E2. apply Z.ltb_ge in E2.
    split; [lia|]. split; [reflexivity|]. now exists [Line s].
  - split; [right; split; [reflexivity | now left]|].
    split; [reflexivity|]. now exists [Interrupt].
Qed.

Lemma ask_marks_answers : forall fl inputs w,
  match ask_marks fl inputs w with
  | (Ok marks, inputs', w') =>
      below_zero fl marks = false /\ above_hundred fl marks = false /\
      w' = w /\ exists used, inputs = used ++ inputs'
  | (Fail s, inputs', w') =>
      (s = EOFError \/ s = KeyboardInterrupt /\ In Interrupt inputs) /\
      w' = w /\ exists used, inputs = used ++ inputs'
  end.
Proof.
  intros fl inputs w. induction inputs as [|[s|] rest IH]; cbn [ask_marks].
  - split; [now left|]. split; [reflexivity|]. now exists [].
  - assert (Hrec :
      match ask_marks fl rest w with
      | (Ok marks, inputs', w') =>
          below_zero fl marks = false /\ above_hundred fl marks = false /\
          w' = w /\ exists used, Line s :: rest = used ++ inputs'
      | (Fail e, inputs', w') =>
          (e = EOFError \/ e = KeyboardInterrupt /\
                           In Interrupt (Line s :: rest)) /\
          w' = w /\ exists used, Line s :: rest = used ++ inputs'
      end).
    { destruct (ask_marks fl rest w) as [[[marks|e] inputs'] w'].
      - destruct IH as (H1 & H2 & H3 & used & ->).
        repeat (split; [assumption|]). now exists (Line s :: used).
      - destruct IH as (H1 & H2 & used & ->).
        split; [|split; [assumption | now exists (Line s :: used)]].
        destruct H1 as [H1|[H1 H1']]; [now left|right].
        split; [assumption | now right]. }
    destruct (float_of fl s) as [marks|]; [|exact Hrec].
    destruct (below_zero fl marks || above_hundred fl marks) eqn:E;
      [exact Hrec|].
    apply orb_false_iff in E. destruct E as [E1 E2].
    split; [assumption|]. split; [assumption|].
    split; [reflexivity|]. now exists [Line s].
  - split; [right; split; [reflexivity | now left]|].
    split; [reflexivity|]. now exists [Interrupt].
Qed.

(** [get_student_input] never touches a server and only reads lines from the
    front of the input. When it returns student data, the name and the class
    are non-empty and carry no blank at either end, the age is between 5 and
    25, and the marks are neither below 0 nor above 100. It returns [None]
    only for a blank name or a blank class. It never lets a [ValueError]
    out: the only exceptions are the end of the input and the keyboard
    interrupt. *)
Theorem get_student_input_validated : forall fl inputs w,
  match get_student_input fl inputs w with
  | (Ok (Some (name, age, class_name, marks)), inputs', w') =>
      name <> ""%string /\ strip name = name /\
      5 <= age <= 25 /\
      class_name <> ""%string /\ strip class_name = class_name /\
      below_zero fl marks = false /\ above_hundred fl marks = false /\
      w' = w /\ exists used, inputs = used ++ inputs'
  | (Ok None, inputs', w') =>
      w' = w /\
      exists used s, inputs = used ++ Line s :: inputs' /\
                     strip s = ""%string
  | (Fail e, inputs', w') =>
      (e = EOFError \/ e = KeyboardInterrupt /\ In Interrupt inputs) /\
      w' = w
  end.
Proof.
  intros fl inputs w. unfold get_student_input, and_then, input, done.
  destruct inputs as [|[s1|] rest1].
  - split; [now left | reflexivity].
  - destruct (String.eqb (strip s1) "") eqn:E1.
    { apply String.eqb_eq in E1. split; [reflexivity|]. now exists [], s1. }
    apply String.eqb_neq in E1.
    pose proof (ask_age_answers rest1 w) as Ha.
    destruct (ask_age rest1 w) as [[[age|e] rest2] w2].
    + destruct Ha as (Hage & -> & used2 & ->).
      destruct rest2 as [|[s3|] rest3].
      * split; [now left | reflexivity].
      * destruct (String.eqb (strip s3) "") eqn:E3.
        { apply String.eqb_eq in E3. split; [reflexivity|].
          exists (Line s1 :: used2), s3. now rewrite <- app_comm_cons. }
        apply String.eqb_neq in E3.
        pose proof (ask_marks_answers fl rest3 w) as Hm.
        destruct (ask_marks fl rest3 w) as [[[marks|e] rest4] w4].
        -- destruct Hm as (Hb & Ha' & -> & used4 & ->).
           split; [assumption|]. split; [apply strip_idempotent|].
           split; [assumption|].
           split; [assumption|]. split; [apply strip_idempotent|].
           split; [assumption|]. split; [assumption|].
           split; [reflexivity|].
           exists (Line s1 :: used2 ++ Line s3 :: used4).
           cbn [app]. now rewrite <- app_assoc.
        -- destruct Hm as (He & -> & _). split; [|reflexivity].
           destruct He as [He|[He Hin]]; [now left|right].
           split; [assumption|]. right. apply in_or_app. right. now right.
      * split; [|reflexivity]. right. split; [reflexivity|].
        right. apply in_or_app. right. now left.
    + destruct Ha as (He & -> & _). split; [|reflexivity].
      destruct He as [He|[He Hin]]; [now left|right].
      split; [assumption | now right].
  - split; [|reflexivity]. right. split; [reflexivity | now left].
Qed.

(* ================================================================== *)
(** ** When the menu loop ends *)

Lemma tame_done : forall A (a : A), tame (done a).
Proof.
  intros A a inputs w r inputs' w' H. unfold done in H.
  injection H as <- <- <-. split; [now exists []|discriminate].
Qed.

Lemma tame_fail : forall A s, s <> KeyboardInterrupt -> tame (@fail A s).
Proof.
  intros A s Hs inputs w r inputs' w' H. unfold fail in H.
  injection H as <- <- <-. split; [now exists []|congruence].
Qed.

Lemma tame_input : tame input.
Proof.
  intros inputs w r inputs' w' H. unfold input in H.
  destruct inputs as [|[s|] rest]; injection H as <- <- <-.
  - split; [now exists []|discriminate].
  - split; [now exists [Line s]|discriminate].
  - split; [now exists [Interrupt]|]. intros _. now left.
Qed.

Lemma tame_and_then : forall A B (m : Console A) (k : A -> Console B),
  tame m -> (forall a, tame (k a)) -> tame (and_then m k).
Proof.
  intros A B m k Hm Hk inputs w r inputs' w' H. unfold and_then in H.
  destruct (m inputs w) as [[[a|s] i1] w1] eqn:E.
  - destruct (Hm _ _ _ _ _ E) as [[u1 ->] _].
    destruct (Hk a _ _ _ _ _ H) as [[u2 ->] Hint].
    split; [exists (u1 ++ u2); now rewrite app_assoc|].
    intros Hr. apply in_or_app. right. auto.
  - injection H as <- <- <-. destruct (Hm _ _ _ _ _ E) as [Hs Hint].
    split; [assumption|]. intros [= ->]. now apply Hint.
Qed.

Lemma tame_try : forall A (body handler : Console A),
  tame body -> tame handler -> tame (try_except_ValueError body handler).
Proof.
  intros A body handler Hb Hh inputs w r inputs' w' H.
  unfold try_except_ValueError in H.
  destruct (body inputs w) as [[[a|s] i1] w1] eqn:E.
  - injection H as <- <- <-. exact (Hb _ _ _ _ _ E).
  - destruct (Hb _ _ _ _ _ E) as [[u1 ->] Hint].
    destruct s; try (injection H as <- <- <-; split; [now exists u1|auto]).
    destruct (Hh _ _ _ _ _ H) as [[u2 ->] Hint2].
    split; [exists (u1 ++ u2); now rewrite app_assoc|].
    intros Hr. apply in_or_app. right. auto.
Qed.

Lemma tame_store : forall A sms (m : M A), tame (store sms m).
Proof.
  intros A sms m inputs w r inputs' w' H. unfold store in H.
  destruct (through sms m w) as [[a|e] w1]; injection H as <- <- <-;
    (split; [now exists []|discriminate]).
Qed.

Lemma tame_int : forall s, tame (int s).
Proof.
  intros s. unfold int. destruct (python_int s);
    [apply tame_done | apply tame_fail; discriminate].
Qed.

Lemma tame_float : forall fl s, tame (float fl s).
Proof.
  intros fl s. unfold float. destruct (float_of fl s);
    [apply tame_done | apply tame_fail; discriminate].
Qed.

Lemma tame_ask_age : tame ask_age.
Proof.
  intros inputs w r inputs' w' H.
  pose proof (ask_age_answers inputs w) as Ha. rewrite H in Ha.
  destruct r as [age|s].
  - destruct Ha as (_ & _ & Hu). split; [assumption|discriminate].
  - destruct Ha as (Hs & _ & Hu). split; [assumption|].
    intros [= ->]. destruct Hs as [Hs|[_ Hin]]; [discriminate|assumption].
Qed.

Lemma tame_ask_marks : forall fl, tame (ask_marks fl).
Proof.
  intros fl inputs w r inputs' w' H.
  pose proof (ask_marks_answers fl inputs w) as Ha. rewrite H in Ha.
  destruct r as [marks|s].
  - destruct Ha as (_ & _ & _ & Hu). split; [assumption|discriminate].
  - destruct Ha as (Hs & _ & Hu). split; [assumption|].
    intros [= ->]. destruct Hs as [Hs|[_ Hin]]; [discriminate|assumption].
Qed.

Ltac tame_steps :=
  repeat first
    [ apply tame_done
    | apply tame_input
    | apply tame_store
    | apply tame_int
    | apply tame_float
    | apply tame_ask_age
    | apply tame_ask_marks
    | apply tame_fail; discriminate
    | apply tame_try
    | apply tame_and_then; [|intro]
    | match goal with
      | |- tame (if ?b then _ else _) => destruct b
      | |- tame (match ?x with Some _ => _ | None => _ end) => destruct x
      | |- tame (let '(_, _) := ?x in _) => destruct x
      end ].

Lemma tame_get_student_input : forall fl, tame (get_student_input fl).
Proof. intros fl. unfold get_student_input. tame_steps. Qed.

Lemma tame_choose : forall fl sms now, tame (choose fl sms now).
Proof.
  intros fl sms now. unfold choose.
  apply tame_and_then; [apply tame_input|]. intros choice. cbv zeta.
  repeat match goal with
         | |- tame (if String.eqb ?a ?b then _ else _) =>
             destruct (String.eqb a b)
         end;
    try (apply tame_and_then; [apply tame_get_student_input|]; intro);
    tame_steps.
Qed.

Lemma goes_on_done : goes_on (done false).
Proof. intros inputs w inputs' w' H. discriminate. Qed.

Lemma goes_on_fail : forall s, goes_on (fail s).
Proof. intros s inputs w inputs' w' H. discriminate. Qed.

Lemma goes_on_and_then : forall A (m : Console A) (k : A -> Console bool),
  (forall a, goes_on (k a)) -> goes_on (and_then m k).
Proof.
  intros A m k Hk inputs w inputs' w' H. unfold and_then in H.
  destruct (m inputs w) as [[[a|s] i1] w1]; [|discriminate].
  exact (Hk a _ _ _ _ H).
Qed.

Lemma goes_on_try : forall (body handler : Console bool),
  goes_on body -> goes_on handler ->
  goes_on (try_except_ValueError body handler).
Proof.
  intros body handler Hb Hh inputs w inputs' w' H.
  unfold try_except_ValueError in H.
  destruct (body inputs w) as [[[a|s] i1] w1] eqn:E.
  - rewrite H in E. exact (Hb _ _ _ _ E).
  - destruct s; try discriminate. exact (Hh _ _ _ _ H).
Qed.

Ltac goes_on_steps :=
  repeat first
    [ apply goes_on_done
    | apply goes_on_fail
    | apply goes_on_try
    | apply goes_on_and_then; intro
    | match goal with
      | |- goes_on (if ?b then _ else _) => destruct b
      | |- goes_on (match ?x with Some _ => _ | None => _ end) => destruct x
      | |- goes_on (let '(_, _) := ?x in _) => destruct x
      end ].

(** Only choice 8 asks for the loop to stop. *)
Lemma choose_stops : forall fl sms now inputs w inputs' w',
  choose fl sms now inputs w = (Ok true, inputs', w') ->
  exists s rest, inputs = Line s :: rest /\ strip s = "8"%string.
Proof.
  intros fl sms now inputs w inputs' w' H.
  unfold choose in H. unfold and_then at 1 in H. unfold input at 1 in H.
  destruct inputs as [|[s|] rest]; try discriminate.
  exists s, rest. split; [reflexivity|].
  cbv zeta in H.
  destruct (String.eqb (strip s) "8") eqn:E8; [now apply String.eqb_eq|].
  exfalso. revert H.
  repeat match goal with
         | |- context [if String.eqb (strip s) ?b then _ else _] =>
             destruct (String.eqb (strip s) b)
         end;
    match goal with
    | |- ?m rest w = _ -> False =>
        assert (G : goes_on m) by goes_on_steps; apply G
    end.
Qed.

Lemma turn_reads_ahead : forall fl sms now inputs w stop inputs' w',
  turn fl sms now inputs w = (stop, inputs', w') ->
  (exists used, inputs = used ++ inputs') /\
  (stop = true ->
   In Interrupt inputs \/
   exists s rest, inputs = Line s :: rest /\ strip s = "8"%string).
Proof.
  intros fl sms now inputs w stop inputs' w' H. unfold turn in H.
  destruct (choose fl sms now inputs w) as [[[b|e] i1] w1] eqn:E.
  - injection H as <- <- <-.
    destruct (tame_choose fl sms now _ _ _ _ _ E) as [Hu _].
    split; [assumption|]. intros ->. right.
    now apply (choose_stops fl sms now inputs w i1 w1).
  - destruct (tame_choose fl sms now _ _ _ _ _ E) as [Hu Hint].
    destruct e; injection H as <- <- <-; (split; [assumption|]);
      try discriminate.
    intros _. left. auto.
Qed.

Lemma loop_told_to_stop : forall fl sms ticks inputs w inputs' w',
  loop fl sms ticks inputs w = Some (inputs', w') -> told_to_stop inputs.
Proof.
  intros fl sms ticks. induction ticks as [|now ticks IH];
    intros inputs w inputs' w' H; cbn [loop] in H; [discriminate|].
  destruct (turn fl sms now inputs w) as [[stop i1] w1] eqn:E.
  destruct (turn_reads_ahead _ _ _ _ _ _ _ _ E) as [[used ->] Hstop].
  destruct stop.
  - destruct (Hstop eq_refl) as [Hin | (s & rest & Es & H8)].
    + now left.
    + right. exists s. split; [|assumption]. rewrite Es. now left.
  - destruct (IH _ _ _ _ H) as [Hin | (s & Hin & H8)].
    + left. apply in_or_app. now right.
    + right. exists s. split; [|assumption]. apply in_or_app. now right.
Qed.

(** The menu loop ends only when it is told to. If the loop ends, the input
    it was given holds an interrupt from the keyboard or a line that reads 8;
    in particular, once the input has ended the loop never ends, however
    many turns it takes, since each turn's [EOFError] is caught by [except
    Exception], and it changes nothing on the servers; so [main], after a
    bootstrap that succeeded, does not return on an empty input. *)
Theorem main_ends_only_when_told : forall fl sms ticks inputs w,
  (forall inputs' w',
     loop fl sms ticks inputs w = Some (inputs', w') -> told_to_stop inputs) /\
  loop fl sms ticks [] w = None /\
  (forall now, turn fl sms now [] w = (false, [], w)) /\
  (forall sv now typed w0,
     setup_database sv now typed w0 = (Returned (Some sms), w) ->
     main sv fl now typed ticks [] w0 = None).
Proof.
  intros fl sms ticks inputs w.
  assert (Hnil : forall w1, loop fl sms ticks [] w1 = None).
  { intros w1. destruct (loop fl sms ticks [] w1) as [[i' w']|] eqn:E;
      [|reflexivity].
    exfalso. apply loop_told_to_stop in E.
    destruct E as [[]|(s & [] & _)]. }
  split; [|split; [|split]].
  - intros inputs' w'. apply loop_told_to_stop.
  - apply Hnil.
  - reflexivity.
  - intros sv now typed w0 Hs. unfold main. rewrite Hs. now rewrite Hnil.
Qed.

(* ================================================================== *)
(** ** Answers at the menu *)

(** Choice 3 deletes only on a yes. After the choice, a line that is no
    integer ends the turn before the confirmation is asked for; with an
    integer, the record layer's [delete_student] is called exactly when the
    next line, put in lower case, is yes; any other answer, "y" or a yes with
    a blank included, leaves every server as it was. The loop goes on in all
    three cases. *)
Theorem menu_delete_needs_yes :
  forall fl sms now choice id_line confirm rest w,
  strip choice = "3"%string ->
  turn fl sms now (Line choice :: Line id_line :: Line confirm :: rest) w
  = match python_int id_line with
    | None => (false, Line confirm :: rest, w)
    | Some student_id =>
        if String.eqb (lower confirm) "yes"
        then (false, rest,
              snd (through sms (delete_student sms now student_id) w))
        else (false, rest, w)
    end.
Proof.
  intros fl sms now choice id_line confirm rest w Hc.
  unfold turn, choose. unfold and_then at 1. unfold input at 1.
  cbv zeta. rewrite Hc. cbv beta iota.
  change (String.eqb "3" "1") with false.
  change (String.eqb "3" "2") with false.
  change (String.eqb "3" "3") with true. cbv iota.
  unfold try_except_ValueError. unfold and_then at 1. unfold input at 1.
  unfold and_then at 1. unfold int.
  destruct (python_int id_line) as [i|]; [|reflexivity].
  unfold done at 1. unfold and_then at 1. unfold input at 1. cbv zeta.
  destruct (String.eqb (lower confirm) "yes"); [|reflexivity].
  unfold and_then, store.
  destruct (through sms (delete_student sms now i) w) as [[a|e] w1];
    reflexivity.
Qed.

Lemma menu_delete_needs_yes_witness :
  turn (mkFloats Z (fun _ => None) (fun _ => false) (fun _ => false)
                 (fun z => z))
       sms_live later [Line " 3"; Line "2"; Line "y"; Line "8"]
       (mkWorld [] [("localhost"%string, "student_db"%string, db_two)])
  = (false, [Line "8"],
     mkWorld [] [("localhost"%string, "student_db"%string, db_two)]).
Proof.
  exact (menu_delete_needs_yes
           (mkFloats Z (fun _ => None) (fun _ => false) (fun _ => false)
                     (fun z => z))
           sms_live later " 3" "2" "y" [Line "8"]
           (mkWorld [] [("localhost"%string, "student_db"%string, db_two)])
           eq_refl).
Defined.

(** One step of a turn on lines that are known: the definitions are opened
    and the tests on constants decided. *)
Ltac menu_step :=
  cbv beta iota zeta
      delta [and_then input done fail try_except_ValueError int float];
  cbn [String.eqb Ascii.eqb Bool.eqb or_None truthy_str is_not_None orb negb
       option_map].

(** Answers that reach no server. In each of these turns the loop goes on,
    the servers are exactly as before, and the lines named are the only ones
    read: a choice that is none of 1 to 8; choice 5 with a blank search
    term; choice 2 with an identifier and four blank answers; choices 2, 3
    and 6 with an identifier that is no integer, where the prompts that
    would follow are not asked; and choice 2 with an age that is no integer,
    where the update is given up although a name was typed, and class and
    marks are not asked for. *)
Theorem menu_answers_that_change_nothing :
  forall fl sms now rest w,
  (forall choice,
     ~ In (strip choice) ["1"; "2"; "3"; "4"; "5"; "6"; "7"; "8"]%string ->
     turn fl sms now (Line choice :: rest) w = (false, rest, w)) /\
  (forall choice term,
     strip choice = "5"%string -> strip term = ""%string ->
     turn fl sms now (Line choice :: Line term :: rest) w = (false, rest, w)) /\
  (forall choice id_line n a c m,
     strip choice = "2"%string -> python_int id_line <> None ->
     strip n = ""%string -> strip a = ""%string ->
     strip c = ""%string -> strip m = ""%string ->
     turn fl sms now (Line choice :: Line id_line :: Line n :: Line a
                        :: Line c :: Line m :: rest) w
     = (false, rest, w)) /\
  (forall choice id_line,
     In (strip choice) ["2"; "3"; "6"]%string -> python_int id_line = None ->
     turn fl sms now (Line choice :: Line id_line :: rest) w
     = (false, rest, w)) /\
  (forall choice id_line n a,
     strip choice = "2"%string -> python_int id_line <> None ->
     strip a <> ""%string -> python_int (strip a) = None ->
     turn fl sms now (Line choice :: Line id_line :: Line n :: Line a :: rest)
          w
     = (false, rest, w)).
Proof.
  intros fl sms now rest w.
  split; [|split; [|split; [|split]]].
  - intros choice Hc. unfold turn, choose. unfold and_then at 1.
    unfold input at 1. cbv zeta. cbn [In] in Hc.
    repeat match goal with
           | |- context [String.eqb (strip choice) ?b] =>
               destruct (String.eqb_spec (strip choice) b) as [E|_];
               [exfalso; apply Hc; rewrite E; tauto|]
           end.
    reflexivity.
  - intros choice term Hc Ht. unfold turn, choose. unfold and_then at 1.
    unfold input at 1. cbv zeta. rewrite Hc. cbv beta iota.
    change (String.eqb "5" "1") with false.
    change (String.eqb "5" "2") with false.
    change (String.eqb "5" "3") with false.
    change (String.eqb "5" "4") with false.
    change (String.eqb "5" "5") with true. cbv iota.
    unfold and_then at 1. unfold input at 1. cbv zeta. rewrite Ht.
    reflexivity.
  - intros choice id_line n a c m Hc Hid Hn Ha Hcl Hm.
    unfold turn, choose. unfold and_then at 1.
    unfold input at 1. cbv zeta. rewrite Hc. cbv beta iota.
    change (String.eqb "2" "1") with false.
    change (String.eqb "2" "2") with true. cbv iota.
    destruct (python_int id_line) as [i|] eqn:Ei; [|congruence].
    repeat (progress (menu_step; rewrite ?Ei, ?Hn, ?Ha, ?Hcl, ?Hm)).
    reflexivity.
  - intros choice id_line Hc Hid.
    unfold turn, choose. unfold and_then at 1.
    unfold input at 1. cbv zeta. cbn [In] in Hc.
    destruct Hc as [<-|[<-|[<-|[]]]]; cbv beta iota;
      unfold try_except_ValueError, and_then, input, int;
      cbn [String.eqb Ascii.eqb Bool.eqb]; rewrite Hid; reflexivity.
  - intros choice id_line n a Hc Hid Ha Hint.
    unfold turn, choose. unfold and_then at 1.
    unfold input at 1. cbv zeta. rewrite Hc. cbv beta iota.
    change (String.eqb "2" "1") with false.
    change (String.eqb "2" "2") with true. cbv iota.
    destruct (python_int id_line) as [i|] eqn:Ei; [|congruence].
    apply String.eqb_neq in Ha.
    repeat (progress (menu_step; rewrite ?Ei, ?Ha, ?Hint)).
    destruct (or_None (strip n)); reflexivity.
Qed.

(* ================================================================== *)
(** ** An update through the menu *)

Lemma through_attached : forall A sms (m : M A) w c d db,
  connection sms = Some c ->
  conn_database c = Some d ->
  lookup_db (schemas w) (conn_host c) d = Some db ->
  through sms m w
  = (fst (m db),
     mkWorld (accounts w) (store_db (schemas w) (conn_host c) d (snd (m db)))).
Proof.
  intros A sms m w c d db Hc Hd Hl. unfold through. rewrite Hc, Hd, Hl.
  destruct (m db); reflexivity.
Qed.

Lemma fits_age_only : forall a,
  -2147483648 <= a <= 2147483647 -> fits None (Some a) None None = true.
Proof.
  intros a [H1 H2]. unfold fits. simpl.
  apply Z.leb_le in H1, H2. now rewrite H1, H2.
Qed.

(** The row with the identifier after [update_student(id, age=a)] on a
    connected object: its age is [a], for any [a] an [INT] column holds. *)
Lemma update_age_served : forall self c now i a db t r,
  connection self = Some c -> is_connected c = true ->
  students db = Some t -> wf_table t ->
  row_with_id i t = Some r ->
  -2147483648 <= a <= 2147483647 ->
  exists t' r',
    students (snd (update_student self now i None (Some a) None None db))
    = Some t' /\
    row_with_id i t' = Some r' /\ row_age r' = a /\
    row_name r' = row_name r /\ row_class r' = row_class r /\
    row_marks r' = row_marks r.
Proof.
  intros self c now i a db t r Hc Ec Ht Hwf Hr Ha.
  destruct (row_with_id_split _ _ _ Hwf Hr)
    as (Hid & pre & post & Erows & Hpre & Hpost).
  pose proof (update_student_served self c now i None (Some a) None None db t
                Hc Ec Ht Hwf eq_refl) as H.
  unfold update_statement in H. rewrite H, Hr. clear H.
  rewrite fits_age_only by assumption. cbv zeta.
  destruct (same_data r (overwritten r None (Some a) None None)) eqn:Es.
  - exists t, r. cbn [snd after_statement students].
    split; [reflexivity|]. split; [assumption|].
    rewrite same_data_age in Es. apply Z.eqb_eq in Es. auto.
  - eexists. exists (touch now (overwritten r None (Some a) None None)).
    cbn [snd after_statement students]. split; [reflexivity|].
    split; [|repeat split].
    unfold row_with_id. cbn [rows].
    rewrite Erows, (replace_row_split _ r) by assumption.
    apply find_row_split; [exact Hid | assumption].
Qed.

(** An update through the menu is not validated. With choice 2, an
    identifier of a stored row, blank answers for name, class and marks and
    any integer an [INT] column holds for the age, the turn stores that age
    in the row and leaves its name, class and marks: the bounds 5 and 25
    that [get_student_input] imposes on a new student are not applied. *)
Theorem menu_update_is_not_validated :
  forall fl sms c d now choice id_line i n age_line a cl m rest w db t r,
  connection sms = Some c -> is_connected c = true ->
  conn_database c = Some d ->
  lookup_db (schemas w) (conn_host c) d = Some db ->
  students db = Some t -> wf_table t ->
  row_with_id i t = Some r ->
  strip choice = "2"%string ->
  python_int id_line = Some i ->
  strip n = ""%string -> strip cl = ""%string -> strip m = ""%string ->
  python_int (strip age_line) = Some a ->
  -2147483648 <= a <= 2147483647 ->
  exists w' db' t' r',
    turn fl sms now (Line choice :: Line id_line :: Line n :: Line age_line
                       :: Line cl :: Line m :: rest) w
    = (false, rest, w') /\
    lookup_db (schemas w') (conn_host c) d = Some db' /\
    students db' = Some t' /\
    row_with_id i t' = Some r' /\ row_age r' = a /\
    row_name r' = row_name r /\ row_class r' = row_class r /\
    row_marks r' = row_marks r.
Proof.
  intros fl sms c d now choice id_line i n age_line a cl m rest w db t r
         Hc Ec Hd Hl Ht Hwf Hr Hch Hid Hn Hcl Hm Hage Ha.
  assert (Hne : String.eqb (strip age_line) "" = false).
  { apply String.eqb_neq. intros E. rewrite E in Hage. discriminate. }
  destruct (update_age_served sms c now i a db t r Hc Ec Ht Hwf Hr Ha)
    as (t' & r' & Ht' & Hr' & Hrest).
  exists (snd (through sms (update_student sms now i None (Some a) None None)
                        w)).
  exists (snd (update_student sms now i None (Some a) None None db)), t', r'.
  split.
  - unfold turn, choose. unfold and_then at 1.
    unfold input at 1. cbv zeta. rewrite Hch. cbv beta iota.
    change (String.eqb "2" "1") with false.
    change (String.eqb "2" "2") with true. cbv iota.
    repeat (progress (menu_step; rewrite ?Hid, ?Hn, ?Hcl, ?Hm, ?Hne, ?Hage)).
    unfold store.
    destruct (through sms (update_student sms now i None (Some a) None None)
                      w) as [[x|e] w1]; reflexivity.
  - rewrite (through_attached _ _ _ _ c d db) by assumption.
    cbn [snd schemas]. rewrite lookup_store_same.
    split; [reflexivity|]. split; [exact Ht'|]. split; [exact Hr'|exact Hrest].
Qed.

Lemma menu_update_is_not_validated_witness :
  exists w' db' t' r',
    turn (mkFloats Z (fun _ => None) (fun _ => false) (fun _ => false)
                   (fun z => z))
         sms_live later
         [Line "2"; Line "1"; Line ""; Line " 200 "; Line ""; Line "";
          Line "8"]
         (mkWorld [] [("localhost"%string, "student_db"%string, db_two)])
    = (false, [Line "8"], w') /\
    lookup_db (schemas w') "localhost" "student_db" = Some db' /\
    students db' = Some t' /\
    row_with_id 1 t' = Some r' /\ row_age r' = 200 /\
    row_name r' = "Asha"%string /\ row_class r' = "8A"%string /\
    row_marks r' = 8850.
Proof.
  apply (menu_update_is_not_validated
           (mkFloats Z (fun _ => None) (fun _ => false) (fun _ => false)
                     (fun z => z))
           sms_live a_connection "student_db" later "2" "1" 1 "" " 200 " 200
           "" "" [Line "8"]
           (mkWorld [] [("localhost"%string, "student_db"%string, db_two)])
           db_two two_students asha);
    try reflexivity.
  - exact wf_two_students.
  - lia.
Defined.

(* ================================================================== *)
(** ** How [main] returns *)

(** Once the prompts of the bootstrap have been answered, [main] returns in
    two ways only. When the bootstrap gives no object it returns at once: no
    line of the menu is read and the loop is not entered. Otherwise it returns only after the input has told the loop to
    stop, by an interrupt or by choice 8, and then the [finally] clause has
    run: the object is left without a usable connection. No exception leaves
    [main] in either case. *)
Theorem main_returns_closed :
  forall sv fl now typed ticks inputs w o inputs' w',
  main sv fl now typed ticks inputs w = Some (o, inputs', w') ->
  (o = Returned None /\ inputs' = inputs /\
   setup_database sv now typed w = (Returned None, w')) \/
  (exists sms,
     o = Returned (Some sms) /\ released sms /\ told_to_stop inputs).
Proof.
  intros sv fl now typed ticks inputs w o inputs' w' H. unfold main in H.
  destruct (setup_database sv now typed w) as [[[sms|]|e] w1] eqn:Es.
  - destruct (loop fl sms ticks inputs w1) as [[i2 w2]|] eqn:El;
      [|discriminate].
    injection H as <- <- <-. right.
    exists (snd (close_connection sms)).
    split; [reflexivity|]. split.
    + unfold close_connection, released.
      destruct (connection sms) as [c|] eqn:Ec; cbn; [|now rewrite Ec].
      destruct (is_connected c) eqn:Ei; cbn; [reflexivity|].
      now rewrite Ec.
    + exact (loop_told_to_stop _ _ _ _ _ _ _ El).
  - injection H as <- <- <-. left. auto.
  - exfalso.
    pose proof (setup_database_returns sv now typed w) as R.
    rewrite Es in R. discriminate.
Qed.

Lemma main_returns_closed_witness :
  exists sms,
    host sms = "localhost"%string /\ released sms /\
    told_to_stop [Line "7"; Line " 8 "].
Proof.
  destruct (main_returns_closed a_server
              (mkFloats Z (fun _ => None) (fun _ => false) (fun _ => false)
                        (fun z => z))
              noon (mkTyped "" "" "" "") [noon; later]
              [Line "7"; Line " 8 "]
              (mkWorld [mkAccount "localhost" "root" "" true] [])
              (Returned (Some (mkSMS "localhost" "student_db" "root" ""
                 (Some (mkConnection "localhost" (Some "student_db"%string)
                                     false false)))))
              []
              (mkWorld [mkAccount "localhost" "root" "" true]
                 [("localhost"%string, "student_db"%string,
                   {| students := Some empty_table;
                      received := [(CREATE_TABLE_IF_NOT_EXISTS, []);
                                   (SELECT_COUNT, [])] |})])
              eq_refl)
    as [(H & _) | (sms & H & Hr & Ht)].
  - discriminate.
  - exists sms. injection H as <-. repeat split; assumption.
Defined.
